(** * Eco-Letras backend: identity tokens and deferred account deletion

    A shallow embedding of the token helpers of [app/core/security.py], the
    login, registration and deletion handlers of [app/routers/auth.py] and
    [app/routers/users.py], the password-reset request handler of
    [app/routers/password_reset.py] and the sweeper of
    [app/services/deletion_scheduler.py], followed by the properties of the
    deletion lifecycle and of the purpose-typed tokens. *)

From stdpp Require Import gmap strings list fin_maps pretty.
From Stdlib Require Import ZArith Lia Ascii.

Open Scope Z_scope.

#[local] Set Warnings "-register-all".

(** ** Time

    A timezone-aware [datetime] is a number of microseconds since the epoch
    (the resolution of Python's [datetime]); a [timedelta] is a number of
    microseconds. *)

Definition datetime := Z.
Definition timedelta := Z.

Definition timedelta_minutes (m : Z) : timedelta := m * 60 * 1000000.
Definition timedelta_hours (h : Z) : timedelta := h * 3600 * 1000000.

(** ** Python values and exceptions *)

(** The values a claim set can hold.  Floats are left out. *)
Inductive pyval :=
| PNone
| PBool (b : bool)
| PInt (z : Z)
| PStr (s : string)
| PDatetime (t : datetime)
| PList (l : list pyval)
| PDict (l : list (string * pyval)).

(** Python truthiness ([if v:], [not v]). *)
Definition truthy (v : pyval) : bool :=
  match v with
  | PNone => false
  | PBool b => b
  | PInt z => negb (z =? 0)
  | PStr s => negb (String.eqb s "")
  | PDatetime _ => true
  | PList l => match l with [] => false | _ => true end
  | PDict l => match l with [] => false | _ => true end
  end.

(** [v == s] for a string literal [s]. *)
Definition eq_str (v : pyval) (s : string) : bool :=
  match v with
  | PStr s' => String.eqb s' s
  | _ => false
  end.

(** A claim set is a [dict] with string keys. *)
Abbreviation Payload := (gmap string pyval).

(** [payload.get(k)]: the value, or [None] when the key is missing. *)
Definition py_get (payload : Payload) (k : string) : pyval :=
  default PNone (payload !! k).

Inductive exn :=
| HTTPException (status_code : Z) (detail : string)
| JWTError
| ValueError
| TypeError.

Inductive outcome (A : Type) :=
| Return (a : A)
| Raise (e : exn).
Arguments Return {A} a.
Arguments Raise {A} e.

Definition obind {A B : Type} (o : outcome A) (k : A -> outcome B) : outcome B :=
  match o with
  | Return a => k a
  | Raise e => Raise e
  end.

(** ** External collaborators

    The libraries the code calls (python-jose, passlib, [re], [str.strip],
    [int] on a string, [datetime.isoformat]) and the settings it reads. *)

Record Externals := {
  (** [settings.secret_key], [settings.algorithm],
      [settings.access_token_expire_minutes] *)
  secret_key : string;
  algorithm : string;
  access_token_expire_minutes : Z;
  (** [jwt.encode(claims, key, algorithm=...)] *)
  jwt_encode : Payload -> string -> string -> string;
  (** [jwt.decode(token, key, algorithms=[...])] at a given wall-clock time:
      the claims, or a [JWTError] (bad signature, malformed, expired) *)
  jwt_decode : string -> string -> list string -> datetime -> option Payload;
  (** [pwd_context.verify] and [pwd_context.hash] *)
  pwd_context_verify : string -> string -> bool;
  pwd_context_hash : string -> string;
  (** [EMAIL_REGEX.match] *)
  EMAIL_REGEX_match : string -> bool;
  (** [str.strip] *)
  str_strip : string -> string;
  (** [int(s)] for a string [s]; [None] is [ValueError] *)
  int_of_str : string -> option Z;
  (** [str(n)] for an integer [n] *)
  str_of_int : Z -> string;
  (** [datetime.isoformat] *)
  isoformat : datetime -> string;
  (** the ORM constructor call
      [Activity(user_id=.., action=.., details=.., ip_address=..)], whose
      base class lives in [app/core/database.py]: the keyword arguments it
      stores, or [None] when it raises *)
  Activity_init : Z -> string -> string -> string -> option (Z * string * string)
}.

(** ** app/core/security.py *)

Module Security.
Section WithExternals.
Variable ext : Externals.

(** [int(v)] as the verifiers use it. *)
Definition py_int (v : pyval) : outcome Z :=
  match v with
  | PInt z => Return z
  | PBool b => Return (if b then 1 else 0)
  | PStr s => match int_of_str ext s with
              | Some z => Return z
              | None => Raise ValueError
              end
  | _ => Raise TypeError
  end.

Definition decode (token : string) (now : datetime) : outcome Payload :=
  match jwt_decode ext token (secret_key ext) [algorithm ext] now with
  | Some payload => Return payload
  | None => Raise JWTError
  end.

Definition encode (to_encode : Payload) : string :=
  jwt_encode ext to_encode (secret_key ext) (algorithm ext).

Definition validate_email (email : string) : bool :=
  if String.eqb email "" then false
  else EMAIL_REGEX_match ext (str_strip ext email).

Definition verify_password (plain_password hashed_password : string) : bool :=
  if String.eqb plain_password "" || String.eqb hashed_password "" then false
  else pwd_context_verify ext plain_password hashed_password.

Definition get_password_hash (password : string) : outcome string :=
  if String.eqb password "" then Raise ValueError
  else Return (pwd_context_hash ext password).

Definition create_access_token (data : Payload) (expires_delta : option timedelta)
    (now : datetime) : outcome string :=
  if decide (data = ∅) then Raise ValueError
  else
    let expire :=
      match expires_delta with
      | Some d => if d =? 0 then now + timedelta_minutes (access_token_expire_minutes ext)
                  else now + d
      | None => now + timedelta_minutes (access_token_expire_minutes ext)
      end in
    Return (encode (<["exp" := PDatetime expire]> data)).

Definition RESET_TOKEN_EXPIRE_MINUTES : Z := 30.

Definition create_password_reset_token (email : string) (now : datetime)
    : outcome string :=
  if String.eqb email "" || negb (validate_email email) then Raise ValueError
  else
    let expire := now + timedelta_minutes RESET_TOKEN_EXPIRE_MINUTES in
    Return (encode (list_to_map
      [("sub", PStr email); ("exp", PDatetime expire);
       ("type", PStr "password_reset")])).

Definition verify_password_reset_token (token : string) (now : datetime)
    : outcome pyval :=
  if String.eqb token "" then Return PNone
  else
    match decode token now with
    | Return payload =>
        if negb (eq_str (py_get payload "type") "password_reset") then Return PNone
        else Return (py_get payload "sub")
    | Raise JWTError => Return PNone
    | Raise e => Raise e
    end.

Definition create_email_verification_token (email : string) (now : datetime)
    : outcome string :=
  if String.eqb email "" || negb (validate_email email) then Raise ValueError
  else
    let expire := now + timedelta_hours 24 in
    Return (encode (list_to_map
      [("sub", PStr email); ("exp", PDatetime expire);
       ("type", PStr "email_verification")])).

Definition verify_email_verification_token (token : string) (now : datetime)
    : outcome pyval :=
  if String.eqb token "" then Return PNone
  else
    match decode token now with
    | Return payload =>
        if negb (eq_str (py_get payload "type") "email_verification") then Return PNone
        else Return (py_get payload "sub")
    | Raise JWTError => Return PNone
    | Raise e => Raise e
    end.

Definition EMAIL_CHANGE_TOKEN_EXPIRE_HOURS : Z := 24.

Definition create_email_change_token (user_id : Z) (new_email : string)
    (now : datetime) : outcome string :=
  if (user_id =? 0) || (user_id <=? 0) then Raise ValueError
  else if String.eqb new_email "" || negb (validate_email new_email) then Raise ValueError
  else
    let expire := now + timedelta_hours EMAIL_CHANGE_TOKEN_EXPIRE_HOURS in
    Return (encode (list_to_map
      [("sub", PStr (str_of_int ext user_id)); ("new_email", PStr new_email);
       ("exp", PDatetime expire); ("type", PStr "email_change")])).

(** The body of the [try] block of [verify_email_change_token], after the
    decode. *)
Definition email_change_claims (payload : Payload) : outcome (option (Z * pyval)) :=
  if negb (eq_str (py_get payload "type") "email_change") then Return None
  else
    let user_id := py_get payload "sub" in
    let new_email := py_get payload "new_email" in
    if negb (truthy user_id) || negb (truthy new_email) then Return None
    else obind (py_int user_id) (fun n => Return (Some (n, new_email))).

Definition verify_email_change_token (token : string) (now : datetime)
    : outcome (option (Z * pyval)) :=
  if String.eqb token "" then Return None
  else
    match obind (decode token now) email_change_claims with
    | Raise JWTError | Raise ValueError => Return None
    | r => r
    end.

Definition ACCOUNT_DELETION_TOKEN_EXPIRE_HOURS : Z := 24.

Definition create_account_deletion_token (user_id : Z) (now : datetime) : string :=
  let expire := now + timedelta_hours ACCOUNT_DELETION_TOKEN_EXPIRE_HOURS in
  encode (list_to_map
    [("sub", PStr (str_of_int ext user_id)); ("exp", PDatetime expire);
     ("type", PStr "account_deletion")]).

Definition account_deletion_claims (payload : Payload) : outcome (option Z) :=
  if negb (eq_str (py_get payload "type") "account_deletion") then Return None
  else
    let user_id := py_get payload "sub" in
    if negb (truthy user_id) then Return None
    else obind (py_int user_id) (fun n => Return (Some n)).

Definition verify_account_deletion_token (token : string) (now : datetime)
    : outcome (option Z) :=
  match obind (decode token now) account_deletion_claims with
  | Raise JWTError | Raise ValueError => Return None
  | r => r
  end.

End WithExternals.
End Security.

(** ** app/models: the persisted rows

    The columns the modelled handlers read or write.  The primary key [id]
    is the key of the table.  The column [updated_at], which the database
    rewrites on every UPDATE of a row, and the profile columns are not
    among them: an equality of two rows is an equality of the columns
    listed here. *)

Record User := {
  email : string;
  username : string;
  hashed_password : string;
  full_name : option string;
  is_active : bool;
  is_admin : bool;
  is_verified : bool;
  created_at : datetime;
  last_login : option datetime;
  email_verified_at : option datetime;
  deletion_requested_at : option datetime;
  deletion_scheduled_at : option datetime
}.

Definition set_last_login (v : option datetime) (u : User) : User :=
  {| email := email u; username := username u;
     hashed_password := hashed_password u; full_name := full_name u;
     is_active := is_active u; is_admin := is_admin u;
     is_verified := is_verified u; created_at := created_at u;
     last_login := v;
     email_verified_at := email_verified_at u;
     deletion_requested_at := deletion_requested_at u;
     deletion_scheduled_at := deletion_scheduled_at u |}.

Definition set_deletion_requested_at (v : option datetime) (u : User) : User :=
  {| email := email u; username := username u;
     hashed_password := hashed_password u; full_name := full_name u;
     is_active := is_active u; is_admin := is_admin u;
     is_verified := is_verified u; created_at := created_at u;
     last_login := last_login u;
     email_verified_at := email_verified_at u;
     deletion_requested_at := v;
     deletion_scheduled_at := deletion_scheduled_at u |}.

Definition set_deletion_scheduled_at (v : option datetime) (u : User) : User :=
  {| email := email u; username := username u;
     hashed_password := hashed_password u; full_name := full_name u;
     is_active := is_active u; is_admin := is_admin u;
     is_verified := is_verified u; created_at := created_at u;
     last_login := last_login u;
     email_verified_at := email_verified_at u;
     deletion_requested_at := deletion_requested_at u;
     deletion_scheduled_at := v |}.

Definition set_is_verified (v : bool) (u : User) : User :=
  {| email := email u; username := username u;
     hashed_password := hashed_password u; full_name := full_name u;
     is_active := is_active u; is_admin := is_admin u;
     is_verified := v; created_at := created_at u;
     last_login := last_login u;
     email_verified_at := email_verified_at u;
     deletion_requested_at := deletion_requested_at u;
     deletion_scheduled_at := deletion_scheduled_at u |}.

Definition set_email_verified_at (v : option datetime) (u : User) : User :=
  {| email := email u; username := username u;
     hashed_password := hashed_password u; full_name := full_name u;
     is_active := is_active u; is_admin := is_admin u;
     is_verified := is_verified u; created_at := created_at u;
     last_login := last_login u;
     email_verified_at := v;
     deletion_requested_at := deletion_requested_at u;
     deletion_scheduled_at := deletion_scheduled_at u |}.

Record Activity := {
  user_id : Z;
  action : string;
  description : option string;
  ip_address : option string
}.

(** The two tables. *)
Record Database := {
  users : gmap Z User;
  activities : list Activity
}.

Definition with_users (f : gmap Z User -> gmap Z User) (d : Database) : Database :=
  {| users := f (users d); activities := activities d |}.

Definition with_activities (f : list Activity -> list Activity) (d : Database)
    : Database :=
  {| users := users d; activities := f (activities d) |}.

(** Background tasks a handler hands to the framework. *)
Inductive Task :=
| send_verification_email (to token : string)
| send_reset_email (to token : string)
| send_account_deletion_confirmation (to token : string)
| send_account_deletion_cancelled (to : string).

(** ** The ORM session of one request

    [committed] is the stored database, [working] the session's view with
    its pending changes; [db.commit()] stores the pending changes,
    [db.rollback()] drops them, and closing the session at the end of the
    request drops whatever was not committed. *)

Record World := {
  committed : Database;
  working : Database;
  background_tasks : list Task
}.

Definition M (A : Type) : Type := World -> outcome A * World.

Definition ret {A : Type} (a : A) : M A := fun w => (Return a, w).

Definition raise {A : Type} (e : exn) : M A := fun w => (Raise e, w).

Definition bind {A B : Type} (m : M A) (k : A -> M B) : M B :=
  fun w =>
    match m w with
    | (Return a, w') => k a w'
    | (Raise e, w') => (Raise e, w')
    end.

#[global] Instance M_ret : MRet M := @ret.
#[global] Instance M_bind : MBind M := fun A B k m => bind m k.

Definition lift {A : Type} (o : outcome A) : M A := fun w => (o, w).

(** [try: body / except Exception as e: handler e] *)
Definition try_except {A : Type} (body : M A) (handler : exn -> M A) : M A :=
  fun w =>
    match body w with
    | (Return a, w') => (Return a, w')
    | (Raise e, w') => handler e w'
    end.

Definition db_commit : M unit :=
  fun w => (Return tt,
            {| committed := working w; working := working w;
               background_tasks := background_tasks w |}).

Definition db_rollback : M unit :=
  fun w => (Return tt,
            {| committed := committed w; working := committed w;
               background_tasks := background_tasks w |}).

Definition modify_working (f : Database -> Database) : M unit :=
  fun w => (Return tt,
            {| committed := committed w; working := f (working w);
               background_tasks := background_tasks w |}).

Definition read_working {A : Type} (f : Database -> A) : M A :=
  fun w => (Return (f (working w)), w).

(** [background_tasks.add_task(...)] *)
Definition add_task (t : Task) : M unit :=
  fun w => (Return tt,
            {| committed := committed w; working := working w;
               background_tasks := background_tasks w ++ [t] |}).

(** [setattr(user, field, value)] on the row with primary key [uid]. *)
Definition setattr (uid : Z) (f : User -> User) : M unit :=
  modify_working (with_users (alter f uid)).

(** [db.add(row)] *)
Definition db_add_activity (a : Activity) : M unit :=
  modify_working (with_activities (fun l => l ++ [a])).

(** [db.delete(user)]: the row goes, and with it the activities that
    belong to it ([cascade="all, delete-orphan"]). *)
Definition db_delete_user (uid : Z) : M unit :=
  modify_working (fun d =>
    {| users := delete uid (users d);
       activities := List.filter (fun a => negb (user_id a =? uid)) (activities d) |}).

(** [db.query(User).filter(c).all()], as (primary key, row) pairs. *)
Definition query_all (c : User -> bool) (d : Database) : list (Z * User) :=
  List.filter (fun p => c (snd p)) (map_to_list (users d)).

(** [db.query(User).filter(c).first()] *)
Definition query_first (c : User -> bool) (d : Database) : option (Z * User) :=
  List.find (fun p => c (snd p)) (map_to_list (users d)).

(** [db.query(User).filter(User.id == uid).first()] *)
Definition query_by_id (uid : Z) (d : Database) : option (Z * User) :=
  match users d !! uid with
  | Some u => Some (uid, u)
  | None => None
  end.

(** The key the autoincrement primary key gives a new row.  The sequence
    of the database hands out a key above every key in use; the model
    takes the first one, which is 1 on an empty table.  (The sequence
    does not give the key of a deleted row again; the properties below use
    only that the key is not in use.) *)
Definition next_user_id (d : Database) : Z :=
  1 + foldr Z.max 0 ((map_to_list (users d)).*1).

#[global] Arguments next_user_id : simpl never.

(** A request starts on a fresh session over the stored database and ends
    by closing it. *)
Definition open_session (d : Database) : World :=
  {| committed := d; working := d; background_tasks := [] |}.

Definition run_request {A : Type} (handler : M A) (d : Database)
    : outcome A * Database * list Task :=
  let '(r, w) := handler (open_session d) in
  (r, committed w, background_tasks w).

(** [for x in l: body x] *)
Fixpoint for_each {A : Type} (l : list A) (body : A -> M unit) : M unit :=
  match l with
  | [] => mret tt
  | x :: l' => body x ;; for_each l' body
  end.

(** ** app/routers/auth.py *)

Record Token := {
  access_token : string;
  token_type : string;
  expires_in : Z;
  refresh_token : option string;
  scope : option string
}.

Record UserCreate := {
  uc_username : string;
  uc_email : string;
  uc_full_name : option string;
  uc_password : string
}.

Module Auth.
Section WithExternals.
Variable ext : Externals.

Definition get_user_by_username (name : string) : M (option (Z * User)) :=
  read_working (query_first (fun u => String.eqb (username u) name)).

Definition get_user_by_email (mail : string) : M (option (Z * User)) :=
  read_working (query_first (fun u => String.eqb (email u) mail)).

Definition authenticate_user (name password : string) : M (option (Z * User)) :=
  user ← get_user_by_username name;
  user ← match user with
         | None => get_user_by_email name
         | Some _ => mret user
         end;
  match user with
  | None => mret None
  | Some (uid, u) =>
      if negb (Security.verify_password ext password (hashed_password u))
      then mret None
      else mret (Some (uid, u))
  end.

Definition register_user (user : UserCreate) (now : datetime) : M (Z * User) :=
  db_user ← read_working (query_first (fun u =>
    String.eqb (username u) (uc_username user)
    || String.eqb (email u) (uc_email user)));
  match db_user with
  | Some (_, existing) =>
      if String.eqb (username existing) (uc_username user)
      then raise (HTTPException 400 "Nombre de usuario ya registrado")
      else raise (HTTPException 400 "Email ya registrado")
  | None =>
      hashed ← lift (Security.get_password_hash ext (uc_password user));
      let new_user :=
        {| email := uc_email user; username := uc_username user;
           hashed_password := hashed; full_name := uc_full_name user;
           is_active := true; is_admin := false; is_verified := false;
           created_at := now; last_login := None;
           email_verified_at := None;
           deletion_requested_at := None;
           deletion_scheduled_at := None |} in
      (* the primary key the database allocates *)
      new_id ← read_working next_user_id;
      modify_working (with_users (insert new_id new_user)) ;;
      db_commit ;;
      token ← lift (Security.create_email_verification_token ext
                      (email new_user) now);
      add_task (send_verification_email (email new_user) token) ;;
      mret (new_id, new_user)
  end.

Definition login_for_access_token (form_username form_password : string)
    (now : datetime) : M Token :=
  user ← authenticate_user form_username form_password;
  match user with
  | None =>
      raise (HTTPException 401 "Nombre de usuario o contraseña incorrectos")
  | Some (uid, u) =>
      if negb (is_verified u) then
        raise (HTTPException 401 "Debes verificar tu correo antes de iniciar sesión.")
      else
        setattr uid (set_last_login (Some now)) ;;
        match deletion_requested_at u with
        | Some _ =>
            setattr uid (set_deletion_requested_at None) ;;
            setattr uid (set_deletion_scheduled_at None) ;;
            add_task (send_account_deletion_cancelled (email u))
        | None => mret tt
        end ;;
        db_commit ;;
        token ← lift (Security.create_access_token ext
                        {[ "sub" := PStr (username u) ]}
                        (Some (timedelta_minutes (access_token_expire_minutes ext)))
                        now);
        mret {| access_token := token; token_type := "bearer";
                expires_in := access_token_expire_minutes ext * 60;
                refresh_token := None; scope := None |}
  end.

Definition confirm_account_deletion (token_data : gmap string string)
    (now : datetime) : M (gmap string string) :=
  match token_data !! "token" with
  | None => raise (HTTPException 400 "Token requerido")
  | Some token =>
      if String.eqb token "" then raise (HTTPException 400 "Token requerido")
      else
        data ← lift (Security.verify_account_deletion_token ext token now);
        match data with
        | None => raise (HTTPException 400 "Token inválido o expirado")
        | Some uid =>
            user ← read_working (query_by_id uid);
            match user with
            | None => raise (HTTPException 404 "Usuario no encontrado")
            | Some (_, u) =>
                match deletion_requested_at u with
                | None =>
                    raise (HTTPException 400
                             "No hay solicitud de eliminación pendiente")
                | Some _ =>
                    let deletion_time := now + timedelta_hours 24 in
                    setattr uid (set_deletion_scheduled_at (Some deletion_time)) ;;
                    db_commit ;;
                    mret (list_to_map
                      [("msg", "Eliminación confirmada. Tu cuenta será eliminada automáticamente en 24 horas.");
                       ("deletion_scheduled_at", isoformat ext deletion_time)])
                end
            end
        end
  end.

End WithExternals.
End Auth.

(** ** app/routers/users.py *)

Module Users.
Section WithExternals.
Variable ext : Externals.

(** [get_client_ip(request)]; the argument is [request.client.host] when
    the request has a client. *)
Definition get_client_ip (client : option string) : string :=
  default "unknown" client.

Definition check_user_authorization (current_user : Z * User) (uid : Z) : M unit :=
  let current_user_id := fst current_user in
  let admin := is_admin (snd current_user) in
  if negb (current_user_id =? uid) && negb admin then
    raise (HTTPException 403 "No tienes autorización para realizar esta acción")
  else mret tt.

Definition log_user_activity (uid : Z) (act details : string)
    (client : option string) : M unit :=
  try_except
    (match Activity_init ext uid act details (get_client_ip client) with
     | None => raise TypeError
     | Some (a_uid, a_action, a_ip) =>
         db_add_activity {| user_id := a_uid; action := a_action;
                            description := None; ip_address := Some a_ip |} ;;
         db_commit
     end)
    (fun _ => mret tt).

(** The [except] clauses shared by the two deletion endpoints:
    an [HTTPException] passes through, anything else rolls the session
    back and becomes a 500. *)
Definition except_clauses {A : Type} (body : M A) : M A :=
  try_except body (fun e =>
    match e with
    | HTTPException _ _ => raise e
    | _ => db_rollback ;; raise (HTTPException 500 "Error interno del servidor")
    end).

Definition request_account_deletion (uid : Z) (client : option string)
    (current_user : Z * User) (now : datetime) : M (gmap string string) :=
  except_clauses (
    check_user_authorization current_user uid ;;
    user ← read_working (query_by_id uid);
    match user with
    | None => raise (HTTPException 404 "Usuario no encontrado")
    | Some (_, u) =>
        let user_email := email u in
        match deletion_requested_at u with
        | Some _ =>
            raise (HTTPException 400
                     "Ya existe una solicitud de eliminación pendiente")
        | None =>
            let deletion_time := now + timedelta_hours 24 in
            setattr uid (set_deletion_requested_at (Some now)) ;;
            setattr uid (set_deletion_scheduled_at (Some deletion_time)) ;;
            let token := Security.create_account_deletion_token ext uid now in
            add_task (send_account_deletion_confirmation user_email token) ;;
            log_user_activity uid "account_deletion_requested"
              ("Solicitó eliminación de cuenta desde IP " +:+ get_client_ip client)
              client ;;
            db_commit ;;
            mret (list_to_map
              [("message", "Solicitud de eliminación enviada. Tu cuenta será eliminada en 24 horas. Revisa tu correo para confirmar o inicia sesión para cancelar.");
               ("deletion_scheduled_at", isoformat ext deletion_time)])
        end
    end).

Definition cancel_account_deletion (uid : Z) (client : option string)
    (current_user : Z * User) : M (gmap string string) :=
  except_clauses (
    check_user_authorization current_user uid ;;
    user ← read_working (query_by_id uid);
    match user with
    | None => raise (HTTPException 404 "Usuario no encontrado")
    | Some (_, u) =>
        match deletion_requested_at u with
        | None =>
            raise (HTTPException 400
                     "No hay ninguna eliminación programada para cancelar")
        | Some _ =>
            let user_email := email u in
            setattr uid (set_deletion_requested_at None) ;;
            setattr uid (set_deletion_scheduled_at None) ;;
            add_task (send_account_deletion_cancelled user_email) ;;
            log_user_activity uid "account_deletion_cancelled"
              ("Canceló eliminación de cuenta desde IP " +:+ get_client_ip client)
              client ;;
            db_commit ;;
            mret (list_to_map
              [("message", "Eliminación de cuenta cancelada correctamente")])
        end
    end).

End WithExternals.
End Users.

(** ** app/routers/password_reset.py *)

Module PasswordReset.
Section WithExternals.
Variable ext : Externals.

Definition standard_message : gmap string string :=
  list_to_map
    [("message", "Si el correo electrónico existe en nuestro sistema, recibirás instrucciones para restablecer tu contraseña.")].

Definition request_password_reset (client : option string) (data_email : string)
    (now : datetime) : M (gmap string string) :=
  try_except (
    let client_ip := default "unknown" client in
    user ← read_working (query_first (fun u => String.eqb (email u) data_email));
    match user with
    | Some (uid, u) =>
        if is_active u then
          token ← lift (Security.create_password_reset_token ext (email u) now);
          match Activity_init ext uid "password_reset_requested"
                  ("Solicitó restablecimiento de contraseña desde IP " +:+ client_ip)
                  client_ip with
          | None => raise TypeError
          | Some (a_uid, a_action, a_ip) =>
              db_add_activity {| user_id := a_uid; action := a_action;
                                 description := None; ip_address := Some a_ip |} ;;
              db_commit ;;
              add_task (send_reset_email (email u) token)
          end
        else mret tt
    | None => mret tt
    end ;;
    mret standard_message)
  (fun _ => mret standard_message).

End WithExternals.
End PasswordReset.

(** ** app/services/deletion_scheduler.py *)

Module DeletionScheduler.

(** [deletion_scheduled_at IS NOT NULL AND deletion_scheduled_at <= now] *)
Definition due (now : datetime) (u : User) : bool :=
  match deletion_scheduled_at u with
  | Some t => t <=? now
  | None => false
  end.

Definition process_pending_deletions (now : datetime) : M unit :=
  try_except (
    users_to_delete ← read_working (query_all (due now));
    for_each users_to_delete (fun user =>
      try_except
        (db_delete_user (fst user) ;; db_commit)
        (fun _ => db_rollback)))
  (fun _ => mret tt).

(** [deletion_requested_at IS NOT NULL AND deletion_scheduled_at IS NULL
    AND deletion_requested_at <= now] *)
Definition expired_request (now : datetime) (u : User) : bool :=
  match deletion_requested_at u, deletion_scheduled_at u with
  | Some r, None => r <=? now
  | _, _ => false
  end.

Definition cleanup_expired_requests (now : datetime) : M unit :=
  try_except (
    expired_requests ← read_working (query_all (expired_request now));
    for_each expired_requests (fun user =>
      setattr (fst user) (set_deletion_requested_at None)) ;;
    db_commit)
  (fun _ => mret tt).

Definition run_deletion_scheduler (now : datetime) : M unit :=
  process_pending_deletions now ;;
  cleanup_expired_requests now.

End DeletionScheduler.

(** What a scheduler pass leaves in the store: each job opens its own
    session ([SessionLocal()]) and closes it at the end. *)
Definition sweep (now : datetime) (d : Database) : Database :=
  snd (fst (run_request (DeletionScheduler.process_pending_deletions now) d)).

Definition cleanup (now : datetime) (d : Database) : Database :=
  snd (fst (run_request (DeletionScheduler.cleanup_expired_requests now) d)).

(** ** The authentication dependencies of the endpoints

    [verify_token] of [app/core/security.py], and [get_current_user] with
    its refinements of [app/routers/auth.py]. *)

Module Deps.
Section WithExternals.
Variable ext : Externals.

(** [str(e)] for the [JWTError] that [jwt.decode] raises on a token. *)
Variable jwt_error_text : string -> datetime -> string.

(** How the database compares the [username] column with a bound value
    that is not a string. *)
Variable username_matches_other : string -> pyval -> bool.

Definition verify_token (token : string) (now : datetime) : outcome Payload :=
  if String.eqb token "" then
    Raise (HTTPException 401 "Token no proporcionado")
  else
    match Security.decode ext token now with
    | Return payload => Return payload
    | Raise JWTError =>
        Raise (HTTPException 401 ("Token inválido: " +:+ jwt_error_text token now))
    | Raise e => Raise e
    end.

Definition credentials_exception : exn :=
  HTTPException 401 "No se pudieron validar las credenciales".

(** [User.username == v] *)
Definition username_equals (v : pyval) (u : User) : bool :=
  match v with
  | PStr s => String.eqb (username u) s
  | _ => username_matches_other (username u) v
  end.

Definition get_current_user (token : string) (now : datetime) : M (Z * User) :=
  name ← try_except
    (payload ← lift (verify_token token now);
     let name := py_get payload "sub" in
     if negb (truthy name) then raise credentials_exception
     else mret name)
    (fun e =>
       match e with
       | JWTError => raise credentials_exception
       | _ => raise e
       end);
  user ← read_working (query_first (username_equals name));
  match user with
  | None => raise credentials_exception
  | Some current_user => mret current_user
  end.

Definition get_current_active_user (current_user : Z * User) : outcome (Z * User) :=
  if negb (is_active (snd current_user)) then
    Raise (HTTPException 400 "Usuario inactivo")
  else Return current_user.

Definition get_current_verified_user (current_user : Z * User) : outcome (Z * User) :=
  if negb (is_verified (snd current_user)) then
    Raise (HTTPException 403
             "Debes verificar tu correo electrónico para acceder a esta función")
  else Return current_user.

Definition get_current_admin_user (current_user : Z * User) : outcome (Z * User) :=
  if negb (is_admin (snd current_user)) then
    Raise (HTTPException 403 "No tienes permisos de administrador")
  else Return current_user.

(** [Depends(get_current_active_user)], [Depends(get_current_verified_user)]
    and [Depends(get_current_admin_user)], resolved from the bearer token. *)
Definition current_active_user (token : string) (now : datetime) : M (Z * User) :=
  current_user ← get_current_user token now;
  lift (get_current_active_user current_user).

Definition current_verified_user (token : string) (now : datetime) : M (Z * User) :=
  current_user ← current_active_user token now;
  lift (get_current_verified_user current_user).

Definition current_admin_user (token : string) (now : datetime) : M (Z * User) :=
  current_user ← current_active_user token now;
  lift (get_current_admin_user current_user).

End WithExternals.
End Deps.

(** ** app/routers/auth.py: verifying an email, resending the mail *)

Module AuthVerification.
Section WithExternals.
Variable ext : Externals.

(** How the database compares the [email] column with a bound value that
    is not a string. *)
Variable email_matches_other : string -> pyval -> bool.

(** [User.email == v] *)
Definition email_equals (v : pyval) (u : User) : bool :=
  match v with
  | PStr s => String.eqb (email u) s
  | _ => email_matches_other (email u) v
  end.

Definition verify_email (token : string) (now : datetime)
    : M (gmap string string) :=
  mail ← lift (Security.verify_email_verification_token ext token now);
  if negb (truthy mail) then
    raise (HTTPException 400 "Token inválido o expirado")
  else
    user ← read_working (query_first (email_equals mail));
    match user with
    | None => raise (HTTPException 404 "Usuario no encontrado")
    | Some (uid, u) =>
        if is_verified u then
          mret (list_to_map [("msg", "El correo ya estaba verificado")])
        else
          setattr uid (set_is_verified true) ;;
          setattr uid (set_email_verified_at (Some now)) ;;
          db_commit ;;
          mret (list_to_map [("msg", "Correo verificado correctamente")])
    end.

Definition resend_message : gmap string string :=
  list_to_map
    [("msg", "Si el correo existe y no está verificado, recibirás un nuevo email de verificación")].

Definition resend_verification_email (mail : string) (now : datetime)
    : M (gmap string string) :=
  user ← Auth.get_user_by_email mail;
  match user with
  | None => mret resend_message
  | Some (_, u) =>
      if is_verified u then
        raise (HTTPException 400 "El correo ya está verificado")
      else
        token ← lift (Security.create_email_verification_token ext mail now);
        add_task (send_verification_email mail token) ;;
        mret resend_message
  end.

End WithExternals.
End AuthVerification.

(** ** app/routers/users.py: verification mail and session endpoints *)

Module UsersSession.
Section WithExternals.
Variable ext : Externals.

(** These two endpoints catch [HTTPException], which they raise again, and
    database errors only: any other exception passes through as it is. *)
Definition resend_verification_email (uid : Z) (client : option string)
    (current_user : Z * User) (now : datetime) : M (gmap string string) :=
  Users.check_user_authorization current_user uid ;;
  user ← read_working (query_by_id uid);
  match user with
  | None => raise (HTTPException 404 "Usuario no encontrado")
  | Some (_, u) =>
      if is_verified u then
        mret (list_to_map [("message", "El correo electrónico ya está verificado")])
      else
        let user_email := email u in
        token ← lift (Security.create_email_verification_token ext user_email now);
        add_task (send_verification_email user_email token) ;;
        Users.log_user_activity ext uid "verification_email_resent"
          ("Reenvió email de verificación a " +:+ user_email) client ;;
        mret (list_to_map
                [("message", "Correo de verificación reenviado exitosamente")])
  end.

(** [password_changed_at] is not a column of [User]: the [setattr] leaves
    the row as it is, and the commit has nothing to store for it. *)
Definition logout_all_sessions (uid : Z) (client : option string)
    (current_user : Z * User) (now : datetime) : M (gmap string string) :=
  Users.check_user_authorization current_user uid ;;
  user ← read_working (query_by_id uid);
  match user with
  | None => raise (HTTPException 404 "Usuario no encontrado")
  | Some (_, u) =>
      setattr uid (fun row => row) ;;
      db_commit ;;
      Users.log_user_activity ext uid "logout_all_sessions"
        ("Cerró todas las sesiones desde IP " +:+ Users.get_client_ip client)
        client ;;
      mret (list_to_map
              [("message", "Sesiones cerradas en todos los dispositivos")])
  end.

End WithExternals.
End UsersSession.

(** ** app/routers/password_reset.py: checking a reset token *)

Module PasswordResetToken.
Section WithExternals.
Variable ext : Externals.

(** How the database compares the [email] column with a bound value that
    is not a string. *)
Variable email_matches_other : string -> pyval -> bool.

(** [User.email == v] *)
Definition email_equals (v : pyval) (u : User) : bool :=
  match v with
  | PStr s => String.eqb (email u) s
  | _ => email_matches_other (email u) v
  end.

Definition invalid_or_expired : exn :=
  HTTPException 400 "Token inválido o expirado".

Definition verify_reset_token (token : string) (now : datetime)
    : M (gmap string pyval) :=
  try_except (
    mail ← lift (Security.verify_password_reset_token ext token now);
    if negb (truthy mail) then raise invalid_or_expired
    else
      user ← read_working (query_first (email_equals mail));
      match user with
      | None => raise invalid_or_expired
      | Some (_, u) =>
          if negb (is_active u) then raise invalid_or_expired
          else mret (list_to_map
                       [("valid", PBool true); ("email", mail);
                        ("message", PStr "Token válido")])
      end)
  (fun e =>
     match e with
     | HTTPException _ _ => raise e
     | _ => raise (HTTPException 500 "Error interno del servidor")
     end).

End WithExternals.
End PasswordResetToken.

(** ** A concrete instance of the collaborators

    A small stand-in used to run the handlers on concrete inputs: a token
    is the purpose tag and the subject joined by a dot, passwords are
    hashed by prefixing, and the ORM constructor refuses the [details]
    keyword, which is not a column of [Activity]. *)

Module Fixture.

Fixpoint has_dot (s : string) : bool :=
  match s with
  | EmptyString => false
  | String c s' => if Ascii.eqb c "."%char then true else has_dot s'
  end.

Fixpoint split_dot (s : string) : option (string * string) :=
  match s with
  | EmptyString => None
  | String c s' =>
      if Ascii.eqb c "."%char then Some (EmptyString, s')
      else match split_dot s' with
           | Some (a, b) => Some (String c a, b)
           | None => None
           end
  end.

Definition fx_encode (p : Payload) (key alg : string) : string :=
  match p !! "type", p !! "sub" with
  | Some (PStr ty), Some (PStr sb) =>
      if has_dot ty then "" else ty +:+ "." +:+ sb
  | _, _ => ""
  end.

Definition fx_decode (token key : string) (algs : list string) (now : datetime)
    : option Payload :=
  match split_dot token with
  | Some (ty, sb) => Some (list_to_map [("type", PStr ty); ("sub", PStr sb)])
  | None => None
  end.

Definition digit_of (c : Ascii.ascii) : option Z :=
  let n := Z.of_nat (Ascii.nat_of_ascii c) in
  if (48 <=? n) && (n <=? 57) then Some (n - 48) else None.

Fixpoint digits (s : string) (acc : Z) : option Z :=
  match s with
  | EmptyString => Some acc
  | String c s' =>
      match digit_of c with
      | Some d => digits s' (10 * acc + d)
      | None => None
      end
  end.

Definition fx_int_of_str (s : string) : option Z :=
  match s with
  | EmptyString => None
  | _ => digits s 0
  end.

Fixpoint has_at (s : string) : bool :=
  match s with
  | EmptyString => false
  | String c s' => if Ascii.eqb c "@"%char then true else has_at s'
  end.

Definition externals : Externals :=
  {| secret_key := "secret";
     algorithm := "HS256";
     access_token_expire_minutes := 30;
     jwt_encode := fx_encode;
     jwt_decode := fx_decode;
     pwd_context_verify := fun plain hashed => String.eqb ("bcrypt$" +:+ plain) hashed;
     pwd_context_hash := fun plain => "bcrypt$" +:+ plain;
     EMAIL_REGEX_match := has_at;
     str_strip := fun s => s;
     int_of_str := fx_int_of_str;
     str_of_int := fun n => pretty n;
     isoformat := fun t => pretty t;
     Activity_init := fun _ _ _ _ => None |}.

Definition alice : User :=
  {| email := "alice@example.com"; username := "alice";
     hashed_password := "bcrypt$Secreta123"; full_name := None;
     is_active := true; is_admin := false; is_verified := true;
     created_at := 0; last_login := None;
     email_verified_at := None;
     deletion_requested_at := None; deletion_scheduled_at := None |}.

Definition hour : Z := timedelta_hours 1.

Definition db_active : Database :=
  {| users := {[ 1 := alice ]}; activities := [] |}.

(** [alice] with a deletion requested at time 0 and scheduled for hour 24. *)
Definition alice_scheduled : User :=
  set_deletion_scheduled_at (Some (24 * hour))
    (set_deletion_requested_at (Some 0) alice).

Definition db_scheduled : Database :=
  {| users := {[ 1 := alice_scheduled ]}; activities := [] |}.

(** An account that never verified its email, with a scheduled deletion. *)
Definition carol : User :=
  {| email := "carol@example.com"; username := "carol";
     hashed_password := "bcrypt$Clave4567"; full_name := None;
     is_active := true; is_admin := false; is_verified := false;
     created_at := 0; last_login := None;
     email_verified_at := None;
     deletion_requested_at := Some 0;
     deletion_scheduled_at := Some (24 * hour) |}.

Definition db_unverified : Database :=
  {| users := {[ 2 := carol ]}; activities := [] |}.



(** A registration form, and the row it creates at time 0. *)
Definition dora_form : UserCreate :=
  {| uc_username := "dora"; uc_email := "dora@example.com";
     uc_full_name := None; uc_password := "Guitarra99" |}.

Definition dora : User :=
  {| email := "dora@example.com"; username := "dora";
     hashed_password := "bcrypt$Guitarra99"; full_name := None;
     is_active := true; is_admin := false; is_verified := false;
     created_at := 0; last_login := None;
     email_verified_at := None;
     deletion_requested_at := None; deletion_scheduled_at := None |}.

Definition deletion_token : gmap string string :=
  {[ "token" := "account_deletion.1" ]}.

End Fixture.

(** A second stand-in for the JWT library, which also carries access
    tokens (claims without a [type]) and the [new_email] claim: the fields
    are joined by dots, the purpose tag and the subject must not contain
    one. *)

Module Scenario.

Definition sc_encode (p : Payload) (key alg : string) : string :=
  match p !! "sub" with
  | Some (PStr sb) =>
      if Fixture.has_dot sb then ""
      else
        match p !! "type", p !! "new_email" with
        | None, None => "access." +:+ sb
        | Some (PStr ty), Some (PStr ne) =>
            if Fixture.has_dot ty || String.eqb ty "access" then ""
            else ty +:+ "." +:+ sb +:+ "." +:+ ne
        | _, _ => ""
        end
  | _ => ""
  end.

Definition sc_decode (token key : string) (algs : list string) (now : datetime)
    : option Payload :=
  match Fixture.split_dot token with
  | Some (ty, rest) =>
      if String.eqb ty "access" then
        if Fixture.has_dot rest then None
        else Some (list_to_map [("sub", PStr rest)])
      else
        match Fixture.split_dot rest with
        | Some (sb, ne) =>
            Some (list_to_map
                    [("type", PStr ty); ("sub", PStr sb); ("new_email", PStr ne)])
        | None => None
        end
  | None => None
  end.

Definition externals : Externals :=
  {| secret_key := "secret";
     algorithm := "HS256";
     access_token_expire_minutes := 30;
     jwt_encode := sc_encode;
     jwt_decode := sc_decode;
     pwd_context_verify := fun plain hashed => String.eqb ("bcrypt$" +:+ plain) hashed;
     pwd_context_hash := fun plain => "bcrypt$" +:+ plain;
     EMAIL_REGEX_match := Fixture.has_at;
     str_strip := fun s => s;
     int_of_str := Fixture.fx_int_of_str;
     str_of_int := fun n => pretty n;
     isoformat := fun t => pretty t;
     Activity_init := fun _ _ _ _ => None |}.

Definition jwt_error_text (token : string) (now : datetime) : string :=
  "Signature verification failed.".

Definition matches_other (column : string) (v : pyval) : bool := false.

(** [alice] and an administrator in one store. *)
Definition root : User :=
  {| email := "root@example.com"; username := "root";
     hashed_password := "bcrypt$Maestro2024"; full_name := None;
     is_active := true; is_admin := true; is_verified := true;
     created_at := 0; last_login := None;
     email_verified_at := None;
     deletion_requested_at := None; deletion_scheduled_at := None |}.

Definition db_two : Database :=
  {| users := {[ 1 := Fixture.alice; 2 := root ]}; activities := [] |}.

(** [alice] scheduled for hour 24, with two logged activities, beside
    [root] with one. *)
Definition db_with_activities : Database :=
  {| users := {[ 1 := Fixture.alice_scheduled; 2 := root ]};
     activities :=
       [ {| user_id := 1; action := "login"; description := None;
            ip_address := None |};
         {| user_id := 2; action := "login"; description := None;
            ip_address := None |};
         {| user_id := 1; action := "logout"; description := None;
            ip_address := None |} ] |}.

End Scenario.

(** * Specification vocabulary *)

(** ** Purpose-typed tokens *)

Inductive Purpose :=
| password_reset
| email_verification
| email_change
| account_deletion.

(** [issued ext k tok]: [tok] was returned by the creator of purpose [k]. *)
Definition issued (ext : Externals) (k : Purpose) (tok : string) : Prop :=
  match k with
  | password_reset =>
      exists mail now, Security.create_password_reset_token ext mail now = Return tok
  | email_verification =>
      exists mail now, Security.create_email_verification_token ext mail now = Return tok
  | email_change =>
      exists uid mail now,
        Security.create_email_change_token ext uid mail now = Return tok
  | account_deletion =>
      exists uid now, Security.create_account_deletion_token ext uid now = tok
  end.

(** [returns_none ext k tok now]: the verifier of purpose [k] returns
    [None] on [tok], without raising. *)
Definition returns_none (ext : Externals) (k : Purpose) (tok : string)
    (now : datetime) : Prop :=
  match k with
  | password_reset => Security.verify_password_reset_token ext tok now = Return PNone
  | email_verification =>
      Security.verify_email_verification_token ext tok now = Return PNone
  | email_change => Security.verify_email_change_token ext tok now = Return None
  | account_deletion => Security.verify_account_deletion_token ext tok now = Return None
  end.

(** What the verifiers rely on from the JWT library: when a token made by
    [jwt.encode] decodes, the claims that come back carry the [type] that
    went in. *)
Definition codec_keeps_type (ext : Externals) : Prop :=
  forall (p p' : Payload) (now : datetime),
    jwt_decode ext (jwt_encode ext p (secret_key ext) (algorithm ext))
      (secret_key ext) [algorithm ext] now = Some p' ->
    py_get p' "type" = py_get p "type".

Definition type_tag (k : Purpose) : string :=
  match k with
  | password_reset => "password_reset"
  | email_verification => "email_verification"
  | email_change => "email_change"
  | account_deletion => "account_deletion"
  end.

(** ** Vocabulary of the deletion lifecycle *)

(** The stored database and the outcome a request leaves behind. *)
Definition db_after {A : Type} (handler : M A) (d : Database) : Database :=
  snd (fst (run_request handler d)).

Definition result_of {A : Type} (handler : M A) (d : Database) : outcome A :=
  fst (fst (run_request handler d)).

(** [check_user_authorization] lets the caller through. *)
Definition authorized (current_user : Z * User) (uid : Z) : Prop :=
  fst current_user = uid \/ is_admin (snd current_user) = true.

Definition requested_and_scheduled (now : datetime) (u : User) : User :=
  set_deletion_scheduled_at (Some (now + timedelta_hours 24))
    (set_deletion_requested_at (Some now) u).

Definition cleared (u : User) : User :=
  set_deletion_scheduled_at None (set_deletion_requested_at None u).

(** The row a successful login leaves: the login time, and the deletion
    fields cleared when a request was pending. *)
Definition logged_in (now : datetime) (u : User) : User :=
  match deletion_requested_at u with
  | Some _ => cleared (set_last_login (Some now) u)
  | None => set_last_login (Some now) u
  end.

(** The [unique=True] constraint of the [username] column. *)
Definition unique_usernames (d : Database) : Prop :=
  forall i j u v,
    users d !! i = Some u -> users d !! j = Some v ->
    username u = username v -> i = j.

(** The [unique=True] constraint of the [email] column. *)
Definition unique_emails (d : Database) : Prop :=
  forall i j u v,
    users d !! i = Some u -> users d !! j = Some v ->
    email u = email v -> i = j.

Definition returned {A : Type} (o : outcome A) : bool :=
  match o with
  | Return _ => true
  | Raise _ => false
  end.

(** ** The system over time

    The store evolves by registrations, email verifications, logins and the
    deletion lifecycle, each run at a wall-clock time that is not before
    the time of the previous one.  These are the handlers that create an
    account, decide whether it may log in, or write one of its deletion
    fields; the endpoints that edit a profile, a password or an email
    address write other columns and are not steps of this system.  The
    store starts as a new or seeded database is: user names and emails
    unique, no deletion requested or scheduled ([seed_data.py] creates
    verified accounts and leaves both fields unset). *)

Inductive Operation :=
| OpRegister (user : UserCreate)
| OpVerifyEmail (token : string)
| OpLogin (form_username form_password : string)
| OpRequestDeletion (uid : Z) (client : option string) (current_user : Z * User)
| OpConfirmDeletion (token_data : gmap string string)
| OpCancelDeletion (uid : Z) (client : option string) (current_user : Z * User)
| OpSweep
| OpCleanup.

Definition apply_operation (ext : Externals) (other : string -> pyval -> bool)
    (op : Operation) (now : datetime) (d : Database) : Database :=
  match op with
  | OpRegister user => db_after (Auth.register_user ext user now) d
  | OpVerifyEmail token =>
      db_after (AuthVerification.verify_email ext other token now) d
  | OpLogin name password =>
      db_after (Auth.login_for_access_token ext name password now) d
  | OpRequestDeletion uid client current_user =>
      db_after (Users.request_account_deletion ext uid client current_user now) d
  | OpConfirmDeletion token_data =>
      db_after (Auth.confirm_account_deletion ext token_data now) d
  | OpCancelDeletion uid client current_user =>
      db_after (Users.cancel_account_deletion ext uid client current_user) d
  | OpSweep => sweep now d
  | OpCleanup => cleanup now d
  end.

Record System := {
  clock : datetime;
  store : Database
}.

Definition empty_database : Database := {| users := ∅; activities := [] |}.

Definition initial_store (d : Database) : Prop :=
  unique_usernames d /\ unique_emails d
  /\ forall i u, users d !! i = Some u ->
       deletion_requested_at u = None /\ deletion_scheduled_at u = None.

Inductive reachable (ext : Externals) (other : string -> pyval -> bool)
    : System -> Prop :=
| reachable_init (t0 : datetime) (d0 : Database) :
    initial_store d0 ->
    reachable ext other {| clock := t0; store := d0 |}
| reachable_step (s : System) (op : Operation) (now : datetime) :
    reachable ext other s ->
    clock s <= now ->
    reachable ext other
      {| clock := now; store := apply_operation ext other op now (store s) |}.

(** Invariant I1 on one row. *)
Definition I1 (u : User) : Prop :=
  forall sch, deletion_scheduled_at u = Some sch ->
    exists req, deletion_requested_at u = Some req /\ req <= sch.

(** I1 together with what makes it inductive: no request is dated after the
    current time. *)
Definition well_dated (now : datetime) (u : User) : Prop :=
  I1 u /\ forall req, deletion_requested_at u = Some req -> req <= now.

Definition all_well_dated (now : datetime) (d : Database) : Prop :=
  forall i u, users d !! i = Some u -> well_dated now u.

Ltac run_handler :=
  unfold db_after, result_of, run_request, open_session,
    Users.request_account_deletion, Users.cancel_account_deletion,
    Users.except_clauses, Users.check_user_authorization,
    Users.log_user_activity, Auth.confirm_account_deletion,
    try_except, setattr, modify_working, read_working, add_task, db_commit,
    db_rollback, db_add_activity, query_by_id, lift, raise,
    mbind, M_bind, bind, mret, M_ret, ret; simpl.

Ltac run_more :=
  unfold UsersSession.logout_all_sessions, UsersSession.resend_verification_email,
    AuthVerification.resend_verification_email, Auth.get_user_by_email,
    PasswordResetToken.verify_reset_token;
  run_handler.

(** ** Vocabulary of the further properties *)

(** When a token made by [jwt.encode] decodes, the claim [k] comes back as
    it went in. *)
Definition codec_keeps (ext : Externals) (k : string) : Prop :=
  forall (p p' : Payload) (now : datetime),
    jwt_decode ext (jwt_encode ext p (secret_key ext) (algorithm ext))
      (secret_key ext) [algorithm ext] now = Some p' ->
    py_get p' k = py_get p k.

(** The background tasks a request leaves queued. *)
Definition tasks_of {A : Type} (handler : M A) (d : Database) : list Task :=
  snd (run_request handler d).

(** The row [register_user] creates. *)
Definition registered (ext : Externals) (user : UserCreate) (now : datetime) : User :=
  {| email := uc_email user; username := uc_username user;
     hashed_password := pwd_context_hash ext (uc_password user);
     full_name := uc_full_name user;
     is_active := true; is_admin := false; is_verified := false;
     created_at := now; last_login := None;
     email_verified_at := None;
     deletion_requested_at := None; deletion_scheduled_at := None |}.

(** No stored account uses the user name or the email of a form. *)
Definition name_and_email_free (user : UserCreate) (d : Database) : Prop :=
  forall i u, users d !! i = Some u ->
    username u <> uc_username user /\ email u <> uc_email user.

(** Two rows that agree on every column but the login time and the two
    deletion fields. *)
Definition same_identity (u v : User) : Prop :=
  email u = email v /\ username u = username v
  /\ hashed_password u = hashed_password v /\ full_name u = full_name v
  /\ is_active u = is_active v /\ is_admin u = is_admin v
  /\ is_verified u = is_verified v /\ created_at u = created_at v
  /\ email_verified_at u = email_verified_at v.

(** The two deletion fields are null together or set together. *)
Definition paired (u : User) : Prop :=
  deletion_requested_at u = None <-> deletion_scheduled_at u = None.


(** * Properties *)

Section TokenFacts.
Variable ext : Externals.

Lemma decode_raises_only_JWTError tok now e :
  Security.decode ext tok now = Raise e -> e = JWTError.
Proof.
  unfold Security.decode.
  destruct (jwt_decode _ _ _ _ _); congruence.
Qed.

Lemma issued_type k tok :
  codec_keeps_type ext -> issued ext k tok ->
  forall now p, Security.decode ext tok now = Return p ->
                py_get p "type" = PStr (type_tag k).
Proof.
  intros Hc Hi now p Hd.
  unfold Security.decode in Hd.
  destruct (jwt_decode ext tok _ _ now) as [p'|] eqn:E; [|discriminate].
  injection Hd as ->.
  destruct k; simpl in Hi.
  - destruct Hi as (mail & t0 & Hi).
    unfold Security.create_password_reset_token in Hi.
    destruct (_ || _); [discriminate|].
    injection Hi as <-. unfold Security.encode in E.
    apply Hc in E. rewrite E. reflexivity.
  - destruct Hi as (mail & t0 & Hi).
    unfold Security.create_email_verification_token in Hi.
    destruct (_ || _); [discriminate|].
    injection Hi as <-. unfold Security.encode in E.
    apply Hc in E. rewrite E. reflexivity.
  - destruct Hi as (uid & mail & t0 & Hi).
    unfold Security.create_email_change_token in Hi.
    destruct (_ || _); [discriminate|].
    destruct (_ || _); [discriminate|].
    injection Hi as <-. unfold Security.encode in E.
    apply Hc in E. rewrite E. reflexivity.
  - destruct Hi as (uid & t0 & <-).
    unfold Security.create_account_deletion_token, Security.encode in E.
    apply Hc in E. rewrite E. reflexivity.
Qed.

Lemma wrong_type_returns_none k' tok now p :
  Security.decode ext tok now = Return p ->
  eq_str (py_get p "type") (type_tag k') = false ->
  returns_none ext k' tok now.
Proof.
  intros Hd Ht.
  destruct k'; simpl in *.
  - unfold Security.verify_password_reset_token.
    destruct (String.eqb tok ""); [reflexivity|].
    rewrite Hd, Ht. reflexivity.
  - unfold Security.verify_email_verification_token.
    destruct (String.eqb tok ""); [reflexivity|].
    rewrite Hd, Ht. reflexivity.
  - unfold Security.verify_email_change_token.
    destruct (String.eqb tok ""); [reflexivity|].
    rewrite Hd. simpl. unfold Security.email_change_claims.
    rewrite Ht. reflexivity.
  - unfold Security.verify_account_deletion_token.
    rewrite Hd. simpl. unfold Security.account_deletion_claims.
    rewrite Ht. reflexivity.
Qed.

Lemma undecodable_returns_none k tok now :
  jwt_decode ext tok (secret_key ext) [algorithm ext] now = None ->
  returns_none ext k tok now.
Proof.
  intros Hd.
  assert (Hr : Security.decode ext tok now = Raise JWTError)
    by (unfold Security.decode; rewrite Hd; reflexivity).
  destruct k; simpl.
  - unfold Security.verify_password_reset_token.
    destruct (String.eqb tok ""); [reflexivity|]. rewrite Hr. reflexivity.
  - unfold Security.verify_email_verification_token.
    destruct (String.eqb tok ""); [reflexivity|]. rewrite Hr. reflexivity.
  - unfold Security.verify_email_change_token.
    destruct (String.eqb tok ""); [reflexivity|]. rewrite Hr. reflexivity.
  - unfold Security.verify_account_deletion_token. rewrite Hr. reflexivity.
Qed.

Lemma tags_differ k k' :
  k <> k' -> String.eqb (type_tag k) (type_tag k') = false.
Proof. destruct k, k'; intros H; try reflexivity; congruence. Qed.

End TokenFacts.

(** C7. A token issued for one purpose makes the verifier of every other
    purpose return [None] without raising (the twelve cross-checks), and
    every verifier returns [None] on a token the JWT library refuses
    (malformed, not signed with the key, or expired). *)
Theorem purpose_isolation (ext : Externals) (Hcodec : codec_keeps_type ext) :
  (forall (k k' : Purpose) (tok : string) (now : datetime),
      issued ext k tok -> k <> k' -> returns_none ext k' tok now)
  /\ (forall (k : Purpose) (tok : string) (now : datetime),
        jwt_decode ext tok (secret_key ext) [algorithm ext] now = None ->
        returns_none ext k tok now).
Proof.
  split.
  - intros k k' tok now Hi Hne.
    destruct (Security.decode ext tok now) as [p|e] eqn:Hd.
    + apply (wrong_type_returns_none ext k' tok now p Hd).
      rewrite (issued_type ext k tok Hcodec Hi now p Hd). simpl.
      apply tags_differ, Hne.
    + apply undecodable_returns_none.
      unfold Security.decode in Hd.
      destruct (jwt_decode ext tok _ _ now); [discriminate|reflexivity].
  - intros k tok now. apply undecodable_returns_none.
Qed.

Lemma split_dot_app (ty sb : string) :
  Fixture.has_dot ty = false ->
  Fixture.split_dot (ty +:+ "." +:+ sb) = Some (ty, sb).
Proof.
  induction ty as [|c ty IH]; simpl; intros H.
  - reflexivity.
  - destruct (Ascii.eqb c "."); [discriminate|].
    rewrite (IH H). reflexivity.
Qed.

Lemma fixture_keeps_type : codec_keeps_type Fixture.externals.
Proof.
  intros p p' now. simpl. unfold Fixture.fx_encode, Fixture.fx_decode, py_get.
  destruct (p !! "type") as [[ | | |ty| | | ]|] eqn:Ety; simpl; try discriminate.
  destruct (p !! "sub") as [[ | | |sb| | | ]|]; simpl; try discriminate.
  destruct (Fixture.has_dot ty) eqn:Hdot; simpl; [discriminate|].
  rewrite (split_dot_app ty sb Hdot).
  intros [= <-]. reflexivity.
Qed.

Lemma purpose_isolation_witness :
  codec_keeps_type Fixture.externals
  /\ issued Fixture.externals password_reset "password_reset.alice@example.com"
  /\ returns_none Fixture.externals account_deletion
       "password_reset.alice@example.com" 0.
Proof.
  split; [exact fixture_keeps_type|].
  assert (Hi : issued Fixture.externals password_reset
                 "password_reset.alice@example.com")
    by (exists "alice@example.com", 0; reflexivity).
  split; [exact Hi|].
  apply (proj1 (purpose_isolation Fixture.externals fixture_keeps_type)
           password_reset account_deletion _ 0 Hi).
  discriminate.
Defined.

(** ** The deletion lifecycle *)

Lemma authorized_check cu uid :
  authorized cu uid -> negb (fst cu =? uid) && negb (is_admin (snd cu)) = false.
Proof.
  intros [<- | H].
  - rewrite Z.eqb_refl. reflexivity.
  - rewrite H. apply andb_false_r.
Qed.

(** What [request_account_deletion] stores when it goes through. *)
Lemma request_account_deletion_run ext d uid u cu client now :
  users d !! uid = Some u ->
  deletion_requested_at u = None ->
  authorized cu uid ->
  exists resp,
    result_of (Users.request_account_deletion ext uid client cu now) d = Return resp
    /\ users (db_after (Users.request_account_deletion ext uid client cu now) d)
       = <[uid := requested_and_scheduled now u]> (users d).
Proof.
  intros Hu Hr Ha.
  run_handler.
  rewrite (authorized_check _ _ Ha). simpl.
  rewrite Hu. simpl. rewrite Hr. simpl.
  destruct (Activity_init ext uid _ _ _) as [[[a b] c]|]; simpl.
  all: eexists; split; [reflexivity|].
  all: rewrite (alter_alt_Some _ _ _ _ Hu), alter_insert_eq; reflexivity.
Qed.

Lemma cancel_account_deletion_run ext d uid u cu client :
  users d !! uid = Some u ->
  authorized cu uid ->
  match deletion_requested_at u with
  | Some _ =>
      returned (result_of (Users.cancel_account_deletion ext uid client cu) d) = true
      /\ users (db_after (Users.cancel_account_deletion ext uid client cu) d)
         = <[uid := cleared u]> (users d)
  | None =>
      result_of (Users.cancel_account_deletion ext uid client cu) d
      = Raise (HTTPException 400 "No hay ninguna eliminación programada para cancelar")
      /\ db_after (Users.cancel_account_deletion ext uid client cu) d = d
  end.
Proof.
  intros Hu Ha.
  run_handler.
  rewrite (authorized_check _ _ Ha). simpl.
  rewrite Hu. simpl.
  destruct (deletion_requested_at u) as [r|]; simpl.
  - destruct (Activity_init ext uid _ _ _) as [[[a b] c]|]; simpl.
    all: split; [reflexivity|].
    all: rewrite (alter_alt_Some _ _ _ _ Hu), alter_insert_eq; reflexivity.
  - split; reflexivity.
Qed.

Lemma confirm_account_deletion_run ext d (token_data : gmap string string)
    tok uid u now :
  token_data !! "token" = Some tok ->
  tok <> "" ->
  Security.verify_account_deletion_token ext tok now = Return (Some uid) ->
  users d !! uid = Some u ->
  match deletion_requested_at u with
  | Some _ =>
      returned (result_of (Auth.confirm_account_deletion ext token_data now) d) = true
      /\ users (db_after (Auth.confirm_account_deletion ext token_data now) d)
         = <[uid := set_deletion_scheduled_at (Some (now + timedelta_hours 24)) u]>
             (users d)
  | None =>
      result_of (Auth.confirm_account_deletion ext token_data now) d
      = Raise (HTTPException 400 "No hay solicitud de eliminación pendiente")
      /\ db_after (Auth.confirm_account_deletion ext token_data now) d = d
  end.
Proof.
  intros Ht Hne Hv Hu.
  run_handler.
  rewrite Ht.
  destruct (String.eqb_spec tok ""); [contradiction|].
  rewrite Hv. simpl. rewrite Hu. simpl.
  destruct (deletion_requested_at u) as [r|]; simpl.
  - split; [reflexivity|].
    rewrite (alter_alt_Some _ _ _ _ Hu). reflexivity.
  - split; reflexivity.
Qed.

(** C1 (as the code has it). For every account with no deletion request,
    [request_account_deletion] by an authorised caller succeeds and stores
    [deletion_requested_at = now] together with
    [deletion_scheduled_at = now + 24h]. *)
Theorem request_account_deletion_sets_both ext d uid u cu client now :
  users d !! uid = Some u ->
  deletion_requested_at u = None ->
  authorized cu uid ->
  returned (result_of (Users.request_account_deletion ext uid client cu now) d) = true
  /\ exists u',
       users (db_after (Users.request_account_deletion ext uid client cu now) d) !! uid
       = Some u'
       /\ deletion_requested_at u' = Some now
       /\ deletion_scheduled_at u' = Some (now + timedelta_hours 24).
Proof.
  intros Hu Hr Ha.
  destruct (request_account_deletion_run ext d uid u cu client now Hu Hr Ha)
    as (resp & Hres & Hdb).
  split.
  - rewrite Hres. reflexivity.
  - exists (requested_and_scheduled now u).
    rewrite Hdb, lookup_insert_eq. repeat split.
Qed.

Lemma request_account_deletion_sets_both_witness :
  exists u',
    users (db_after (Users.request_account_deletion Fixture.externals 1 None
                       (1, Fixture.alice) 1000) Fixture.db_active) !! 1 = Some u'
    /\ deletion_requested_at u' = Some 1000
    /\ deletion_scheduled_at u' = Some (1000 + timedelta_hours 24).
Proof.
  apply (request_account_deletion_sets_both Fixture.externals Fixture.db_active
           1 Fixture.alice (1, Fixture.alice) None 1000).
  - reflexivity.
  - reflexivity.
  - left. reflexivity.
Defined.

(** C1, as stated, fails: after the request of an active account at time
    1000 the stored [deletion_scheduled_at] is [1000 + 24h], not null. *)
Lemma request_leaves_schedule_null_cex :
  deletion_requested_at Fixture.alice = None
  /\ users (db_after (Users.request_account_deletion Fixture.externals 1 None
                        (1, Fixture.alice) 1000) Fixture.db_active) !! 1
       ≫= deletion_scheduled_at
     = Some 86400001000
  /\ users (db_after (Users.request_account_deletion Fixture.externals 1 None
                        (1, Fixture.alice) 1000) Fixture.db_active) !! 1
       ≫= deletion_scheduled_at
     <> None.
Proof.
  split; [reflexivity|].
  split; [vm_compute; reflexivity|].
  vm_compute. discriminate.
Qed.

(** C4 (as the code has it). With a token that verifies for an existing
    account, [confirm_account_deletion] fails with 400 "no pending request"
    and stores nothing when [deletion_requested_at] is null; when it is set,
    the confirmation succeeds and stores
    [deletion_scheduled_at = now + 24h], whether or not a deletion was
    already scheduled. *)
Theorem confirm_account_deletion_guard ext d (token_data : gmap string string)
    tok uid u now :
  token_data !! "token" = Some tok ->
  tok <> "" ->
  Security.verify_account_deletion_token ext tok now = Return (Some uid) ->
  users d !! uid = Some u ->
  (deletion_requested_at u = None ->
     result_of (Auth.confirm_account_deletion ext token_data now) d
     = Raise (HTTPException 400 "No hay solicitud de eliminación pendiente")
     /\ db_after (Auth.confirm_account_deletion ext token_data now) d = d)
  /\ (deletion_requested_at u <> None ->
        returned (result_of (Auth.confirm_account_deletion ext token_data now) d) = true
        /\ exists u',
             users (db_after (Auth.confirm_account_deletion ext token_data now) d) !! uid
             = Some u'
             /\ deletion_requested_at u' = deletion_requested_at u
             /\ deletion_scheduled_at u' = Some (now + timedelta_hours 24)).
Proof.
  intros Ht Hne Hv Hu.
  pose proof (confirm_account_deletion_run ext d token_data tok uid u now
                Ht Hne Hv Hu) as H.
  destruct (deletion_requested_at u) as [r|] eqn:Hr.
  - split; [discriminate|]. intros _.
    destruct H as [Hres Hdb]. split; [exact Hres|].
    eexists. rewrite Hdb, lookup_insert_eq. split; [reflexivity|].
    split; [exact Hr|reflexivity].
  - split; [intros _; exact H|]. intros Hc. contradiction.
Qed.

Lemma confirm_account_deletion_guard_witness :
  result_of (Auth.confirm_account_deletion Fixture.externals
               Fixture.deletion_token 1000) Fixture.db_active
  = Raise (HTTPException 400 "No hay solicitud de eliminación pendiente")
  /\ db_after (Auth.confirm_account_deletion Fixture.externals
                 Fixture.deletion_token 1000) Fixture.db_active
     = Fixture.db_active.
Proof.
  apply (confirm_account_deletion_guard Fixture.externals Fixture.db_active
           Fixture.deletion_token "account_deletion.1" 1 Fixture.alice 1000).
  - reflexivity.
  - discriminate.
  - reflexivity.
  - reflexivity.
  - reflexivity.
Defined.

(** C4, as stated, fails: on an account whose deletion is already scheduled
    for hour 24, a confirmation at hour 1 is accepted and moves the deadline
    to hour 25, and a second one at hour 2 is accepted again and moves it to
    hour 26. *)
Lemma confirm_twice_rejected_cex :
  let first := Auth.confirm_account_deletion Fixture.externals
                 Fixture.deletion_token (1 * Fixture.hour) in
  let second := Auth.confirm_account_deletion Fixture.externals
                  Fixture.deletion_token (2 * Fixture.hour) in
  let d1 := db_after first Fixture.db_scheduled in
  users Fixture.db_scheduled !! 1 ≫= deletion_scheduled_at = Some (24 * Fixture.hour)
  /\ returned (result_of first Fixture.db_scheduled) = true
  /\ users d1 !! 1 ≫= deletion_scheduled_at = Some (25 * Fixture.hour)
  /\ returned (result_of second d1) = true
  /\ users (db_after second d1) !! 1 ≫= deletion_scheduled_at
     = Some (26 * Fixture.hour).
Proof.
  repeat split; vm_compute; reflexivity.
Qed.

(** C5 (as the code has it). For an existing account and an authorised
    caller, [cancel_account_deletion] succeeds and clears both deletion
    fields when [deletion_requested_at] is set; when it is null the call
    fails with 400 and stores nothing.  Hence a second call right after a
    successful one finds both fields null, leaves the store as the first
    call left it, and fails with 400. *)
Theorem cancel_account_deletion_behaviour ext d uid u cu client :
  users d !! uid = Some u ->
  authorized cu uid ->
  let cancel := Users.cancel_account_deletion ext uid client cu in
  (deletion_requested_at u = None ->
     result_of cancel d
     = Raise (HTTPException 400 "No hay ninguna eliminación programada para cancelar")
     /\ db_after cancel d = d)
  /\ (deletion_requested_at u <> None ->
        returned (result_of cancel d) = true
        /\ users (db_after cancel d) !! uid = Some (cleared u)
        /\ result_of cancel (db_after cancel d)
           = Raise (HTTPException 400
                      "No hay ninguna eliminación programada para cancelar")
        /\ db_after cancel (db_after cancel d) = db_after cancel d).
Proof.
  intros Hu Ha cancel.
  pose proof (cancel_account_deletion_run ext d uid u cu client Hu Ha) as H.
  destruct (deletion_requested_at u) as [r|] eqn:Hr.
  - split; [discriminate|]. intros _.
    destruct H as [Hres Hdb]. fold cancel in Hres, Hdb.
    assert (Hu' : users (db_after cancel d) !! uid = Some (cleared u))
      by (rewrite Hdb; apply lookup_insert_eq).
    split; [exact Hres|]. split; [exact Hu'|].
    exact (cancel_account_deletion_run ext (db_after cancel d) uid (cleared u)
             cu client Hu' Ha).
  - split; [intros _; exact H|]. intros Hc. contradiction.
Qed.

Lemma cancel_account_deletion_behaviour_witness :
  returned (result_of (Users.cancel_account_deletion Fixture.externals 1 None
                         (1, Fixture.alice_scheduled)) Fixture.db_scheduled) = true
  /\ users (db_after (Users.cancel_account_deletion Fixture.externals 1 None
                        (1, Fixture.alice_scheduled)) Fixture.db_scheduled) !! 1
     = Some (cleared Fixture.alice_scheduled).
Proof.
  pose proof (cancel_account_deletion_behaviour Fixture.externals
                Fixture.db_scheduled 1 Fixture.alice_scheduled
                (1, Fixture.alice_scheduled) None eq_refl
                (or_introl eq_refl)) as [_ H].
  destruct H as (H1 & H2 & _).
  - discriminate.
  - split; [exact H1|exact H2].
Defined.

(** C5, as stated, fails: the second of two cancellations in a row does not
    succeed as the first did, it is refused with 400; and an account with
    only [deletion_scheduled_at] set is refused too, its field left set. *)
Lemma cancel_twice_same_outcome_cex :
  let cancel := Users.cancel_account_deletion Fixture.externals 1 None
                  (1, Fixture.alice_scheduled) in
  let d1 := db_after cancel Fixture.db_scheduled in
  let only_scheduled :=
    {| users := {[ 1 := set_deletion_scheduled_at (Some 5) Fixture.alice ]};
       activities := [] |} in
  returned (result_of cancel Fixture.db_scheduled) = true
  /\ result_of cancel d1
     = Raise (HTTPException 400 "No hay ninguna eliminación programada para cancelar")
  /\ result_of cancel only_scheduled
     = Raise (HTTPException 400 "No hay ninguna eliminación programada para cancelar")
  /\ users (db_after cancel only_scheduled) !! 1 ≫= deletion_scheduled_at = Some 5.
Proof.
  repeat split; vm_compute; reflexivity.
Qed.

(** ** The sweeper *)

Lemma query_all_elem c d i u :
  (i, u) ∈ query_all c d <-> users d !! i = Some u /\ c u = true.
Proof.
  unfold query_all.
  rewrite list_elem_of_In, filter_In, <- list_elem_of_In, elem_of_map_to_list.
  reflexivity.
Qed.

Lemma query_all_keys c d i :
  i ∈ (query_all c d).*1 <-> exists u, users d !! i = Some u /\ c u = true.
Proof.
  rewrite list_elem_of_fmap. split.
  - intros ([j u] & -> & H). apply query_all_elem in H. eauto.
  - intros (u & H). exists (i, u). split; [reflexivity|].
    apply query_all_elem, H.
Qed.

(** The deletion loop of [process_pending_deletions]: every listed key is
    deleted and committed, nothing else is touched. *)
Lemma delete_loop (l : list (Z * User)) (w : World) :
  committed w = working w ->
  exists w',
    for_each l (fun user =>
      try_except (db_delete_user (fst user) ;; db_commit) (fun _ => db_rollback)) w
    = (Return tt, w')
    /\ committed w' = working w'
    /\ forall i, users (committed w') !! i
                 = if decide (i ∈ l.*1) then None else users (committed w) !! i.
Proof.
  revert w. induction l as [|[j u] l IH]; intros w Hw.
  - exists w. split; [reflexivity|]. split; [exact Hw|].
    intros i. rewrite decide_False; [reflexivity|]. simpl. apply not_elem_of_nil.
  - simpl.
    unfold mbind at 1, M_bind at 1, bind at 1.
    unfold try_except, db_delete_user, db_commit, modify_working,
      mbind, M_bind, bind. simpl.
    match goal with
    | |- context [for_each l ?b ?w0] => destruct (IH w0 eq_refl) as (w' & Hrun & Hc & Hl)
    end.
    exists w'. split; [exact Hrun|]. split; [exact Hc|].
    intros i. rewrite Hl. cbn [fst committed users].
    change (list_fmap (Z * User)%type Z fst l) with (l.*1). rewrite <- Hw.
    destruct (decide (i = j)) as [->|Hne].
    + rewrite lookup_delete_eq.
      destruct (decide (j ∈ l.*1)), (decide (j ∈ j :: l.*1)) as [|Hn];
        try reflexivity.
      all: exfalso; apply Hn, list_elem_of_here.
    + rewrite lookup_delete_ne by congruence.
      destruct (decide (i ∈ l.*1)) as [Hin|Hnin],
               (decide (i ∈ j :: l.*1)) as [Hin'|Hnin']; try reflexivity.
      * exfalso. apply Hnin', list_elem_of_further, Hin.
      * exfalso. apply elem_of_cons in Hin' as [?|?]; contradiction.
Qed.

Lemma process_pending_deletions_run now d :
  exists w',
    DeletionScheduler.process_pending_deletions now (open_session d) = (Return tt, w')
    /\ forall i, users (committed w') !! i
                 = if decide (i ∈ (query_all (DeletionScheduler.due now) d).*1)
                   then None else users d !! i.
Proof.
  destruct (delete_loop (query_all (DeletionScheduler.due now) d)
              (open_session d) eq_refl) as (w' & Hrun & _ & Hl).
  exists w'. split; [|exact Hl].
  unfold DeletionScheduler.process_pending_deletions. unfold try_except at 1.
  unfold mbind at 1, M_bind at 1, bind at 1. unfold read_working.
  change (working (open_session d)) with d.
  rewrite Hrun. reflexivity.
Qed.

Lemma sweep_lookup now d i :
  users (sweep now d) !! i
  = match users d !! i with
    | Some u => if DeletionScheduler.due now u then None else Some u
    | None => None
    end.
Proof.
  destruct (process_pending_deletions_run now d) as (w' & Hrun & Hl).
  unfold sweep, run_request. rewrite Hrun. cbn [fst snd]. rewrite Hl.
  destruct (decide _) as [Hin|Hnin].
  - apply query_all_keys in Hin as (u & -> & ->). reflexivity.
  - destruct (users d !! i) as [u|] eqn:Hu; [|reflexivity].
    destruct (DeletionScheduler.due now u) eqn:Hd; [|reflexivity].
    exfalso. apply Hnin, query_all_keys. eauto.
Qed.

(** C3. [process_pending_deletions] at time [now] deletes exactly the
    accounts whose [deletion_scheduled_at] is set and not after [now]; every
    other account, with a null or a later [deletion_scheduled_at], is left
    as it was, and no account appears. *)
Theorem sweep_deletes_exactly_due (now : datetime) (d : Database) (i : Z) :
  users (sweep now d) !! i
  = match users d !! i with
    | Some u =>
        match deletion_scheduled_at u with
        | Some t => if decide (t <= now) then None else Some u
        | None => Some u
        end
    | None => None
    end.
Proof.
  rewrite sweep_lookup.
  destruct (users d !! i) as [u|]; [|reflexivity].
  unfold DeletionScheduler.due.
  destruct (deletion_scheduled_at u) as [t|]; [|reflexivity].
  destruct (Z.leb_spec t now); destruct (decide (t <= now)); try reflexivity; lia.
Qed.

(** ** Login *)

Lemma query_first_Some c d i u :
  query_first c d = Some (i, u) -> users d !! i = Some u /\ c u = true.
Proof.
  unfold query_first. intros H. apply find_some in H as [Hin Hc].
  split; [|exact Hc].
  apply elem_of_map_to_list, list_elem_of_In, Hin.
Qed.

(** [authenticate_user] only reads, and the account it returns is a stored
    row whose hash matches the password. *)
Lemma authenticate_user_run ext name pw w :
  exists r,
    Auth.authenticate_user ext name pw w = (Return r, w)
    /\ forall i u, r = Some (i, u) ->
         users (working w) !! i = Some u
         /\ Security.verify_password ext pw (hashed_password u) = true.
Proof.
  unfold Auth.authenticate_user, Auth.get_user_by_username,
    Auth.get_user_by_email, read_working, mbind, M_bind, bind, mret, M_ret, ret.
  destruct (query_first (fun u => String.eqb (username u) name) (working w))
    as [[i u]|] eqn:E1.
  - destruct (Security.verify_password ext pw (hashed_password u)) eqn:Hv; simpl.
    + eexists. split; [reflexivity|]. intros i' u' [= <- <-].
      split; [|exact Hv]. apply (query_first_Some _ _ _ _ E1).
    + eexists. split; [reflexivity|]. discriminate.
  - destruct (query_first (fun u => String.eqb (email u) name) (working w))
      as [[i u]|] eqn:E2.
    + destruct (Security.verify_password ext pw (hashed_password u)) eqn:Hv; simpl.
      * eexists. split; [reflexivity|]. intros i' u' [= <- <-].
        split; [|exact Hv]. apply (query_first_Some _ _ _ _ E2).
      * eexists. split; [reflexivity|]. discriminate.
    + eexists. split; [reflexivity|]. discriminate.
Qed.

Lemma authenticate_user_result ext name pw d r :
  result_of (Auth.authenticate_user ext name pw) d = Return r ->
  Auth.authenticate_user ext name pw (open_session d) = (Return r, open_session d).
Proof.
  unfold result_of, run_request.
  destruct (authenticate_user_run ext name pw (open_session d)) as (r' & -> & _).
  simpl. intros [= ->]. reflexivity.
Qed.

Lemma authenticate_user_stored ext name pw d i u :
  result_of (Auth.authenticate_user ext name pw) d = Return (Some (i, u)) ->
  users d !! i = Some u.
Proof.
  unfold result_of, run_request.
  destruct (authenticate_user_run ext name pw (open_session d)) as (r' & -> & Hs).
  simpl. intros [= ->]. apply (Hs i u eq_refl).
Qed.

(** The three ways [login_for_access_token] ends. *)
Lemma login_run ext name pw now d r :
  result_of (Auth.authenticate_user ext name pw) d = Return r ->
  match r with
  | None =>
      result_of (Auth.login_for_access_token ext name pw now) d
      = Raise (HTTPException 401 "Nombre de usuario o contraseña incorrectos")
      /\ db_after (Auth.login_for_access_token ext name pw now) d = d
  | Some (uid, u) =>
      if is_verified u then
        returned (result_of (Auth.login_for_access_token ext name pw now) d) = true
        /\ users (db_after (Auth.login_for_access_token ext name pw now) d)
           = <[uid := logged_in now u]> (users d)
      else
        result_of (Auth.login_for_access_token ext name pw now) d
        = Raise (HTTPException 401
                   "Debes verificar tu correo antes de iniciar sesión.")
        /\ db_after (Auth.login_for_access_token ext name pw now) d = d
  end.
Proof.
  intros Hr.
  pose proof (authenticate_user_result ext name pw d r Hr) as Hrun.
  unfold result_of, db_after, run_request.
  remember (Auth.login_for_access_token ext name pw now (open_session d))
    as L eqn:HL.
  unfold Auth.login_for_access_token in HL.
  unfold mbind at 1, M_bind at 1, bind at 1 in HL. rewrite Hrun in HL.
  destruct r as [[uid u]|]; [|subst L; split; reflexivity].
  pose proof (authenticate_user_stored ext name pw d uid u Hr) as Hu.
  destruct (is_verified u); simpl in HL; [|subst L; split; reflexivity].
  unfold Security.create_access_token in HL.
  destruct (decide _) as [He|_]; [exfalso; exact (map_non_empty_singleton _ _ He)|].
  unfold logged_in, cleared.
  destruct (deletion_requested_at u) as [t|]; subst L.
  - run_handler. split; [reflexivity|].
    rewrite (alter_alt_Some _ _ _ _ Hu), !alter_insert_eq. reflexivity.
  - run_handler. split; [reflexivity|].
    rewrite (alter_alt_Some _ _ _ _ Hu). reflexivity.
Qed.

(** Logging in with an account's user name and a password that matches its
    hash authenticates that account. *)
Lemma authenticate_by_username ext d uid u pw :
  unique_usernames d ->
  users d !! uid = Some u ->
  Security.verify_password ext pw (hashed_password u) = true ->
  result_of (Auth.authenticate_user ext (username u) pw) d = Return (Some (uid, u)).
Proof.
  intros Huniq Hu Hpw.
  unfold result_of, run_request, Auth.authenticate_user, Auth.get_user_by_username,
    read_working, mbind, M_bind, bind, mret, M_ret, ret. simpl.
  destruct (query_first (fun v => String.eqb (username v) (username u)) d)
    as [[j v]|] eqn:E.
  - apply query_first_Some in E as [Hv Hn].
    apply String.eqb_eq in Hn.
    assert (j = uid) as -> by exact (Huniq j uid v u Hv Hu Hn).
    assert (v = u) as -> by congruence.
    rewrite Hpw. reflexivity.
  - exfalso. unfold query_first in E.
    assert (Hin : In (uid, u) (map_to_list (users d)))
      by apply list_elem_of_In, elem_of_map_to_list, Hu.
    pose proof (find_none _ _ E (uid, u) Hin) as Hf. simpl in Hf.
    rewrite String.eqb_refl in Hf. discriminate.
Qed.

(** C2. When the credentials authenticate an account that has a deletion
    request and the login succeeds, the login stores both deletion fields as
    null, and a sweep run on that store at any time keeps the account. *)
Theorem login_cancels_deletion_before_sweep ext name pw now d uid u :
  result_of (Auth.authenticate_user ext name pw) d = Return (Some (uid, u)) ->
  returned (result_of (Auth.login_for_access_token ext name pw now) d) = true ->
  deletion_requested_at u <> None ->
  exists u',
    users (db_after (Auth.login_for_access_token ext name pw now) d) !! uid = Some u'
    /\ deletion_requested_at u' = None
    /\ deletion_scheduled_at u' = None
    /\ forall now',
         users (sweep now' (db_after (Auth.login_for_access_token ext name pw now) d))
           !! uid = Some u'.
Proof.
  intros Hauth Hok Hreq.
  pose proof (login_run ext name pw now d _ Hauth) as H. simpl in H.
  destruct (is_verified u).
  - destruct H as [_ Hdb].
    exists (logged_in now u).
    assert (Hl : users (db_after (Auth.login_for_access_token ext name pw now) d)
                   !! uid = Some (logged_in now u))
      by (rewrite Hdb; apply lookup_insert_eq).
    assert (Hs : deletion_scheduled_at (logged_in now u) = None)
      by (unfold logged_in; destruct (deletion_requested_at u);
          [reflexivity|contradiction]).
    repeat split.
    + exact Hl.
    + unfold logged_in. destruct (deletion_requested_at u);
        [reflexivity|contradiction].
    + exact Hs.
    + intros now'. rewrite sweep_lookup, Hl.
      unfold DeletionScheduler.due. rewrite Hs. reflexivity.
  - destruct H as [Hres _]. rewrite Hres in Hok. discriminate.
Qed.

Lemma login_cancels_deletion_before_sweep_witness :
  exists u',
    users (db_after (Auth.login_for_access_token Fixture.externals "alice"
                       "Secreta123" (10 * Fixture.hour)) Fixture.db_scheduled) !! 1
    = Some u'
    /\ deletion_requested_at u' = None
    /\ deletion_scheduled_at u' = None
    /\ forall now',
         users (sweep now'
                  (db_after (Auth.login_for_access_token Fixture.externals "alice"
                               "Secreta123" (10 * Fixture.hour))
                     Fixture.db_scheduled)) !! 1 = Some u'.
Proof.
  apply (login_cancels_deletion_before_sweep Fixture.externals "alice"
           "Secreta123" (10 * Fixture.hour) Fixture.db_scheduled 1
           Fixture.alice_scheduled).
  - vm_compute. reflexivity.
  - vm_compute. reflexivity.
  - discriminate.
Defined.

(** C10. When the credentials authenticate an account that is not verified
    and has a deletion request, the login fails with 401 and stores nothing,
    so both deletion fields stay as they were; the cancel endpoint, called
    for that account, does clear them. *)
Theorem unverified_login_keeps_deletion ext name pw now d uid u :
  result_of (Auth.authenticate_user ext name pw) d = Return (Some (uid, u)) ->
  is_verified u = false ->
  deletion_requested_at u <> None ->
  result_of (Auth.login_for_access_token ext name pw now) d
  = Raise (HTTPException 401 "Debes verificar tu correo antes de iniciar sesión.")
  /\ db_after (Auth.login_for_access_token ext name pw now) d = d
  /\ forall client,
       returned (result_of (Users.cancel_account_deletion ext uid client (uid, u)) d)
       = true
       /\ users (db_after (Users.cancel_account_deletion ext uid client (uid, u)) d)
            !! uid = Some (cleared u).
Proof.
  intros Hauth Hv Hreq.
  pose proof (login_run ext name pw now d _ Hauth) as H. simpl in H.
  rewrite Hv in H. destruct H as [Hres Hdb].
  split; [exact Hres|]. split; [exact Hdb|].
  intros client.
  pose proof (authenticate_user_stored ext name pw d uid u Hauth) as Hu.
  pose proof (cancel_account_deletion_run ext d uid u (uid, u) client Hu
                (or_introl eq_refl)) as Hc.
  destruct (deletion_requested_at u); [|contradiction].
  destruct Hc as [Hr Hd]. split; [exact Hr|].
  rewrite Hd. apply lookup_insert_eq.
Qed.

Lemma unverified_login_keeps_deletion_witness :
  result_of (Auth.login_for_access_token Fixture.externals "carol" "Clave4567"
               Fixture.hour) Fixture.db_unverified
  = Raise (HTTPException 401 "Debes verificar tu correo antes de iniciar sesión.")
  /\ db_after (Auth.login_for_access_token Fixture.externals "carol" "Clave4567"
                 Fixture.hour) Fixture.db_unverified
     = Fixture.db_unverified.
Proof.
  pose proof (unverified_login_keeps_deletion Fixture.externals "carol"
                "Clave4567" Fixture.hour Fixture.db_unverified 2 Fixture.carol)
    as H.
  destruct H as (H1 & H2 & _).
  - vm_compute. reflexivity.
  - reflexivity.
  - discriminate.
  - split; [exact H1|exact H2].
Defined.

(** ** Password reset request *)

(** C9. [request_password_reset] returns the one standard message whatever
    the store holds and whatever email is asked for: the run for an email
    that belongs to an account and the run for an email that belongs to
    none give the same response. *)
Theorem request_password_reset_same_message (ext : Externals)
    (d1 d2 : Database) (client1 client2 : option string)
    (email1 email2 : string) (now1 now2 : datetime) :
  result_of (PasswordReset.request_password_reset ext client1 email1 now1) d1
  = Return PasswordReset.standard_message
  /\ result_of (PasswordReset.request_password_reset ext client1 email1 now1) d1
     = result_of (PasswordReset.request_password_reset ext client2 email2 now2) d2.
Proof.
  assert (Hstd : forall d client mail now,
             result_of (PasswordReset.request_password_reset ext client mail now) d
             = Return PasswordReset.standard_message).
  { intros d client mail now.
    unfold result_of, run_request, PasswordReset.request_password_reset,
      try_except, read_working, lift, raise, add_task, db_commit,
      db_add_activity, modify_working, mbind, M_bind, bind, mret, M_ret, ret.
    simpl.
    destruct (query_first _ d) as [[uid u]|]; [|reflexivity].
    destruct (is_active u); [|reflexivity].
    destruct (Security.create_password_reset_token ext (email u) now);
      [|reflexivity].
    destruct (Activity_init ext uid _ _ _) as [[[? ?] ?]|]; reflexivity. }
  split; [apply Hstd|]. rewrite !Hstd. reflexivity.
Qed.

(** ** Clean-up of unconfirmed requests *)

(** The loop of [cleanup_expired_requests]: every listed row gets a null
    [deletion_requested_at] in the session, nothing is stored yet. *)
Lemma clear_loop (l : list (Z * User)) (w : World) :
  exists w',
    for_each l (fun user =>
      setattr (fst user) (set_deletion_requested_at None)) w = (Return tt, w')
    /\ committed w' = committed w
    /\ activities (working w') = activities (working w)
    /\ forall i, users (working w') !! i
                 = if decide (i ∈ l.*1)
                   then set_deletion_requested_at None <$> users (working w) !! i
                   else users (working w) !! i.
Proof.
  revert w. induction l as [|[j u] l IH]; intros w.
  - exists w. repeat split.
  - cbn [for_each].
    unfold mbind at 1, M_bind at 1, bind at 1.
    unfold setattr at 1, modify_working at 1. cbn [fst].
    match goal with
    | |- context [for_each l ?b ?w0] => destruct (IH w0) as (w' & Hrun & Hc & Ha & Hl)
    end.
    exists w'. split; [exact Hrun|]. split; [exact Hc|]. split; [exact Ha|].
    intros i. rewrite Hl, fmap_cons. cbn [fst working with_users users].
    destruct (decide (i = j)) as [->|Hne].
    + rewrite lookup_alter_eq.
      destruct (decide (j ∈ l.*1)), (decide (j ∈ j :: l.*1)) as [|Hn].
      * destruct (users (working w) !! j); reflexivity.
      * exfalso; apply Hn, list_elem_of_here.
      * reflexivity.
      * exfalso; apply Hn, list_elem_of_here.
    + rewrite lookup_alter_ne by congruence.
      destruct (decide (i ∈ l.*1)) as [Hin|Hnin],
               (decide (i ∈ j :: l.*1)) as [Hin'|Hnin']; try reflexivity.
      * exfalso. apply Hnin', list_elem_of_further, Hin.
      * exfalso. apply elem_of_cons in Hin' as [?|?]; contradiction.
Qed.

Lemma cleanup_lookup now d i :
  users (cleanup now d) !! i
  = match users d !! i with
    | Some u => if DeletionScheduler.expired_request now u
                then Some (set_deletion_requested_at None u)
                else Some u
    | None => None
    end.
Proof.
  destruct (clear_loop (query_all (DeletionScheduler.expired_request now) d)
              (open_session d)) as (w' & Hrun & _ & _ & Hl).
  unfold cleanup, run_request, DeletionScheduler.cleanup_expired_requests.
  unfold try_except at 1. unfold mbind at 1, M_bind at 1, bind at 1.
  unfold read_working. change (working (open_session d)) with d.
  unfold mbind at 1, M_bind at 1, bind at 1.
  rewrite Hrun. cbn [db_commit fst snd committed]. rewrite Hl.
  change (working (open_session d)) with d.
  destruct (decide _) as [Hin|Hnin].
  - apply query_all_keys in Hin as (u & -> & ->). reflexivity.
  - destruct (users d !! i) as [u|] eqn:Hu; [|reflexivity].
    destruct (DeletionScheduler.expired_request now u) eqn:Hd; [|reflexivity].
    exfalso. apply Hnin, query_all_keys. eauto.
Qed.

(** The filter of the clean-up compares the request time with [now]
    itself: on a row with a request and no scheduled time, which no handler
    leaves behind, an unconfirmed request made at or before [now] is
    cleared whatever its age. *)
Lemma cleanup_clears_any_age now d i u r :
  users d !! i = Some u ->
  deletion_requested_at u = Some r ->
  deletion_scheduled_at u = None ->
  r <= now ->
  users (cleanup now d) !! i = Some (set_deletion_requested_at None u).
Proof.
  intros Hu Hr Hs Hle. rewrite cleanup_lookup, Hu.
  unfold DeletionScheduler.expired_request. rewrite Hr, Hs.
  destruct (Z.leb_spec r now); [reflexivity|lia].
Qed.

(** ** Invariant I1 along every run *)

(** What each handler can do to the [users] table, over all of its paths:
    nothing, or one row replaced. *)

Lemma request_account_deletion_effect ext d uid cu client now :
  users (db_after (Users.request_account_deletion ext uid client cu now) d) = users d
  \/ exists u,
       users d !! uid = Some u
       /\ users (db_after (Users.request_account_deletion ext uid client cu now) d)
          = <[uid := requested_and_scheduled now u]> (users d).
Proof.
  run_handler.
  destruct (negb (cu.1 =? uid) && negb (is_admin cu.2)); simpl; [left; reflexivity|].
  destruct (users d !! uid) as [u|] eqn:Hu; simpl; [|left; reflexivity].
  destruct (deletion_requested_at u); simpl; [left; reflexivity|].
  right. exists u. split; [reflexivity|].
  destruct (Activity_init ext uid _ _ _) as [[[? ?] ?]|]; simpl.
  all: rewrite (alter_alt_Some _ _ _ _ Hu), alter_insert_eq; reflexivity.
Qed.

Lemma cancel_account_deletion_effect ext d uid cu client :
  users (db_after (Users.cancel_account_deletion ext uid client cu) d) = users d
  \/ exists u,
       users d !! uid = Some u
       /\ users (db_after (Users.cancel_account_deletion ext uid client cu) d)
          = <[uid := cleared u]> (users d).
Proof.
  run_handler.
  destruct (negb (cu.1 =? uid) && negb (is_admin cu.2)); simpl; [left; reflexivity|].
  destruct (users d !! uid) as [u|] eqn:Hu; simpl; [|left; reflexivity].
  destruct (deletion_requested_at u); simpl; [|left; reflexivity].
  right. exists u. split; [reflexivity|].
  destruct (Activity_init ext uid _ _ _) as [[[? ?] ?]|]; simpl.
  all: rewrite (alter_alt_Some _ _ _ _ Hu), alter_insert_eq; reflexivity.
Qed.

Lemma confirm_account_deletion_effect ext d (token_data : gmap string string) now :
  users (db_after (Auth.confirm_account_deletion ext token_data now) d) = users d
  \/ exists uid u req,
       users d !! uid = Some u
       /\ deletion_requested_at u = Some req
       /\ users (db_after (Auth.confirm_account_deletion ext token_data now) d)
          = <[uid := set_deletion_scheduled_at (Some (now + timedelta_hours 24)) u]>
              (users d).
Proof.
  run_handler.
  destruct (token_data !! "token") as [tok|]; [|left; reflexivity].
  destruct (String.eqb tok ""); [left; reflexivity|].
  destruct (Security.verify_account_deletion_token ext tok now) as [[uid|]|e];
    simpl; [|left; reflexivity|left; reflexivity].
  destruct (users d !! uid) as [u|] eqn:Hu; simpl; [|left; reflexivity].
  destruct (deletion_requested_at u) as [req|] eqn:Hr; simpl; [|left; reflexivity].
  right. exists uid, u, req. split; [exact Hu|]. split; [exact Hr|].
  rewrite (alter_alt_Some _ _ _ _ Hu). reflexivity.
Qed.

Lemma login_effect ext d name pw now :
  users (db_after (Auth.login_for_access_token ext name pw now) d) = users d
  \/ exists uid u,
       users d !! uid = Some u
       /\ users (db_after (Auth.login_for_access_token ext name pw now) d)
          = <[uid := logged_in now u]> (users d).
Proof.
  destruct (authenticate_user_run ext name pw (open_session d)) as (r & Hrun & _).
  assert (Hr : result_of (Auth.authenticate_user ext name pw) d = Return r)
    by (unfold result_of, run_request; rewrite Hrun; reflexivity).
  pose proof (login_run ext name pw now d r Hr) as H.
  destruct r as [[uid u]|].
  - destruct (is_verified u).
    + right. exists uid, u. split; [|apply H].
      apply (authenticate_user_stored ext name pw d uid u Hr).
    + left. destruct H as [_ ->]. reflexivity.
  - left. destruct H as [_ ->]. reflexivity.
Qed.

Lemma register_user_effect ext d user now :
  users (db_after (Auth.register_user ext user now) d) = users d
  \/ exists new_id new_user,
       deletion_requested_at new_user = None
       /\ deletion_scheduled_at new_user = None
       /\ users (db_after (Auth.register_user ext user now) d)
          = <[new_id := new_user]> (users d).
Proof.
  unfold db_after, run_request, Auth.register_user, read_working, lift, raise,
    modify_working, db_commit, add_task, mbind, M_bind, bind, mret, M_ret, ret.
  simpl.
  destruct (query_first _ d) as [[j existing]|].
  - left. destruct (String.eqb _ _); reflexivity.
  - destruct (Security.get_password_hash ext (uc_password user)) as [hashed|e];
      [|left; reflexivity].
    right. eexists _, _.
    destruct (Security.create_email_verification_token ext _ now); simpl.
    all: split; [|split]; [| |reflexivity]; reflexivity.
Qed.

(** A new database and the two-account store are stores the system can
    start from. *)
Lemma empty_database_initial : initial_store empty_database.
Proof.
  unfold empty_database.
  split; [|split]; intros i; intros; cbn [users] in *;
    match goal with
    | H : ∅ !! i = Some _ |- _ => rewrite lookup_empty in H; discriminate
    end.
Qed.

Lemma db_two_rows k w :
  users Scenario.db_two !! k = Some w ->
  (k = 1 /\ w = Fixture.alice) \/ (k = 2 /\ w = Scenario.root).
Proof.
  unfold Scenario.db_two. cbn [users]. intros Hk.
  apply lookup_insert_Some in Hk as [[<- <-]|[H1 Hk]].
  - left. split; reflexivity.
  - apply lookup_singleton_Some in Hk as [<- <-]. right. split; reflexivity.
Qed.

Lemma db_two_unique_usernames : unique_usernames Scenario.db_two.
Proof.
  intros i j u v Hi Hj Hn.
  destruct (db_two_rows i u Hi) as [[-> ->]|[-> ->]],
           (db_two_rows j v Hj) as [[-> ->]|[-> ->]];
    try reflexivity; discriminate.
Qed.

Lemma db_two_unique_emails : unique_emails Scenario.db_two.
Proof.
  intros i j u v Hi Hj Hn.
  destruct (db_two_rows i u Hi) as [[-> ->]|[-> ->]],
           (db_two_rows j v Hj) as [[-> ->]|[-> ->]];
    try reflexivity; discriminate.
Qed.

Lemma db_two_initial : initial_store Scenario.db_two.
Proof.
  split; [exact db_two_unique_usernames|]. split; [exact db_two_unique_emails|].
  intros i u Hi. destruct (db_two_rows i u Hi) as [[-> ->]|[-> ->]];
    split; reflexivity.
Qed.

(** [verify_email] leaves the table as it is or marks one stored,
    unverified row as verified. *)
Lemma verify_email_effect ext other d token now :
  users (db_after (AuthVerification.verify_email ext other token now) d) = users d
  \/ exists uid u,
       users d !! uid = Some u
       /\ is_verified u = false
       /\ users (db_after (AuthVerification.verify_email ext other token now) d)
          = <[uid := set_email_verified_at (Some now) (set_is_verified true u)]>
              (users d).
Proof.
  unfold AuthVerification.verify_email. run_handler.
  destruct (Security.verify_email_verification_token ext token now) as [mail|e];
    simpl; [|left; reflexivity].
  destruct (truthy mail); simpl; [|left; reflexivity].
  destruct (query_first (AuthVerification.email_equals other mail) d)
    as [[uid u]|] eqn:Hq; simpl; [|left; reflexivity].
  apply query_first_Some in Hq as [Hu _].
  destruct (is_verified u) eqn:Hv; simpl; [left; reflexivity|].
  right. exists uid, u. split; [exact Hu|]. split; [exact Hv|].
  rewrite (alter_alt_Some _ _ _ _ Hu), alter_insert_eq. reflexivity.
Qed.

Lemma well_dated_mono t now u : t <= now -> well_dated t u -> well_dated now u.
Proof.
  intros Hle [Hi Hd]. split; [exact Hi|].
  intros req Hr. specialize (Hd req Hr). lia.
Qed.

Lemma all_well_dated_insert t now d i u' (m : gmap Z User) :
  t <= now ->
  all_well_dated t d ->
  m = <[i := u']> (users d) ->
  well_dated now u' ->
  forall j v, m !! j = Some v -> well_dated now v.
Proof.
  intros Hle Hall -> Hu' j v Hj.
  destruct (decide (i = j)) as [<-|Hne].
  - rewrite lookup_insert_eq in Hj. injection Hj as <-. exact Hu'.
  - rewrite lookup_insert_ne in Hj by exact Hne.
    apply (well_dated_mono t now v Hle), (Hall j v Hj).
Qed.

Lemma well_dated_requested_and_scheduled now u :
  well_dated now (requested_and_scheduled now u).
Proof.
  split.
  - intros sch [= <-]. exists now. split; [reflexivity|].
    unfold timedelta_hours. lia.
  - intros req [= <-]. lia.
Qed.

Lemma well_dated_confirmed t now u req :
  t <= now -> well_dated t u -> deletion_requested_at u = Some req ->
  well_dated now (set_deletion_scheduled_at (Some (now + timedelta_hours 24)) u).
Proof.
  intros Hle [_ Hd] Hr. specialize (Hd req Hr). split.
  - intros sch [= <-]. exists req. split; [exact Hr|].
    unfold timedelta_hours. lia.
  - intros req' Hr'. simpl in Hr'. rewrite Hr in Hr'. injection Hr' as <-. lia.
Qed.

Lemma well_dated_cleared now u : well_dated now (cleared u).
Proof. split; [intros sch|intros req]; discriminate. Qed.

Lemma well_dated_logged_in t now u :
  t <= now -> well_dated t u -> well_dated now (logged_in now u).
Proof.
  intros Hle Hu. unfold logged_in.
  destruct (deletion_requested_at u) eqn:Hr.
  - apply well_dated_cleared.
  - apply (well_dated_mono t now _ Hle).
    destruct Hu as [Hi Hd]. split.
    + intros sch Hs. apply (Hi sch Hs).
    + intros req Hq. apply (Hd req Hq).
Qed.

Lemma well_dated_cleaned now u :
  DeletionScheduler.expired_request now u = true ->
  well_dated now (set_deletion_requested_at None u).
Proof.
  unfold DeletionScheduler.expired_request. intros He. split.
  - intros sch Hs. simpl in Hs. rewrite Hs in He.
    destruct (deletion_requested_at u); discriminate.
  - intros req. discriminate.
Qed.

(** Every operation, run at a time not before the current one, keeps all
    rows well dated. *)
Lemma apply_operation_well_dated ext other op t now d :
  t <= now ->
  all_well_dated t d ->
  all_well_dated now (apply_operation ext other op now d).
Proof.
  intros Hle Hall j v.
  assert (Hkeep : forall m : gmap Z User, m = users d ->
                    m !! j = Some v -> well_dated now v).
  { intros m -> Hj. apply (well_dated_mono t now v Hle), (Hall j v Hj). }
  destruct op as [user|tok|name pw|uid client cu|td|uid client cu| |]; simpl.
  - destruct (register_user_effect ext d user now) as [He|(i & nu & Hr & Hs & He)].
    + apply Hkeep, He.
    + apply (all_well_dated_insert t now d i nu _ Hle Hall He).
      split; [intros sch Hc|intros req Hc]; congruence.
  - destruct (verify_email_effect ext other d tok now) as [He|(i & u & Hu & _ & He)].
    + apply Hkeep, He.
    + apply (all_well_dated_insert t now d i _ _ Hle Hall He).
      apply (well_dated_mono t now _ Hle).
      destruct (Hall i u Hu) as [Hi Hd]. split.
      * intros sch Hs. apply (Hi sch Hs).
      * intros req Hq. apply (Hd req Hq).
  - destruct (login_effect ext d name pw now) as [He|(i & u & Hu & He)].
    + apply Hkeep, He.
    + apply (all_well_dated_insert t now d i _ _ Hle Hall He).
      apply (well_dated_logged_in t now u Hle), (Hall i u Hu).
  - destruct (request_account_deletion_effect ext d uid cu client now)
      as [He|(u & Hu & He)].
    + apply Hkeep, He.
    + apply (all_well_dated_insert t now d uid _ _ Hle Hall He).
      apply well_dated_requested_and_scheduled.
  - destruct (confirm_account_deletion_effect ext d td now)
      as [He|(i & u & req & Hu & Hr & He)].
    + apply Hkeep, He.
    + apply (all_well_dated_insert t now d i _ _ Hle Hall He).
      apply (well_dated_confirmed t now u req Hle (Hall i u Hu) Hr).
  - destruct (cancel_account_deletion_effect ext d uid cu client)
      as [He|(u & Hu & He)].
    + apply Hkeep, He.
    + apply (all_well_dated_insert t now d uid _ _ Hle Hall He).
      apply well_dated_cleared.
  - rewrite sweep_lookup.
    destruct (users d !! j) as [u|] eqn:Hu; [|discriminate].
    destruct (DeletionScheduler.due now u); [discriminate|].
    intros [= <-]. apply (well_dated_mono t now u Hle), (Hall j u Hu).
  - rewrite cleanup_lookup.
    destruct (users d !! j) as [u|] eqn:Hu; [|discriminate].
    destruct (DeletionScheduler.expired_request now u) eqn:He; intros [= <-].
    + apply well_dated_cleaned, He.
    + apply (well_dated_mono t now u Hle), (Hall j u Hu).
Qed.

Lemma reachable_well_dated ext other s :
  reachable ext other s -> all_well_dated (clock s) (store s).
Proof.
  induction 1 as [t0 d0 (_ & _ & Hnone)|s op now Hs IH Hle]; cbn [clock store].
  - intros i u Hi. destruct (Hnone i u Hi) as [Hr Hsch].
    split; [intros sch Hc|intros req Hc]; congruence.
  - apply (apply_operation_well_dated ext other op (clock s) now (store s) Hle IH).
Qed.

(** C8. From a store as a database starts (no deletion requested or
    scheduled), along every sequence of registrations, email verifications,
    logins (which cancel a pending deletion), deletion requests,
    confirmations, cancellations, sweeps and clean-ups run at
    non-decreasing times, every stored account satisfies I1, and every
    operation run next leaves every stored account satisfying I1: its
    [deletion_scheduled_at] is set only if its [deletion_requested_at] is
    set, and is then not before it. *)
Theorem lifecycle_preserves_I1 ext other s :
  reachable ext other s ->
  (forall i u sch,
     users (store s) !! i = Some u ->
     deletion_scheduled_at u = Some sch ->
     exists req, deletion_requested_at u = Some req /\ req <= sch)
  /\ (forall op now i u sch,
        clock s <= now ->
        users (apply_operation ext other op now (store s)) !! i = Some u ->
        deletion_scheduled_at u = Some sch ->
        exists req, deletion_requested_at u = Some req /\ req <= sch).
Proof.
  intros Hs. pose proof (reachable_well_dated ext other s Hs) as Hall. split.
  - intros i u sch Hu Hsch.
    destruct (Hall i u Hu) as [Hi _]. exact (Hi sch Hsch).
  - intros op now i u sch Hle Hu Hsch.
    destruct (apply_operation_well_dated ext other op (clock s) now (store s)
                Hle Hall i u Hu) as [Hi _].
    exact (Hi sch Hsch).
Qed.

(** [alice] asks for deletion at hour 1, logs in at hour 2, which cancels
    it, and asks again at hour 3. *)
Lemma lifecycle_preserves_I1_witness :
  exists req,
    deletion_requested_at
      (requested_and_scheduled (3 * Fixture.hour)
         (logged_in (2 * Fixture.hour)
            (requested_and_scheduled Fixture.hour Fixture.alice)))
    = Some req
    /\ req <= 27 * Fixture.hour.
Proof.
  apply (proj2 (lifecycle_preserves_I1 Scenario.externals Scenario.matches_other
           {| clock := 2 * Fixture.hour;
              store := apply_operation Scenario.externals Scenario.matches_other
                         (OpLogin "alice" "Secreta123") (2 * Fixture.hour)
                         (apply_operation Scenario.externals Scenario.matches_other
                            (OpRequestDeletion 1 None (1, Fixture.alice))
                            Fixture.hour Scenario.db_two) |}
           (reachable_step Scenario.externals Scenario.matches_other
              {| clock := Fixture.hour;
                 store := apply_operation Scenario.externals Scenario.matches_other
                            (OpRequestDeletion 1 None (1, Fixture.alice))
                            Fixture.hour Scenario.db_two |}
              (OpLogin "alice" "Secreta123") (2 * Fixture.hour)
              (reachable_step Scenario.externals Scenario.matches_other
                 {| clock := 0; store := Scenario.db_two |}
                 (OpRequestDeletion 1 None (1, Fixture.alice)) Fixture.hour
                 (reachable_init Scenario.externals Scenario.matches_other 0
                    Scenario.db_two db_two_initial)
                 ltac:(vm_compute; discriminate))
              ltac:(vm_compute; discriminate)))
           (OpRequestDeletion 1 None
              (1, logged_in (2 * Fixture.hour)
                    (requested_and_scheduled Fixture.hour Fixture.alice)))
           (3 * Fixture.hour) 1
           (requested_and_scheduled (3 * Fixture.hour)
              (logged_in (2 * Fixture.hour)
                 (requested_and_scheduled Fixture.hour Fixture.alice)))
           (27 * Fixture.hour)).
  - vm_compute. discriminate.
  - vm_compute. reflexivity.
  - vm_compute. reflexivity.
Defined.

(** ** The clean-up of unconfirmed requests *)

Lemma paired_update (m : gmap Z User) d i u' :
  (forall j v, users d !! j = Some v -> paired v) ->
  m = <[i := u']> (users d) ->
  paired u' ->
  forall j v, m !! j = Some v -> paired v.
Proof.
  intros Hall -> Hu' j v Hj.
  apply lookup_insert_Some in Hj as [[<- <-]|[_ Hj]]; [exact Hu'|].
  apply (Hall j v Hj).
Qed.

Lemma apply_operation_paired ext other op now d :
  (forall j v, users d !! j = Some v -> paired v) ->
  forall j v, users (apply_operation ext other op now d) !! j = Some v -> paired v.
Proof.
  intros Hall.
  assert (Hkeep : forall m : gmap Z User, m = users d ->
                    forall j v, m !! j = Some v -> paired v).
  { intros m -> j v Hj. apply (Hall j v Hj). }
  destruct op as [user|tok|name pw|uid client cu|td|uid client cu| |]; simpl.
  - destruct (register_user_effect ext d user now) as [He|(i & nu & Hr & Hs & He)].
    + apply Hkeep, He.
    + apply (paired_update _ d i nu Hall He). split; intros _; assumption.
  - destruct (verify_email_effect ext other d tok now) as [He|(i & u & Hu & _ & He)].
    + apply Hkeep, He.
    + apply (paired_update _ d i _ Hall He). exact (Hall i u Hu).
  - destruct (login_effect ext d name pw now) as [He|(i & u & Hu & He)].
    + apply Hkeep, He.
    + apply (paired_update _ d i _ Hall He).
      unfold logged_in. destruct (deletion_requested_at u) eqn:Hr.
      * split; reflexivity.
      * unfold paired. simpl. rewrite Hr. apply (Hall i u Hu) in Hr.
        rewrite Hr. split; reflexivity.
  - destruct (request_account_deletion_effect ext d uid cu client now)
      as [He|(u & Hu & He)].
    + apply Hkeep, He.
    + apply (paired_update _ d uid _ Hall He). split; discriminate.
  - destruct (confirm_account_deletion_effect ext d td now)
      as [He|(i & u & req & Hu & Hr & He)].
    + apply Hkeep, He.
    + apply (paired_update _ d i _ Hall He).
      unfold paired. simpl. rewrite Hr. split; discriminate.
  - destruct (cancel_account_deletion_effect ext d uid cu client)
      as [He|(u & Hu & He)].
    + apply Hkeep, He.
    + apply (paired_update _ d uid _ Hall He). split; reflexivity.
  - intros j v Hj. rewrite sweep_lookup in Hj.
    destruct (users d !! j) as [u|] eqn:Hu; [|discriminate].
    destruct (DeletionScheduler.due now u); [discriminate|].
    injection Hj as <-. apply (Hall j u Hu).
  - intros j v Hj. rewrite cleanup_lookup in Hj.
    destruct (users d !! j) as [u|] eqn:Hu; [|discriminate].
    destruct (DeletionScheduler.expired_request now u) eqn:He; injection Hj as <-.
    + unfold DeletionScheduler.expired_request in He. unfold paired. simpl.
      destruct (deletion_requested_at u), (deletion_scheduled_at u);
        try discriminate. split; reflexivity.
    + apply (Hall j u Hu).
Qed.

Lemma reachable_paired ext other s :
  reachable ext other s -> forall j v, users (store s) !! j = Some v -> paired v.
Proof.
  induction 1 as [t0 d0 (_ & _ & Hnone)|s op now Hs IH Hle]; cbn [store].
  - intros j v Hj. destruct (Hnone j v Hj) as [Hr Hsch].
    split; intros _; assumption.
  - apply apply_operation_paired, IH.
Qed.



(** * Further properties *)

(** ** Tokens: round trips and exceptions *)

Lemma fixture_keeps_sub : codec_keeps Fixture.externals "sub".
Proof.
  intros p p' now. simpl. unfold Fixture.fx_encode, Fixture.fx_decode, py_get.
  destruct (p !! "type") as [[ | | |ty| | | ]|]; simpl; try discriminate.
  destruct (p !! "sub") as [[ | | |sb| | | ]|]; simpl; try discriminate.
  destruct (Fixture.has_dot ty) eqn:Hdot; simpl; [discriminate|].
  rewrite (split_dot_app ty sb Hdot).
  intros [= <-]. reflexivity.
Qed.

Lemma scenario_decode_encode (p p' : Payload) now :
  Scenario.sc_decode (Scenario.sc_encode p "secret" "HS256") "secret" ["HS256"] now
  = Some p' ->
  py_get p' "type" = py_get p "type"
  /\ py_get p' "sub" = py_get p "sub"
  /\ py_get p' "new_email" = py_get p "new_email".
Proof.
  unfold Scenario.sc_encode, Scenario.sc_decode, py_get.
  destruct (p !! "sub") as [[ | | |sb| | | ]|]; simpl; try discriminate.
  destruct (Fixture.has_dot sb) eqn:Hsb; simpl; [discriminate|].
  destruct (p !! "type") as [[ | | |ty| | | ]|]; simpl; try discriminate.
  - destruct (p !! "new_email") as [[ | | |ne| | | ]|]; simpl; try discriminate.
    destruct (Fixture.has_dot ty) eqn:Hty; simpl; [discriminate|].
    destruct (String.eqb ty "access") eqn:Hacc; simpl; [discriminate|].
    rewrite (split_dot_app ty (sb +:+ "." +:+ ne) Hty), Hacc.
    rewrite (split_dot_app sb ne Hsb).
    intros [= <-]. repeat split.
  - destruct (p !! "new_email") as [ne|]; simpl; [discriminate|].
    change ("" +:+ sb) with sb. rewrite Hsb. intros [= <-]. repeat split.
Qed.

Lemma scenario_keeps (k : string) :
  k = "type" \/ k = "sub" \/ k = "new_email" ->
  codec_keeps Scenario.externals k.
Proof.
  intros Hk p p' now Hd. simpl in Hd.
  destruct (scenario_decode_encode p p' now Hd) as (Ht & Hs & Hn).
  destruct Hk as [->|[->| ->]]; assumption.
Qed.

Section MoreTokenFacts.
Variable ext : Externals.

Lemma decode_encode_claim (k : string) (p p' : Payload) now :
  codec_keeps ext k ->
  Security.decode ext (Security.encode ext p) now = Return p' ->
  py_get p' k = py_get p k.
Proof.
  intros Hk. unfold Security.decode, Security.encode.
  destruct (jwt_decode ext _ _ _ now) as [q|] eqn:E; [|discriminate].
  intros [= <-]. apply (Hk p q now E).
Qed.

Lemma decode_cases tok now :
  match jwt_decode ext tok (secret_key ext) [algorithm ext] now with
  | Some p => Security.decode ext tok now = Return p
  | None => Security.decode ext tok now = Raise JWTError
  end.
Proof. unfold Security.decode. destruct (jwt_decode _ _ _ _ _); reflexivity. Qed.

Lemma verify_password_reset_encoded (p : Payload) now :
  codec_keeps ext "type" -> codec_keeps ext "sub" ->
  py_get p "type" = PStr "password_reset" ->
  Security.verify_password_reset_token ext (Security.encode ext p) now
  = if String.eqb (Security.encode ext p) "" then Return PNone
    else match jwt_decode ext (Security.encode ext p) (secret_key ext)
                 [algorithm ext] now with
         | Some _ => Return (py_get p "sub")
         | None => Return PNone
         end.
Proof.
  intros Ht Hs Hp. unfold Security.verify_password_reset_token.
  destruct (String.eqb _ ""); [reflexivity|].
  pose proof (decode_cases (Security.encode ext p) now) as Hd.
  destruct (jwt_decode ext _ _ _ now) as [q|]; rewrite Hd; [|reflexivity].
  rewrite (decode_encode_claim "type" _ _ _ Ht Hd), Hp.
  rewrite (decode_encode_claim "sub" _ _ _ Hs Hd). reflexivity.
Qed.

Lemma verify_email_verification_encoded (p : Payload) now :
  codec_keeps ext "type" -> codec_keeps ext "sub" ->
  py_get p "type" = PStr "email_verification" ->
  Security.verify_email_verification_token ext (Security.encode ext p) now
  = if String.eqb (Security.encode ext p) "" then Return PNone
    else match jwt_decode ext (Security.encode ext p) (secret_key ext)
                 [algorithm ext] now with
         | Some _ => Return (py_get p "sub")
         | None => Return PNone
         end.
Proof.
  intros Ht Hs Hp. unfold Security.verify_email_verification_token.
  destruct (String.eqb _ ""); [reflexivity|].
  pose proof (decode_cases (Security.encode ext p) now) as Hd.
  destruct (jwt_decode ext _ _ _ now) as [q|]; rewrite Hd; [|reflexivity].
  rewrite (decode_encode_claim "type" _ _ _ Ht Hd), Hp.
  rewrite (decode_encode_claim "sub" _ _ _ Hs Hd). reflexivity.
Qed.

End MoreTokenFacts.

(** X1. A password-reset or email-verification token verifies to the email
    it was issued for whenever the JWT library accepts it, and to [None]
    otherwise: never to another subject. *)
Theorem email_token_round_trip ext mail now now' tok :
  codec_keeps ext "type" -> codec_keeps ext "sub" ->
  (Security.create_password_reset_token ext mail now = Return tok ->
   Security.verify_password_reset_token ext tok now'
   = if String.eqb tok "" then Return PNone
     else match jwt_decode ext tok (secret_key ext) [algorithm ext] now' with
          | Some _ => Return (PStr mail)
          | None => Return PNone
          end)
  /\ (Security.create_email_verification_token ext mail now = Return tok ->
      Security.verify_email_verification_token ext tok now'
      = if String.eqb tok "" then Return PNone
        else match jwt_decode ext tok (secret_key ext) [algorithm ext] now' with
             | Some _ => Return (PStr mail)
             | None => Return PNone
             end).
Proof.
  intros Ht Hs. split; intros Hc.
  - unfold Security.create_password_reset_token in Hc.
    destruct (_ || _); [discriminate|]. injection Hc as <-.
    rewrite (verify_password_reset_encoded ext _ now' Ht Hs); reflexivity.
  - unfold Security.create_email_verification_token in Hc.
    destruct (_ || _); [discriminate|]. injection Hc as <-.
    rewrite (verify_email_verification_encoded ext _ now' Ht Hs); reflexivity.
Qed.

Lemma email_token_round_trip_witness :
  Security.verify_password_reset_token Fixture.externals
    "password_reset.alice@example.com" 5
  = Return (PStr "alice@example.com").
Proof.
  apply (proj1 (email_token_round_trip Fixture.externals "alice@example.com" 0 5
                  "password_reset.alice@example.com"
                  fixture_keeps_type fixture_keeps_sub)).
  reflexivity.
Defined.

(** X2. An email-change token verifies to the user id and the new email it
    was issued for whenever the JWT library accepts it, and to [None]
    otherwise. *)
Theorem email_change_token_round_trip ext uid mail now now' tok :
  codec_keeps ext "type" -> codec_keeps ext "sub" -> codec_keeps ext "new_email" ->
  int_of_str ext (str_of_int ext uid) = Some uid ->
  str_of_int ext uid <> "" ->
  Security.create_email_change_token ext uid mail now = Return tok ->
  Security.verify_email_change_token ext tok now'
  = if String.eqb tok "" then Return None
    else match jwt_decode ext tok (secret_key ext) [algorithm ext] now' with
         | Some _ => Return (Some (uid, PStr mail))
         | None => Return None
         end.
Proof.
  intros Ht Hs Hn Hint Hstr Hc.
  unfold Security.create_email_change_token in Hc.
  destruct ((uid =? 0) || (uid <=? 0)); [discriminate|].
  destruct (String.eqb mail "") eqn:Hmail; simpl in Hc; [discriminate|].
  destruct (negb (Security.validate_email ext mail)); [discriminate|].
  injection Hc as <-.
  unfold Security.verify_email_change_token.
  match goal with
  | |- context [String.eqb (Security.encode ext ?p) ""] =>
      destruct (String.eqb (Security.encode ext p) ""); [reflexivity|]
  end.
  match goal with
  | |- context [Security.decode ext ?t now'] =>
      pose proof (decode_cases ext t now') as Hd
  end.
  destruct (jwt_decode ext _ _ _ now') as [q|]; rewrite Hd; [|reflexivity].
  simpl. unfold Security.email_change_claims.
  rewrite (decode_encode_claim ext "type" _ _ _ Ht Hd).
  rewrite (decode_encode_claim ext "sub" _ _ _ Hs Hd).
  rewrite (decode_encode_claim ext "new_email" _ _ _ Hn Hd).
  change (py_get _ "type") with (PStr "email_change").
  change (py_get _ "sub") with (PStr (str_of_int ext uid)).
  change (py_get _ "new_email") with (PStr mail).
  simpl. rewrite Hmail.
  destruct (String.eqb_spec (str_of_int ext uid) ""); [contradiction|].
  simpl. rewrite Hint. reflexivity.
Qed.

Lemma email_change_token_round_trip_witness :
  Security.verify_email_change_token Scenario.externals
    "email_change.7.nueva@example.com" 5
  = Return (Some (7, PStr "nueva@example.com")).
Proof.
  apply (email_change_token_round_trip Scenario.externals 7 "nueva@example.com"
           0 5 "email_change.7.nueva@example.com").
  - apply scenario_keeps. left. reflexivity.
  - apply scenario_keeps. right. left. reflexivity.
  - apply scenario_keeps. right. right. reflexivity.
  - reflexivity.
  - discriminate.
  - reflexivity.
Defined.

Lemma issued_deletion_claims ext uid now now' q :
  codec_keeps ext "type" -> codec_keeps ext "sub" ->
  int_of_str ext (str_of_int ext uid) = Some uid ->
  str_of_int ext uid <> "" ->
  Security.decode ext (Security.create_account_deletion_token ext uid now) now'
  = Return q ->
  Security.account_deletion_claims ext q = Return (Some uid).
Proof.
  intros Ht Hs Hint Hstr Hd.
  unfold Security.account_deletion_claims.
  unfold Security.create_account_deletion_token in Hd.
  rewrite (decode_encode_claim ext "type" _ _ _ Ht Hd).
  rewrite (decode_encode_claim ext "sub" _ _ _ Hs Hd).
  change (py_get _ "type") with (PStr "account_deletion").
  change (py_get _ "sub") with (PStr (str_of_int ext uid)).
  simpl.
  destruct (String.eqb_spec (str_of_int ext uid) ""); [contradiction|].
  simpl. rewrite Hint. reflexivity.
Qed.

(** X3. An account-deletion token verifies to the user id it was issued
    for whenever the JWT library accepts it, and to [None] otherwise. *)
Theorem account_deletion_token_round_trip ext uid now now' :
  codec_keeps ext "type" -> codec_keeps ext "sub" ->
  int_of_str ext (str_of_int ext uid) = Some uid ->
  str_of_int ext uid <> "" ->
  Security.verify_account_deletion_token ext
    (Security.create_account_deletion_token ext uid now) now'
  = match jwt_decode ext (Security.create_account_deletion_token ext uid now)
            (secret_key ext) [algorithm ext] now' with
    | Some _ => Return (Some uid)
    | None => Return None
    end.
Proof.
  intros Ht Hs Hint Hstr.
  unfold Security.verify_account_deletion_token.
  pose proof (decode_cases ext (Security.create_account_deletion_token ext uid now)
                now') as Hd.
  destruct (jwt_decode ext _ _ _ now') as [q|]; rewrite Hd; [|reflexivity].
  simpl. rewrite (issued_deletion_claims ext uid now now' q Ht Hs Hint Hstr Hd).
  reflexivity.
Qed.

Lemma account_deletion_token_round_trip_witness :
  Security.verify_account_deletion_token Fixture.externals
    (Security.create_account_deletion_token Fixture.externals 42 0) 5
  = Return (Some 42).
Proof.
  apply (account_deletion_token_round_trip Fixture.externals 42 0 5
           fixture_keeps_type fixture_keeps_sub).
  - reflexivity.
  - discriminate.
Defined.

(** X4. No token is issued for a bad address: when one of the three
    creators that take an email returns a token, the email is not empty
    and, stripped, matches the email pattern; the email-change creator
    also needs a positive user id. *)
Theorem tokens_only_for_valid_email ext uid mail now tok :
  (Security.create_password_reset_token ext mail now = Return tok ->
   mail <> "" /\ EMAIL_REGEX_match ext (str_strip ext mail) = true)
  /\ (Security.create_email_verification_token ext mail now = Return tok ->
      mail <> "" /\ EMAIL_REGEX_match ext (str_strip ext mail) = true)
  /\ (Security.create_email_change_token ext uid mail now = Return tok ->
      0 < uid /\ mail <> "" /\ EMAIL_REGEX_match ext (str_strip ext mail) = true).
Proof.
  assert (Hv : String.eqb mail "" || negb (Security.validate_email ext mail) = false ->
               mail <> "" /\ EMAIL_REGEX_match ext (str_strip ext mail) = true).
  { unfold Security.validate_email.
    destruct (String.eqb_spec mail ""); simpl; [discriminate|].
    destruct (EMAIL_REGEX_match ext _); simpl; [split; [assumption|reflexivity]|].
    discriminate. }
  repeat split.
  - unfold Security.create_password_reset_token in H.
    destruct (_ || _) eqn:E; [discriminate|]. apply Hv; first [reflexivity | exact E].
  - unfold Security.create_password_reset_token in H.
    destruct (_ || _) eqn:E; [discriminate|]. apply Hv; first [reflexivity | exact E].
  - unfold Security.create_email_verification_token in H.
    destruct (_ || _) eqn:E; [discriminate|]. apply Hv; first [reflexivity | exact E].
  - unfold Security.create_email_verification_token in H.
    destruct (_ || _) eqn:E; [discriminate|]. apply Hv; first [reflexivity | exact E].
  - unfold Security.create_email_change_token in H.
    destruct ((uid =? 0) || (uid <=? 0)) eqn:E; [discriminate|].
    apply orb_false_iff in E as [_ E]. apply Z.leb_gt in E. exact E.
  - unfold Security.create_email_change_token in H.
    destruct ((uid =? 0) || (uid <=? 0)); [discriminate|].
    destruct (String.eqb mail "" || _) eqn:E; [discriminate|]. apply Hv; first [reflexivity | exact E].
  - unfold Security.create_email_change_token in H.
    destruct ((uid =? 0) || (uid <=? 0)); [discriminate|].
    destruct (String.eqb mail "" || _) eqn:E; [discriminate|]. apply Hv; first [reflexivity | exact E].
Qed.

Lemma reset_verifier_never_raises ext tok now e :
  Security.verify_password_reset_token ext tok now <> Raise e.
Proof.
  pose proof (decode_cases ext tok now) as Hd.
  unfold Security.verify_password_reset_token.
  destruct (String.eqb tok ""); [discriminate|].
  destruct (jwt_decode ext tok _ _ now); rewrite Hd; [|discriminate].
  destruct (negb _); discriminate.
Qed.

(** X5. The password-reset and email-verification verifiers never raise;
    the email-change and account-deletion verifiers raise nothing but a
    [TypeError] (from [int] on a subject that is neither a string nor a
    number). *)
Theorem verifiers_raise_only_TypeError ext tok now e :
  Security.verify_password_reset_token ext tok now <> Raise e
  /\ Security.verify_email_verification_token ext tok now <> Raise e
  /\ (Security.verify_email_change_token ext tok now = Raise e -> e = TypeError)
  /\ (Security.verify_account_deletion_token ext tok now = Raise e -> e = TypeError).
Proof.
  pose proof (decode_cases ext tok now) as Hd.
  repeat split.
  - unfold Security.verify_password_reset_token.
    destruct (String.eqb tok ""); [discriminate|].
    destruct (jwt_decode ext tok _ _ now); rewrite Hd; [|discriminate].
    destruct (negb _); discriminate.
  - unfold Security.verify_email_verification_token.
    destruct (String.eqb tok ""); [discriminate|].
    destruct (jwt_decode ext tok _ _ now); rewrite Hd; [|discriminate].
    destruct (negb _); discriminate.
  - unfold Security.verify_email_change_token.
    destruct (String.eqb tok ""); [discriminate|].
    destruct (jwt_decode ext tok _ _ now) as [p|]; rewrite Hd; [|discriminate].
    simpl. unfold Security.email_change_claims.
    destruct (negb _); [discriminate|].
    destruct (_ || _); [discriminate|].
    unfold Security.py_int.
    destruct (py_get p "sub") as [ |b|z|s|t|l|l]; simpl; try discriminate;
      try congruence.
    destruct (int_of_str ext s); simpl; discriminate.
  - unfold Security.verify_account_deletion_token.
    destruct (jwt_decode ext tok _ _ now) as [p|]; rewrite Hd; [|discriminate].
    simpl. unfold Security.account_deletion_claims.
    destruct (negb _); [discriminate|].
    destruct (negb _); [discriminate|].
    unfold Security.py_int.
    destruct (py_get p "sub") as [ |b|z|s|t|l|l]; simpl; try discriminate;
      try congruence.
    destruct (int_of_str ext s); simpl; discriminate.
Qed.

(** ** Bearer tokens and the current user *)

Lemma query_first_unique c d i u :
  (forall j v, users d !! j = Some v -> c v = true -> j = i) ->
  users d !! i = Some u -> c u = true ->
  query_first c d = Some (i, u).
Proof.
  intros Huniq Hu Hc.
  destruct (query_first c d) as [[j v]|] eqn:E.
  - apply query_first_Some in E as [Hv Hcv].
    assert (j = i) as -> by exact (Huniq j v Hv Hcv).
    congruence.
  - exfalso. unfold query_first in E.
    assert (Hin : In (i, u) (map_to_list (users d)))
      by apply list_elem_of_In, elem_of_map_to_list, Hu.
    pose proof (find_none _ _ E (i, u) Hin) as Hf. simpl in Hf. congruence.
Qed.

Section CurrentUser.
Variable ext : Externals.
Variable jwt_error_text : string -> datetime -> string.
Variable username_matches_other : string -> pyval -> bool.

(** [get_current_user], path by path. *)
Lemma get_current_user_run token now w :
  Deps.get_current_user ext jwt_error_text username_matches_other token now w
  = (match Deps.verify_token ext jwt_error_text token now with
     | Return payload =>
         if negb (truthy (py_get payload "sub")) then
           Raise Deps.credentials_exception
         else
           match query_first
                   (Deps.username_equals username_matches_other
                      (py_get payload "sub")) (working w) with
           | Some cu => Return cu
           | None => Raise Deps.credentials_exception
           end
     | Raise JWTError => Raise Deps.credentials_exception
     | Raise e => Raise e
     end, w).
Proof.
  unfold Deps.get_current_user, try_except, lift, raise, read_working,
    mbind, M_bind, bind, mret, M_ret, ret.
  destruct (Deps.verify_token ext jwt_error_text token now) as [payload|e].
  - destruct (negb (truthy (py_get payload "sub"))); [reflexivity|].
    destruct (query_first _ (working w)); reflexivity.
  - destruct e; reflexivity.
Qed.

Lemma verify_token_cases token now :
  Deps.verify_token ext jwt_error_text token now
  = if String.eqb token "" then Raise (HTTPException 401 "Token no proporcionado")
    else match jwt_decode ext token (secret_key ext) [algorithm ext] now with
         | Some payload => Return payload
         | None => Raise (HTTPException 401
                            ("Token inválido: " +:+ jwt_error_text token now))
         end.
Proof.
  unfold Deps.verify_token. destruct (String.eqb token ""); [reflexivity|].
  pose proof (decode_cases ext token now) as Hd.
  destruct (jwt_decode ext token _ _ now); rewrite Hd; reflexivity.
Qed.

Lemma get_current_user_same_users token now d1 d2 :
  users d1 = users d2 ->
  result_of (Deps.get_current_user ext jwt_error_text username_matches_other
               token now) d1
  = result_of (Deps.get_current_user ext jwt_error_text username_matches_other
                 token now) d2.
Proof.
  intros He. unfold result_of, run_request. rewrite !get_current_user_run.
  simpl. unfold query_first. rewrite He. reflexivity.
Qed.

End CurrentUser.

Lemma get_current_user_returns_stored ext jwt_error_text other token now d i u :
  result_of (Deps.get_current_user ext jwt_error_text other token now) d
  = Return (i, u) ->
  users d !! i = Some u.
Proof.
  unfold result_of, run_request.
  rewrite get_current_user_run, verify_token_cases. simpl.
  destruct (String.eqb token ""); [discriminate|].
  destruct (jwt_decode ext token _ _ now) as [payload|]; [|discriminate].
  destruct (negb _); [discriminate|].
  destruct (query_first _ d) as [[j v]|] eqn:Hq; [|discriminate].
  intros [= <- <-]. apply (query_first_Some _ _ _ _ Hq).
Qed.

(** X6. [get_current_user] stores nothing and queues nothing; it fails
    with status 401 only; and the account it returns is a stored row
    whose user name equals the [sub] claim of the decoded token. *)
Theorem get_current_user_read_only_401 ext jwt_error_text other token now d :
  let gcu := Deps.get_current_user ext jwt_error_text other token now in
  db_after gcu d = d
  /\ tasks_of gcu d = []
  /\ (forall e, result_of gcu d = Raise e -> exists detail, e = HTTPException 401 detail)
  /\ (forall i u, result_of gcu d = Return (i, u) ->
        users d !! i = Some u
        /\ exists payload,
             jwt_decode ext token (secret_key ext) [algorithm ext] now = Some payload
             /\ truthy (py_get payload "sub") = true
             /\ Deps.username_equals other (py_get payload "sub") u = true).
Proof.
  intros gcu. unfold gcu, db_after, tasks_of, result_of, run_request.
  rewrite get_current_user_run, verify_token_cases. simpl.
  split; [reflexivity|]. split; [reflexivity|].
  destruct (String.eqb token "").
  - split; [intros e [= <-]; eauto|]. discriminate.
  - destruct (jwt_decode ext token _ _ now) as [payload|].
    + destruct (truthy (py_get payload "sub")) eqn:Ht; simpl.
      * destruct (query_first _ d) as [[j v]|] eqn:Hq.
        -- split; [discriminate|]. intros i u [= <- <-].
           apply query_first_Some in Hq as [Hv Hc].
           split; [exact Hv|]. exists payload. repeat split; assumption.
        -- split; [intros e [= <-]; unfold Deps.credentials_exception; eauto|].
           discriminate.
      * split; [intros e [= <-]; unfold Deps.credentials_exception; eauto|].
        discriminate.
    + split; [intros e [= <-]; eauto|]. discriminate.
Qed.

(** The access token a successful login returns carries the user name as
    its [sub] claim. *)
Lemma login_token ext name pw now d uid u tok :
  result_of (Auth.authenticate_user ext name pw) d = Return (Some (uid, u)) ->
  result_of (Auth.login_for_access_token ext name pw now) d = Return tok ->
  exists expire,
    access_token tok
    = Security.encode ext (<["exp" := PDatetime expire]> {[ "sub" := PStr (username u) ]}).
Proof.
  intros Hr.
  pose proof (authenticate_user_result ext name pw d _ Hr) as Hrun.
  unfold result_of, run_request.
  remember (Auth.login_for_access_token ext name pw now (open_session d))
    as L eqn:HL.
  unfold Auth.login_for_access_token in HL.
  unfold mbind at 1, M_bind at 1, bind at 1 in HL. rewrite Hrun in HL.
  destruct (is_verified u); simpl in HL; [|subst L; discriminate].
  unfold Security.create_access_token in HL.
  destruct (decide _) as [He|_]; [exfalso; exact (map_non_empty_singleton _ _ He)|].
  destruct (deletion_requested_at u) as [t|]; subst L; run_handler.
  all: intros [= <-]; simpl; eexists; reflexivity.
Qed.

Lemma unique_usernames_insert d i u u' (m : gmap Z User) :
  unique_usernames d ->
  users d !! i = Some u ->
  username u' = username u ->
  m = <[i := u']> (users d) ->
  forall j v, m !! j = Some v -> username v = username u -> j = i.
Proof.
  intros Huniq Hu Hn -> j v Hj Hv.
  destruct (decide (i = j)) as [<-|Hne]; [reflexivity|].
  rewrite lookup_insert_ne in Hj by exact Hne.
  apply (Huniq j i v u Hj Hu Hv).
Qed.

Lemma logged_in_username now u : username (logged_in now u) = username u.
Proof. unfold logged_in. destruct (deletion_requested_at u); reflexivity. Qed.

(** X7. The access token returned by a successful login, presented while
    the JWT library still accepts it, makes [get_current_user] return the
    very account that logged in, as the login left it. *)
Theorem login_token_authenticates ext jwt_error_text other name pw now now' d
    uid u tok payload :
  codec_keeps ext "sub" ->
  unique_usernames d ->
  username u <> "" ->
  result_of (Auth.authenticate_user ext name pw) d = Return (Some (uid, u)) ->
  result_of (Auth.login_for_access_token ext name pw now) d = Return tok ->
  access_token tok <> "" ->
  jwt_decode ext (access_token tok) (secret_key ext) [algorithm ext] now'
  = Some payload ->
  result_of (Deps.get_current_user ext jwt_error_text other (access_token tok) now')
    (db_after (Auth.login_for_access_token ext name pw now) d)
  = Return (uid, logged_in now u).
Proof.
  intros Hk Huniq Hname Hauth Hlogin Hne Hdec.
  destruct (login_token ext name pw now d uid u tok Hauth Hlogin) as (expire & Htok).
  pose proof (login_run ext name pw now d _ Hauth) as H. simpl in H.
  destruct (is_verified u); [|destruct H as [H _]; rewrite H in Hlogin; discriminate].
  destruct H as [_ Hdb].
  pose proof (authenticate_user_stored ext name pw d uid u Hauth) as Hu.
  assert (Hsub : py_get payload "sub" = PStr (username u)).
  { rewrite Htok in Hdec. unfold Security.encode in Hdec.
    rewrite (Hk _ _ _ Hdec). reflexivity. }
  unfold result_of, run_request.
  rewrite get_current_user_run, verify_token_cases. simpl.
  destruct (String.eqb_spec (access_token tok) ""); [contradiction|].
  rewrite Hdec, Hsub. simpl.
  destruct (String.eqb_spec (username u) ""); [contradiction|]. simpl.
  rewrite (query_first_unique _ _ uid (logged_in now u)); [reflexivity| | |].
  - intros j v Hj Hv. apply String.eqb_eq in Hv.
    apply (unique_usernames_insert d uid u (logged_in now u) _ Huniq Hu
             (logged_in_username now u) Hdb j v Hj Hv).
  - rewrite Hdb. apply lookup_insert_eq.
  - simpl. rewrite logged_in_username. apply String.eqb_refl.
Qed.

Lemma login_token_authenticates_witness :
  result_of (Deps.get_current_user Scenario.externals Scenario.jwt_error_text
               Scenario.matches_other "access.alice" (2 * Fixture.hour))
    (db_after (Auth.login_for_access_token Scenario.externals "alice" "Secreta123"
                 Fixture.hour) Scenario.db_two)
  = Return (1, logged_in Fixture.hour Fixture.alice).
Proof.
  apply (login_token_authenticates Scenario.externals Scenario.jwt_error_text
           Scenario.matches_other "alice" "Secreta123" Fixture.hour
           (2 * Fixture.hour) Scenario.db_two 1 Fixture.alice
           {| access_token := "access.alice"; token_type := "bearer";
              expires_in := 1800; refresh_token := None; scope := None |}
           (list_to_map [("sub", PStr "alice")])).
  - apply scenario_keeps. right. left. reflexivity.
  - exact db_two_unique_usernames.
  - discriminate.
  - vm_compute. reflexivity.
  - vm_compute. reflexivity.
  - discriminate.
  - vm_compute. reflexivity.
Defined.

(** X8. "Log out everywhere" writes no column of the account: the [users]
    table is as before, so a bearer token gives the same answer after the
    call as before it. *)
Theorem logout_all_keeps_tokens ext jwt_error_text other uid client cu now d
    token now' :
  users (db_after (UsersSession.logout_all_sessions ext uid client cu now) d)
  = users d
  /\ result_of (Deps.get_current_user ext jwt_error_text other token now')
       (db_after (UsersSession.logout_all_sessions ext uid client cu now) d)
     = result_of (Deps.get_current_user ext jwt_error_text other token now') d.
Proof.
  assert (Hu : users (db_after (UsersSession.logout_all_sessions ext uid client
                                  cu now) d) = users d).
  { run_more.
    destruct (negb (cu.1 =? uid) && negb (is_admin cu.2)); simpl; [reflexivity|].
    destruct (users d !! uid) as [u|] eqn:Hu; simpl; [|reflexivity].
    destruct (Activity_init ext uid _ _ _) as [[[? ?] ?]|]; simpl.
    all: rewrite (alter_alt_Some _ _ _ _ Hu); apply insert_id, Hu. }
  split; [exact Hu|].
  apply get_current_user_same_users, Hu.
Qed.

(** X9. What an endpoint guarded by [get_current_verified_user] or by
    [get_current_admin_user] can rely on: the account it receives is a
    stored row, is active, and is verified, respectively an
    administrator. *)
Theorem guarded_endpoints_receive ext jwt_error_text other token now d i u :
  (result_of (Deps.current_verified_user ext jwt_error_text other token now) d
   = Return (i, u) ->
   users d !! i = Some u /\ is_active u = true /\ is_verified u = true)
  /\ (result_of (Deps.current_admin_user ext jwt_error_text other token now) d
      = Return (i, u) ->
      users d !! i = Some u /\ is_active u = true /\ is_admin u = true).
Proof.
  pose proof (get_current_user_returns_stored ext jwt_error_text other token now d)
    as Hret.
  unfold result_of, run_request in Hret |- *.
  unfold Deps.current_verified_user, Deps.current_admin_user,
    Deps.current_active_user, Deps.get_current_active_user,
    Deps.get_current_verified_user, Deps.get_current_admin_user, lift,
    mbind, M_bind, bind.
  destruct (Deps.get_current_user ext jwt_error_text other token now
              (open_session d)) as [[[j v]|e] w] eqn:E; simpl in *.
  - pose proof (Hret j v eq_refl) as Hv.
    destruct (is_active v) eqn:Ha; simpl.
    + destruct (is_verified v) eqn:Hve, (is_admin v) eqn:Had; simpl.
      all: split; intros [= <- <-] || intros [=].
      all: try (repeat split; assumption).
      all: try discriminate.
    + split; discriminate.
  - split; discriminate.
Qed.

(** ** Verification mail and reset-token check *)

Lemma query_first_none c d :
  (forall i u, users d !! i = Some u -> c u = false) -> query_first c d = None.
Proof.
  intros H. destruct (query_first c d) as [[i u]|] eqn:E; [|reflexivity].
  apply query_first_Some in E as [Hu Hc]. rewrite (H i u Hu) in Hc. discriminate.
Qed.

(** X10. The public resend endpoint stores nothing.  For an address with
    no account it answers with its standard message and queues no mail;
    for a verified account it fails with 400; for an unverified account
    it queues the verification mail and answers with the same message
    when the verification token can be made, and otherwise (the stored
    address fails the email pattern) ends in a [ValueError] and queues
    nothing. *)
Theorem resend_verification_behaviour ext mail now d :
  let resend := AuthVerification.resend_verification_email ext mail now in
  db_after resend d = d
  /\ ((forall i u, users d !! i = Some u -> email u <> mail) ->
      result_of resend d = Return AuthVerification.resend_message
      /\ tasks_of resend d = [])
  /\ (forall i u, unique_emails d -> users d !! i = Some u -> email u = mail ->
        if is_verified u then
          result_of resend d = Raise (HTTPException 400 "El correo ya está verificado")
          /\ tasks_of resend d = []
        else
          match Security.create_email_verification_token ext mail now with
          | Return tok =>
              (mail <> "" /\ Security.validate_email ext mail = true)
              /\ result_of resend d = Return AuthVerification.resend_message
              /\ tasks_of resend d = [send_verification_email mail tok]
          | Raise e =>
              (mail = "" \/ Security.validate_email ext mail = false)
              /\ result_of resend d = Raise ValueError
              /\ tasks_of resend d = []
          end).
Proof.
  intros resend. unfold resend, tasks_of. run_more.
  split; [|split].
  - destruct (query_first _ d) as [[j v]|]; [|reflexivity].
    destruct (is_verified v); [reflexivity|].
    destruct (Security.create_email_verification_token ext mail now); reflexivity.
  - intros Hfree. rewrite query_first_none; [split; reflexivity|].
    intros i u Hu. apply String.eqb_neq, (Hfree i u Hu).
  - intros i u Huniq Hu Hm.
    rewrite (query_first_unique _ d i u); [| |exact Hu|].
    + destruct (is_verified u); [split; reflexivity|].
      unfold Security.create_email_verification_token.
      destruct (String.eqb_spec mail "") as [Hmail|Hmail]; simpl.
      * split; [left; exact Hmail|]. split; reflexivity.
      * destruct (Security.validate_email ext mail); simpl.
        -- split; [split; [exact Hmail|reflexivity]|]. split; reflexivity.
        -- split; [right; reflexivity|]. split; reflexivity.
    + intros j v Hv Hc. apply String.eqb_eq in Hc.
      apply (Huniq j i v u Hv Hu). congruence.
    + apply String.eqb_eq, Hm.
Qed.

(** [carol], who never verified her email, asks for the mail again. *)
Lemma resend_verification_behaviour_witness :
  result_of (AuthVerification.resend_verification_email Fixture.externals
               "carol@example.com" 5) Fixture.db_unverified
  = Return AuthVerification.resend_message
  /\ tasks_of (AuthVerification.resend_verification_email Fixture.externals
                 "carol@example.com" 5) Fixture.db_unverified
     = [send_verification_email "carol@example.com"
          "email_verification.carol@example.com"].
Proof.
  destruct (resend_verification_behaviour Fixture.externals "carol@example.com" 5
              Fixture.db_unverified) as (_ & _ & H).
  specialize (H 2 Fixture.carol).
  apply H.
  - intros i j u v Hi Hj _.
    unfold Fixture.db_unverified in Hi, Hj. cbn [users] in Hi, Hj.
    apply lookup_singleton_Some in Hi as [<- _], Hj as [<- _]. reflexivity.
  - reflexivity.
  - reflexivity.
Defined.

(** X11. Checking a reset token stores nothing and has one failure only,
    the 400 "invalid or expired": a token the verifier refuses, an email
    with no account and an inactive account are told apart by nothing.
    When it succeeds, the email of the token belongs to a stored, active
    account and is echoed in the response. *)
Theorem verify_reset_token_behaviour ext other token now d :
  let check := PasswordResetToken.verify_reset_token ext other token now in
  db_after check d = d
  /\ (forall e, result_of check d = Raise e ->
        e = HTTPException 400 "Token inválido o expirado")
  /\ (forall resp, result_of check d = Return resp ->
        exists i u mail,
          Security.verify_password_reset_token ext token now = Return mail
          /\ users d !! i = Some u
          /\ is_active u = true
          /\ PasswordResetToken.email_equals other mail u = true
          /\ resp !! "email" = Some mail).
Proof.
  intros check. unfold check. run_more.
  destruct (Security.verify_password_reset_token ext token now) as [mail|e] eqn:Hv.
  - simpl. destruct (truthy mail); simpl.
    + destruct (query_first _ d) as [[j v]|] eqn:Hq; simpl.
      * apply query_first_Some in Hq as [Hj Hc].
        destruct (is_active v) eqn:Ha; simpl.
        -- split; [reflexivity|]. split; [discriminate|].
           intros resp [= <-]. exists j, v, mail. repeat split; assumption.
        -- split; [reflexivity|]. split; [intros e [= <-]; reflexivity|].
           discriminate.
      * split; [reflexivity|]. split; [intros e [= <-]; reflexivity|].
        discriminate.
    + split; [reflexivity|]. split; [intros e [= <-]; reflexivity|]. discriminate.
  - exfalso. exact (reset_verifier_never_raises ext token now e Hv).
Qed.

(** ** Registration *)

Lemma register_query_free user d :
  name_and_email_free user d ->
  query_first (fun u => String.eqb (username u) (uc_username user)
                        || String.eqb (email u) (uc_email user)) d = None.
Proof.
  intros Hfree. apply query_first_none. intros i u Hu.
  destruct (Hfree i u Hu) as [Hn He].
  apply orb_false_iff. split; apply String.eqb_neq; assumption.
Qed.

Lemma foldr_max_ge (l : list Z) (k : Z) : k ∈ l -> k <= foldr Z.max 0 l.
Proof.
  induction l as [|x l IH]; intros Hk.
  - apply elem_of_nil in Hk. contradiction.
  - apply elem_of_cons in Hk as [->|Hk]; cbn [foldr]; [lia|].
    specialize (IH Hk). lia.
Qed.

(** The key given to a new row is above every key in use. *)
Lemma next_user_id_above (d : Database) i u :
  users d !! i = Some u -> i < next_user_id d.
Proof.
  intros Hi. unfold next_user_id.
  assert (i <= foldr Z.max 0 ((map_to_list (users d)).*1)); [|lia].
  apply foldr_max_ge. apply list_elem_of_fmap. exists (i, u).
  split; [reflexivity|]. apply elem_of_map_to_list, Hi.
Qed.

Lemma next_user_id_unused (d : Database) : users d !! next_user_id d = None.
Proof.
  destruct (users d !! next_user_id d) as [u|] eqn:Hu; [|reflexivity].
  apply next_user_id_above in Hu. lia.
Qed.

(** [register_user] when the user name and the email are free and the
    password is not empty. *)
Lemma register_user_run ext user now d :
  name_and_email_free user d ->
  uc_password user <> "" ->
  let new_id := next_user_id d in
  let reg := Auth.register_user ext user now in
  users (db_after reg d) = <[new_id := registered ext user now]> (users d)
  /\ activities (db_after reg d) = activities d
  /\ match Security.create_email_verification_token ext (uc_email user) now with
     | Return tok =>
         result_of reg d = Return (new_id, registered ext user now)
         /\ tasks_of reg d = [send_verification_email (uc_email user) tok]
     | Raise e => result_of reg d = Raise e /\ tasks_of reg d = []
     end.
Proof.
  intros Hfree Hpw new_id reg. unfold reg, new_id, tasks_of, db_after, result_of,
    run_request.
  remember (Auth.register_user ext user now (open_session d)) as R eqn:HR.
  unfold Auth.register_user, Security.get_password_hash in HR.
  unfold mbind at 1, M_bind at 1, bind at 1 in HR. unfold read_working at 1 in HR.
  change (working (open_session d)) with d in HR.
  rewrite (register_query_free user d Hfree) in HR.
  destruct (String.eqb_spec (uc_password user) ""); [contradiction|].
  unfold lift, raise, read_working, modify_working, db_commit, add_task,
    mbind, M_bind, bind, mret, M_ret, ret in HR. simpl in HR.
  destruct (Security.create_email_verification_token ext (uc_email user) now);
    subst R; simpl; repeat split.
Qed.

(** X12. Registering with a free user name, a free email and a non-empty
    password stores one new row under an unused key: unverified, not an
    administrator, with no deletion pending and the hash of the password;
    every other row is untouched.  The row is stored even when the
    verification token cannot be made (the email fails the pattern): the
    request then ends in an error and queues no mail. *)
Theorem register_user_stores_unverified ext user now d :
  name_and_email_free user d ->
  uc_password user <> "" ->
  let reg := Auth.register_user ext user now in
  exists new_id,
    users d !! new_id = None
    /\ users (db_after reg d) !! new_id = Some (registered ext user now)
    /\ (forall j, j <> new_id -> users (db_after reg d) !! j = users d !! j)
    /\ match Security.create_email_verification_token ext (uc_email user) now with
       | Return tok =>
           result_of reg d = Return (new_id, registered ext user now)
           /\ tasks_of reg d = [send_verification_email (uc_email user) tok]
       | Raise e => result_of reg d = Raise e /\ tasks_of reg d = []
       end.
Proof.
  intros Hfree Hpw reg.
  destruct (register_user_run ext user now d Hfree Hpw) as (Hu & _ & Hres).
  exists (next_user_id d). fold reg in Hu, Hres.
  split; [apply next_user_id_unused|].
  split; [rewrite Hu; apply lookup_insert_eq|].
  split; [|exact Hres].
  intros j Hj. rewrite Hu. apply lookup_insert_ne. congruence.
Qed.

Lemma register_user_stores_unverified_witness :
  exists new_id,
    users Fixture.db_active !! new_id = None
    /\ users (db_after (Auth.register_user Fixture.externals Fixture.dora_form 0)
                Fixture.db_active) !! new_id = Some Fixture.dora.
Proof.
  destruct (register_user_stores_unverified Fixture.externals Fixture.dora_form 0
              Fixture.db_active) as (new_id & Hnone & Hnew & _).
  - intros i u Hu. unfold Fixture.db_active in Hu. cbn [users] in Hu.
    apply lookup_singleton_Some in Hu as [<- <-]. split; discriminate.
  - discriminate.
  - exists new_id. split; [exact Hnone|exact Hnew].
Defined.

(** X13. Registering with a user name or an email that some stored
    account already has fails with status 400, stores nothing and queues
    no mail. *)
Theorem register_user_rejects_taken ext user now d i u :
  users d !! i = Some u ->
  username u = uc_username user \/ email u = uc_email user ->
  let reg := Auth.register_user ext user now in
  (result_of reg d = Raise (HTTPException 400 "Nombre de usuario ya registrado")
   \/ result_of reg d = Raise (HTTPException 400 "Email ya registrado"))
  /\ db_after reg d = d
  /\ tasks_of reg d = [].
Proof.
  intros Hu Htaken reg. unfold reg, tasks_of, db_after, result_of, run_request.
  remember (Auth.register_user ext user now (open_session d)) as R eqn:HR.
  unfold Auth.register_user in HR.
  unfold mbind at 1, M_bind at 1, bind at 1 in HR. unfold read_working at 1 in HR.
  change (working (open_session d)) with d in HR.
  destruct (query_first _ d) as [[j v]|] eqn:Hq.
  - unfold raise in HR.
    destruct (String.eqb (username v) (uc_username user)); subst R; simpl.
    + split; [left; reflexivity|]. split; reflexivity.
    + split; [right; reflexivity|]. split; reflexivity.
  - exfalso. unfold query_first in Hq.
    assert (Hin : In (i, u) (map_to_list (users d)))
      by apply list_elem_of_In, elem_of_map_to_list, Hu.
    pose proof (find_none _ _ Hq (i, u) Hin) as Hf. simpl in Hf.
    apply orb_false_iff in Hf as [Hn He].
    apply String.eqb_neq in Hn, He. destruct Htaken; contradiction.
Qed.

Lemma register_user_rejects_taken_witness :
  db_after (Auth.register_user Fixture.externals
              {| uc_username := "alice"; uc_email := "otra@example.com";
                 uc_full_name := None; uc_password := "Nueva12345" |} 7)
    Fixture.db_active
  = Fixture.db_active.
Proof.
  apply (register_user_rejects_taken Fixture.externals
           {| uc_username := "alice"; uc_email := "otra@example.com";
              uc_full_name := None; uc_password := "Nueva12345" |} 7
           Fixture.db_active 1 Fixture.alice).
  - reflexivity.
  - left. reflexivity.
Defined.

Lemma unique_kept d d' :
  (forall j v', users d' !! j = Some v' ->
     exists v, users d !! j = Some v
               /\ username v' = username v /\ email v' = email v) ->
  unique_usernames d /\ unique_emails d ->
  unique_usernames d' /\ unique_emails d'.
Proof.
  intros Hk [Hn He]. split.
  - intros i j u v Hi Hj Heq.
    destruct (Hk i u Hi) as (u0 & Hi0 & Hun & _).
    destruct (Hk j v Hj) as (v0 & Hj0 & Hvn & _).
    apply (Hn i j u0 v0 Hi0 Hj0). congruence.
  - intros i j u v Hi Hj Heq.
    destruct (Hk i u Hi) as (u0 & Hi0 & _ & Hue).
    destruct (Hk j v Hj) as (v0 & Hj0 & _ & Hve).
    apply (He i j u0 v0 Hi0 Hj0). congruence.
Qed.

Lemma unique_kept_same d d' :
  users d' = users d ->
  unique_usernames d /\ unique_emails d ->
  unique_usernames d' /\ unique_emails d'.
Proof.
  intros He. apply unique_kept. intros j v' Hj. rewrite He in Hj. eauto.
Qed.

Lemma unique_kept_update d d' i u u' :
  users d !! i = Some u ->
  users d' = <[i := u']> (users d) ->
  username u' = username u -> email u' = email u ->
  unique_usernames d /\ unique_emails d ->
  unique_usernames d' /\ unique_emails d'.
Proof.
  intros Hu He Hn Hm. apply unique_kept. intros j v' Hj. rewrite He in Hj.
  destruct (decide (i = j)) as [<-|Hne].
  - rewrite lookup_insert_eq in Hj. injection Hj as <-. eauto.
  - rewrite lookup_insert_ne in Hj by exact Hne. eauto.
Qed.

Lemma logged_in_email now u : email (logged_in now u) = email u.
Proof. unfold logged_in. destruct (deletion_requested_at u); reflexivity. Qed.

(** Over all of its paths, [register_user] stores nothing or adds one row
    whose user name and email no stored row has. *)
Lemma register_user_unique ext user now d :
  unique_usernames d /\ unique_emails d ->
  unique_usernames (db_after (Auth.register_user ext user now) d)
  /\ unique_emails (db_after (Auth.register_user ext user now) d).
Proof.
  intros Hd.
  assert (Hcases :
    users (db_after (Auth.register_user ext user now) d) = users d
    \/ (query_first (fun u => String.eqb (username u) (uc_username user)
                             || String.eqb (email u) (uc_email user)) d = None
        /\ exists row,
             username row = uc_username user /\ email row = uc_email user
             /\ users (db_after (Auth.register_user ext user now) d)
                = <[next_user_id d := row]> (users d))).
  { unfold db_after, run_request, Auth.register_user, read_working, lift, raise,
      modify_working, db_commit, add_task, mbind, M_bind, bind, mret, M_ret, ret.
    simpl.
    destruct (query_first _ d) as [[j existing]|] eqn:Hq.
    - left. destruct (String.eqb _ _); reflexivity.
    - destruct (Security.get_password_hash ext (uc_password user)) as [hashed|e];
        [|left; reflexivity].
      right. split; [reflexivity|]. eexists.
      destruct (Security.create_email_verification_token ext _ now); simpl.
      all: split; [|split]; [| |reflexivity]; reflexivity. }
  destruct Hcases as [He|(Hq & row & Hn & Hm & He)].
  - apply (unique_kept_same d _ He Hd).
  - assert (Hfree : forall j v, users d !! j = Some v ->
                      username v <> uc_username user /\ email v <> uc_email user).
    { intros j v Hj. unfold query_first in Hq.
      assert (Hin : In (j, v) (map_to_list (users d)))
        by apply list_elem_of_In, elem_of_map_to_list, Hj.
      pose proof (find_none _ _ Hq (j, v) Hin) as Hf. simpl in Hf.
      apply orb_false_iff in Hf as [H1 H2].
      split; apply String.eqb_neq; assumption. }
    destruct Hd as [Hun Hue].
    assert (Hrows : forall j v,
              users (db_after (Auth.register_user ext user now) d) !! j = Some v ->
              (j = next_user_id d /\ v = row)
              \/ (j <> next_user_id d /\ users d !! j = Some v)).
    { intros j v Hj. rewrite He in Hj.
      apply lookup_insert_Some in Hj as [[<- <-]|[Hne Hj]]; eauto. }
    split; intros i j u v Hi Hj Heq.
    + destruct (Hrows i u Hi) as [[-> ->]|[Hni Hi0]],
               (Hrows j v Hj) as [[-> ->]|[Hnj Hj0]]; try reflexivity.
      * exfalso. destruct (Hfree j v Hj0) as [H _]. congruence.
      * exfalso. destruct (Hfree i u Hi0) as [H _]. congruence.
      * apply (Hun i j u v Hi0 Hj0 Heq).
    + destruct (Hrows i u Hi) as [[-> ->]|[Hni Hi0]],
               (Hrows j v Hj) as [[-> ->]|[Hnj Hj0]]; try reflexivity.
      * exfalso. destruct (Hfree j v Hj0) as [_ H]. congruence.
      * exfalso. destruct (Hfree i u Hi0) as [_ H]. congruence.
      * apply (Hue i j u v Hi0 Hj0 Heq).
Qed.

Lemma apply_operation_unique ext other op now d :
  unique_usernames d /\ unique_emails d ->
  unique_usernames (apply_operation ext other op now d)
  /\ unique_emails (apply_operation ext other op now d).
Proof.
  intros Hd.
  destruct op as [user|tok|name pw|uid client cu|td|uid client cu| |]; simpl.
  - apply register_user_unique, Hd.
  - destruct (verify_email_effect ext other d tok now) as [He|(i & u & Hu & _ & He)].
    + apply (unique_kept_same d _ He Hd).
    + apply (unique_kept_update d _ i u _ Hu He); [reflexivity|reflexivity|exact Hd].
  - destruct (login_effect ext d name pw now) as [He|(i & u & Hu & He)].
    + apply (unique_kept_same d _ He Hd).
    + apply (unique_kept_update d _ i u _ Hu He); [| |exact Hd].
      * apply logged_in_username.
      * apply logged_in_email.
  - destruct (request_account_deletion_effect ext d uid cu client now)
      as [He|(u & Hu & He)].
    + apply (unique_kept_same d _ He Hd).
    + apply (unique_kept_update d _ uid u _ Hu He); [reflexivity|reflexivity|exact Hd].
  - destruct (confirm_account_deletion_effect ext d td now)
      as [He|(i & u & req & Hu & Hr & He)].
    + apply (unique_kept_same d _ He Hd).
    + apply (unique_kept_update d _ i u _ Hu He); [reflexivity|reflexivity|exact Hd].
  - destruct (cancel_account_deletion_effect ext d uid cu client)
      as [He|(u & Hu & He)].
    + apply (unique_kept_same d _ He Hd).
    + apply (unique_kept_update d _ uid u _ Hu He); [reflexivity|reflexivity|exact Hd].
  - apply (unique_kept d); [|exact Hd].
    intros j v' Hj. rewrite sweep_lookup in Hj.
    destruct (users d !! j) as [u|]; [|discriminate].
    destruct (DeletionScheduler.due now u); [discriminate|].
    injection Hj as <-. eauto.
  - apply (unique_kept d); [|exact Hd].
    intros j v' Hj. rewrite cleanup_lookup in Hj.
    destruct (users d !! j) as [u|]; [|discriminate].
    destruct (DeletionScheduler.expired_request now u); injection Hj as <-; eauto.
Qed.

(** X14. User names and emails stay unique: in every store reached from
    a starting store (user names and emails unique, no deletion pending)
    by registrations, email verifications, logins, deletion requests,
    confirmations, cancellations, sweeps and clean-ups, no two accounts
    share a user name and no two share an email. *)
Theorem reachable_names_unique ext other s :
  reachable ext other s ->
  unique_usernames (store s) /\ unique_emails (store s).
Proof.
  induction 1 as [t0 d0 (Hn & He & _)|s op now Hs IH Hle]; cbn [store].
  - split; [exact Hn|exact He].
  - apply apply_operation_unique, IH.
Qed.

(** Three accounts: [alice] logs in at hour 1 and [dora] registers at
    hour 2, beside [root]. *)
Lemma reachable_names_unique_witness :
  users (apply_operation Scenario.externals Scenario.matches_other
           (OpRegister Fixture.dora_form) (2 * Fixture.hour)
           (apply_operation Scenario.externals Scenario.matches_other
              (OpLogin "alice" "Secreta123") Fixture.hour Scenario.db_two))
  = {[ 1 := logged_in Fixture.hour Fixture.alice; 2 := Scenario.root;
       3 := registered Scenario.externals Fixture.dora_form (2 * Fixture.hour) ]}
  /\ unique_usernames
       (apply_operation Scenario.externals Scenario.matches_other
          (OpRegister Fixture.dora_form) (2 * Fixture.hour)
          (apply_operation Scenario.externals Scenario.matches_other
             (OpLogin "alice" "Secreta123") Fixture.hour Scenario.db_two))
  /\ unique_emails
       (apply_operation Scenario.externals Scenario.matches_other
          (OpRegister Fixture.dora_form) (2 * Fixture.hour)
          (apply_operation Scenario.externals Scenario.matches_other
             (OpLogin "alice" "Secreta123") Fixture.hour Scenario.db_two)).
Proof.
  split; [vm_compute; reflexivity|].
  apply (reachable_names_unique Scenario.externals Scenario.matches_other
           {| clock := 2 * Fixture.hour;
              store := apply_operation Scenario.externals Scenario.matches_other
                         (OpRegister Fixture.dora_form) (2 * Fixture.hour)
                         (apply_operation Scenario.externals Scenario.matches_other
                            (OpLogin "alice" "Secreta123") Fixture.hour
                            Scenario.db_two) |}).
  apply (reachable_step Scenario.externals Scenario.matches_other
           {| clock := Fixture.hour;
              store := apply_operation Scenario.externals Scenario.matches_other
                         (OpLogin "alice" "Secreta123") Fixture.hour
                         Scenario.db_two |}).
  - apply (reachable_step Scenario.externals Scenario.matches_other
             {| clock := 0; store := Scenario.db_two |}).
    + apply reachable_init, db_two_initial.
    + vm_compute. discriminate.
  - vm_compute. discriminate.
Defined.

Lemma authenticate_found ext d name pw i u :
  query_first (fun v => String.eqb (username v) name) d = Some (i, u) ->
  Security.verify_password ext pw (hashed_password u) = true ->
  result_of (Auth.authenticate_user ext name pw) d = Return (Some (i, u)).
Proof.
  intros Hq Hpw.
  unfold result_of, run_request, Auth.authenticate_user, Auth.get_user_by_username,
    read_working, mbind, M_bind, bind, mret, M_ret, ret. simpl.
  rewrite Hq, Hpw. reflexivity.
Qed.

(** X15. A freshly registered account cannot log in: with the user name
    and the password just registered, the login is refused with 401
    "verify your email first" and stores nothing. *)
Theorem new_account_cannot_login ext user now now' d :
  name_and_email_free user d ->
  uc_password user <> "" ->
  pwd_context_hash ext (uc_password user) <> "" ->
  pwd_context_verify ext (uc_password user) (pwd_context_hash ext (uc_password user))
  = true ->
  let d' := db_after (Auth.register_user ext user now) d in
  let login :=
    Auth.login_for_access_token ext (uc_username user) (uc_password user) now' in
  result_of login d'
  = Raise (HTTPException 401 "Debes verificar tu correo antes de iniciar sesión.")
  /\ db_after login d' = d'.
Proof.
  intros Hfree Hpw Hhash Hverify d' login.
  destruct (register_user_run ext user now d Hfree Hpw) as (Hu & _ & _).
  fold d' in Hu.
  assert (Hauth : result_of (Auth.authenticate_user ext (uc_username user)
                               (uc_password user)) d'
                  = Return (Some (next_user_id d, registered ext user now))).
  { apply authenticate_found.
    - apply query_first_unique.
      + intros j v Hj Hn. apply String.eqb_eq in Hn. rewrite Hu in Hj.
        apply lookup_insert_Some in Hj as [[<- _]|[_ Hj]]; [reflexivity|].
        exfalso. destruct (Hfree j v Hj) as [H _]. contradiction.
      + rewrite Hu. apply lookup_insert_eq.
      + apply String.eqb_refl.
    - unfold Security.verify_password. simpl.
      destruct (String.eqb_spec (uc_password user) ""); [contradiction|].
      destruct (String.eqb_spec (pwd_context_hash ext (uc_password user)) "");
        [contradiction|].
      exact Hverify. }
  exact (login_run ext (uc_username user) (uc_password user) now' d' _ Hauth).
Qed.

Lemma new_account_cannot_login_witness :
  result_of (Auth.login_for_access_token Fixture.externals "dora" "Guitarra99" 9)
    (db_after (Auth.register_user Fixture.externals Fixture.dora_form 0)
       Fixture.db_active)
  = Raise (HTTPException 401 "Debes verificar tu correo antes de iniciar sesión.").
Proof.
  apply (new_account_cannot_login Fixture.externals Fixture.dora_form 0 9
           Fixture.db_active).
  - intros i u Hu. unfold Fixture.db_active in Hu. cbn [users] in Hu.
    apply lookup_singleton_Some in Hu as [<- <-]. split; discriminate.
  - discriminate.
  - discriminate.
  - reflexivity.
Defined.

(** ** More on login *)

Lemma login_refused_run ext name pw now d :
  result_of (Auth.authenticate_user ext name pw) d = Return None ->
  result_of (Auth.login_for_access_token ext name pw now) d
  = Raise (HTTPException 401 "Nombre de usuario o contraseña incorrectos")
  /\ db_after (Auth.login_for_access_token ext name pw now) d = d
  /\ tasks_of (Auth.login_for_access_token ext name pw now) d = [].
Proof.
  intros Hr.
  pose proof (authenticate_user_result ext name pw d _ Hr) as Hrun.
  unfold tasks_of, result_of, db_after, run_request.
  remember (Auth.login_for_access_token ext name pw now (open_session d))
    as L eqn:HL.
  unfold Auth.login_for_access_token in HL.
  unfold mbind at 1, M_bind at 1, bind at 1 in HL. rewrite Hrun in HL.
  subst L. repeat split.
Qed.

(** X16. An empty password never logs in: whatever the user name and
    whatever is stored, the login is refused with 401, stores nothing and
    queues no mail. *)
Theorem empty_password_never_logs_in ext name now d :
  let login := Auth.login_for_access_token ext name "" now in
  result_of login d
  = Raise (HTTPException 401 "Nombre de usuario o contraseña incorrectos")
  /\ db_after login d = d
  /\ tasks_of login d = [].
Proof.
  intros login. apply login_refused_run.
  unfold result_of, run_request.
  destruct (authenticate_user_run ext name "" (open_session d)) as (r & -> & Hs).
  simpl. destruct r as [[i u]|]; [|reflexivity].
  destruct (Hs i u eq_refl) as [_ Hv].
  unfold Security.verify_password in Hv. simpl in Hv. discriminate.
Qed.

(** X17. Logging in with the email instead of the user name: when no
    stored user name equals that email, emails are unique and the password
    matches the hash of the account, the account is authenticated. *)
Theorem authenticate_by_email ext d uid u pw :
  unique_emails d ->
  (forall j v, users d !! j = Some v -> username v <> email u) ->
  users d !! uid = Some u ->
  Security.verify_password ext pw (hashed_password u) = true ->
  result_of (Auth.authenticate_user ext (email u) pw) d = Return (Some (uid, u)).
Proof.
  intros Huniq Hnames Hu Hpw.
  unfold result_of, run_request, Auth.authenticate_user, Auth.get_user_by_username,
    Auth.get_user_by_email, read_working, mbind, M_bind, bind, mret, M_ret, ret.
  simpl.
  rewrite query_first_none.
  - rewrite (query_first_unique _ d uid u); [rewrite Hpw; reflexivity| |exact Hu|].
    + intros j v Hj Hc. apply String.eqb_eq in Hc.
      apply (Huniq j uid v u Hj Hu Hc).
    + apply String.eqb_refl.
  - intros j v Hj. apply String.eqb_neq, (Hnames j v Hj).
Qed.

Lemma authenticate_by_email_witness :
  result_of (Auth.authenticate_user Fixture.externals "alice@example.com"
               "Secreta123") Scenario.db_two
  = Return (Some (1, Fixture.alice)).
Proof.
  apply (authenticate_by_email Fixture.externals Scenario.db_two 1 Fixture.alice
           "Secreta123").
  - exact db_two_unique_emails.
  - intros j v Hj. destruct (db_two_rows j v Hj) as [[-> ->]|[-> ->]]; discriminate.
  - reflexivity.
  - reflexivity.
Defined.

Lemma login_success_run ext name pw now d uid u :
  result_of (Auth.authenticate_user ext name pw) d = Return (Some (uid, u)) ->
  is_verified u = true ->
  returned (result_of (Auth.login_for_access_token ext name pw now) d) = true
  /\ users (db_after (Auth.login_for_access_token ext name pw now) d)
     = <[uid := logged_in now u]> (users d)
  /\ activities (db_after (Auth.login_for_access_token ext name pw now) d)
     = activities d
  /\ tasks_of (Auth.login_for_access_token ext name pw now) d
     = match deletion_requested_at u with
       | Some _ => [send_account_deletion_cancelled (email u)]
       | None => []
       end.
Proof.
  intros Hr Hv.
  pose proof (authenticate_user_result ext name pw d _ Hr) as Hrun.
  pose proof (authenticate_user_stored ext name pw d uid u Hr) as Hu.
  unfold tasks_of, result_of, db_after, run_request.
  remember (Auth.login_for_access_token ext name pw now (open_session d))
    as L eqn:HL.
  unfold Auth.login_for_access_token in HL.
  unfold mbind at 1, M_bind at 1, bind at 1 in HL. rewrite Hrun in HL.
  rewrite Hv in HL. simpl in HL.
  unfold Security.create_access_token in HL.
  destruct (decide _) as [He|_]; [exfalso; exact (map_non_empty_singleton _ _ He)|].
  unfold logged_in, cleared.
  destruct (deletion_requested_at u) as [t|]; subst L; run_handler.
  - repeat split.
    rewrite (alter_alt_Some _ _ _ _ Hu), !alter_insert_eq. reflexivity.
  - repeat split.
    rewrite (alter_alt_Some _ _ _ _ Hu). reflexivity.
Qed.

(** X18. What a successful login writes: in the row of the account,
    [last_login] becomes the login time and, when a deletion was
    requested, both deletion fields become null and one cancellation mail
    is queued to the account's email; without a request the deletion
    fields and the mail queue stay as they were.  The email, user name,
    password hash, full name, the active, administrator and verified
    flags, the creation time and the verification time of the row keep
    their values, and every other row is as it was.  ([updated_at], which
    is not a column of the model, is rewritten by the UPDATE.) *)
Theorem login_sets_login_time_and_clears_deletion ext name pw now d uid u :
  result_of (Auth.authenticate_user ext name pw) d = Return (Some (uid, u)) ->
  is_verified u = true ->
  let login := Auth.login_for_access_token ext name pw now in
  exists u',
    users (db_after login d) !! uid = Some u'
    /\ last_login u' = Some now
    /\ same_identity u u'
    /\ (forall j, j <> uid -> users (db_after login d) !! j = users d !! j)
    /\ match deletion_requested_at u with
       | Some _ =>
           deletion_requested_at u' = None /\ deletion_scheduled_at u' = None
           /\ tasks_of login d = [send_account_deletion_cancelled (email u)]
       | None =>
           deletion_requested_at u' = None
           /\ deletion_scheduled_at u' = deletion_scheduled_at u
           /\ tasks_of login d = []
       end.
Proof.
  intros Hr Hv login.
  destruct (login_success_run ext name pw now d uid u Hr Hv) as (_ & Hdb & _ & Ht).
  fold login in Hdb, Ht.
  exists (logged_in now u).
  split; [rewrite Hdb; apply lookup_insert_eq|].
  unfold logged_in in *.
  destruct (deletion_requested_at u) as [t|] eqn:Hreq.
  - split; [reflexivity|]. split; [repeat split|].
    split; [intros j Hj; rewrite Hdb; apply lookup_insert_ne; congruence|].
    repeat split. exact Ht.
  - split; [reflexivity|]. split; [repeat split|].
    split; [intros j Hj; rewrite Hdb; apply lookup_insert_ne; congruence|].
    split; [exact Hreq|]. split; [reflexivity|exact Ht].
Qed.

(** [alice], whose deletion is scheduled for hour 24, logs in at hour 3,
    in a store she shares with [root]. *)
Lemma login_sets_login_time_and_clears_deletion_witness :
  exists u',
    users (db_after (Auth.login_for_access_token Scenario.externals "alice"
                       "Secreta123" (3 * Fixture.hour))
             Scenario.db_with_activities) !! 1 = Some u'
    /\ last_login u' = Some (3 * Fixture.hour)
    /\ same_identity Fixture.alice_scheduled u'
    /\ (forall j, j <> 1 ->
          users (db_after (Auth.login_for_access_token Scenario.externals "alice"
                             "Secreta123" (3 * Fixture.hour))
                   Scenario.db_with_activities) !! j
          = users Scenario.db_with_activities !! j)
    /\ deletion_requested_at u' = None
    /\ deletion_scheduled_at u' = None
    /\ tasks_of (Auth.login_for_access_token Scenario.externals "alice"
                   "Secreta123" (3 * Fixture.hour)) Scenario.db_with_activities
       = [send_account_deletion_cancelled "alice@example.com"].
Proof.
  apply (login_sets_login_time_and_clears_deletion Scenario.externals "alice"
           "Secreta123" (3 * Fixture.hour) Scenario.db_with_activities 1
           Fixture.alice_scheduled).
  - vm_compute. reflexivity.
  - reflexivity.
Defined.

(** ** The deletion endpoints composed *)

Lemma request_account_deletion_tasks ext d uid u cu client now :
  users d !! uid = Some u ->
  deletion_requested_at u = None ->
  authorized cu uid ->
  tasks_of (Users.request_account_deletion ext uid client cu now) d
  = [send_account_deletion_confirmation (email u)
       (Security.create_account_deletion_token ext uid now)].
Proof.
  intros Hu Hr Ha. unfold tasks_of. run_handler.
  rewrite (authorized_check _ _ Ha). simpl.
  rewrite Hu. simpl. rewrite Hr. simpl.
  destruct (Activity_init ext uid _ _ _) as [[[? ?] ?]|]; reflexivity.
Qed.

Lemma request_account_deletion_refused ext d uid u cu client now req :
  users d !! uid = Some u ->
  deletion_requested_at u = Some req ->
  authorized cu uid ->
  result_of (Users.request_account_deletion ext uid client cu now) d
  = Raise (HTTPException 400 "Ya existe una solicitud de eliminación pendiente")
  /\ db_after (Users.request_account_deletion ext uid client cu now) d = d
  /\ tasks_of (Users.request_account_deletion ext uid client cu now) d = [].
Proof.
  intros Hu Hr Ha. unfold tasks_of. run_handler.
  rewrite (authorized_check _ _ Ha). simpl.
  rewrite Hu. simpl. rewrite Hr. simpl. repeat split.
Qed.

(** X19. Requesting a deletion and then cancelling it, for an account
    with no deletion pending, leaves both deletion fields of the account
    null again and every other column of the model with the value it had;
    no other row is written.  ([updated_at], which is not a column of the
    model, is rewritten by the two UPDATEs of the row.) *)
Theorem request_then_cancel_clears_deletion ext d uid u cu cu' client client' now :
  users d !! uid = Some u ->
  deletion_requested_at u = None ->
  deletion_scheduled_at u = None ->
  authorized cu uid -> authorized cu' uid ->
  let d2 := db_after (Users.cancel_account_deletion ext uid client' cu')
              (db_after (Users.request_account_deletion ext uid client cu now) d) in
  exists u',
    users d2 !! uid = Some u'
    /\ deletion_requested_at u' = None
    /\ deletion_scheduled_at u' = None
    /\ same_identity u u'
    /\ last_login u' = last_login u
    /\ (forall j, j <> uid -> users d2 !! j = users d !! j).
Proof.
  intros Hu Hr Hs Ha Ha' d2. unfold d2.
  destruct (request_account_deletion_run ext d uid u cu client now Hu Hr Ha)
    as (_ & _ & Hd1).
  set (d1 := db_after (Users.request_account_deletion ext uid client cu now) d) in *.
  assert (Hu1 : users d1 !! uid = Some (requested_and_scheduled now u))
    by (rewrite Hd1; apply lookup_insert_eq).
  pose proof (cancel_account_deletion_run ext d1 uid _ cu' client' Hu1 Ha') as Hc.
  simpl in Hc. destruct Hc as [_ Hd2].
  exists (cleared (requested_and_scheduled now u)).
  rewrite Hd2, Hd1, insert_insert_eq.
  split; [apply lookup_insert_eq|].
  split; [reflexivity|]. split; [reflexivity|].
  split; [repeat split|]. split; [reflexivity|].
  intros j Hj. apply lookup_insert_ne. congruence.
Qed.

(** [alice] asks for deletion and [root], an administrator, cancels it. *)
Lemma request_then_cancel_clears_deletion_witness :
  exists u',
    users (db_after (Users.cancel_account_deletion Scenario.externals 1 None
                       (2, Scenario.root))
             (db_after (Users.request_account_deletion Scenario.externals 1 None
                          (1, Fixture.alice) 50) Scenario.db_two)) !! 1 = Some u'
    /\ deletion_requested_at u' = None
    /\ deletion_scheduled_at u' = None
    /\ same_identity Fixture.alice u'
    /\ last_login u' = last_login Fixture.alice
    /\ (forall j, j <> 1 ->
          users (db_after (Users.cancel_account_deletion Scenario.externals 1 None
                             (2, Scenario.root))
                   (db_after (Users.request_account_deletion Scenario.externals 1
                                None (1, Fixture.alice) 50) Scenario.db_two)) !! j
          = users Scenario.db_two !! j).
Proof.
  apply (request_then_cancel_clears_deletion Scenario.externals Scenario.db_two 1
           Fixture.alice (1, Fixture.alice) (2, Scenario.root) None None 50).
  - reflexivity.
  - reflexivity.
  - reflexivity.
  - left. reflexivity.
  - right. reflexivity.
Defined.

(** X20. A second deletion request is refused: once a request went
    through, another one for the same account, at any time and by any
    authorised caller, fails with 400, stores nothing and queues no
    mail. *)
Theorem second_request_refused ext d uid u cu cu' client client' now now' :
  users d !! uid = Some u ->
  deletion_requested_at u = None ->
  authorized cu uid -> authorized cu' uid ->
  let d1 := db_after (Users.request_account_deletion ext uid client cu now) d in
  let again := Users.request_account_deletion ext uid client' cu' now' in
  result_of again d1
  = Raise (HTTPException 400 "Ya existe una solicitud de eliminación pendiente")
  /\ db_after again d1 = d1
  /\ tasks_of again d1 = [].
Proof.
  intros Hu Hr Ha Ha' d1 again.
  destruct (request_account_deletion_run ext d uid u cu client now Hu Hr Ha)
    as (_ & _ & Hd1).
  fold d1 in Hd1.
  assert (Hu1 : users d1 !! uid = Some (requested_and_scheduled now u))
    by (rewrite Hd1; apply lookup_insert_eq).
  exact (request_account_deletion_refused ext d1 uid _ cu' client' now' now
           Hu1 eq_refl Ha').
Qed.

Lemma second_request_refused_witness :
  result_of (Users.request_account_deletion Fixture.externals 1 None
               (1, Fixture.alice) 60)
    (db_after (Users.request_account_deletion Fixture.externals 1 None
                 (1, Fixture.alice) 50) Fixture.db_active)
  = Raise (HTTPException 400 "Ya existe una solicitud de eliminación pendiente").
Proof.
  apply (second_request_refused Fixture.externals Fixture.db_active 1
           Fixture.alice (1, Fixture.alice) (1, Fixture.alice) None None 50 60).
  - reflexivity.
  - reflexivity.
  - left. reflexivity.
  - left. reflexivity.
Defined.

(** X21. A caller who is neither the account nor an administrator is
    turned away with 403 by the request, cancel, resend and logout-all
    endpoints, before the account is even looked up: nothing is stored and
    nothing is queued, whether the account exists or not. *)
Theorem unauthorized_caller_gets_403 ext d uid cu client now :
  fst cu <> uid -> is_admin (snd cu) = false ->
  let forbidden : outcome (gmap string string) :=
    Raise (HTTPException 403 "No tienes autorización para realizar esta acción") in
  (result_of (Users.request_account_deletion ext uid client cu now) d = forbidden
   /\ db_after (Users.request_account_deletion ext uid client cu now) d = d
   /\ tasks_of (Users.request_account_deletion ext uid client cu now) d = [])
  /\ (result_of (Users.cancel_account_deletion ext uid client cu) d = forbidden
      /\ db_after (Users.cancel_account_deletion ext uid client cu) d = d
      /\ tasks_of (Users.cancel_account_deletion ext uid client cu) d = [])
  /\ (result_of (UsersSession.resend_verification_email ext uid client cu now) d
      = forbidden
      /\ db_after (UsersSession.resend_verification_email ext uid client cu now) d = d
      /\ tasks_of (UsersSession.resend_verification_email ext uid client cu now) d = [])
  /\ (result_of (UsersSession.logout_all_sessions ext uid client cu now) d = forbidden
      /\ db_after (UsersSession.logout_all_sessions ext uid client cu now) d = d
      /\ tasks_of (UsersSession.logout_all_sessions ext uid client cu now) d = []).
Proof.
  intros Hne Hadm forbidden. unfold forbidden, tasks_of. run_more.
  rewrite Hadm. destruct (Z.eqb_spec cu.1 uid); [contradiction|].
  simpl. repeat split.
Qed.

Lemma unauthorized_caller_gets_403_witness :
  db_after (Users.request_account_deletion Fixture.externals 2 None
              (1, Fixture.alice) 50) Scenario.db_two
  = Scenario.db_two.
Proof.
  apply (unauthorized_caller_gets_403 Fixture.externals Scenario.db_two 2
           (1, Fixture.alice) None 50).
  - discriminate.
  - reflexivity.
Defined.

(** X22. The sweep does not wait for a confirmation: after a deletion
    request made at [now], a sweep at time [t] deletes the account exactly
    when [t] is at least [now + 24h], and keeps it as the request left it
    before that. *)
Theorem unconfirmed_request_is_swept ext d uid u cu client now t :
  users d !! uid = Some u ->
  deletion_requested_at u = None ->
  authorized cu uid ->
  users (sweep t (db_after (Users.request_account_deletion ext uid client cu now) d))
    !! uid
  = if decide (now + timedelta_hours 24 <= t) then None
    else Some (requested_and_scheduled now u).
Proof.
  intros Hu Hr Ha.
  destruct (request_account_deletion_run ext d uid u cu client now Hu Hr Ha)
    as (_ & _ & Hd1).
  rewrite sweep_lookup, Hd1, lookup_insert_eq.
  unfold DeletionScheduler.due. cbn [requested_and_scheduled
    set_deletion_scheduled_at deletion_scheduled_at].
  destruct (Z.leb_spec (now + timedelta_hours 24) t), (decide _);
    try reflexivity; lia.
Qed.

Lemma unconfirmed_request_is_swept_witness :
  users (sweep (30 * Fixture.hour)
           (db_after (Users.request_account_deletion Fixture.externals 1 None
                        (1, Fixture.alice) Fixture.hour) Fixture.db_active)) !! 1
  = None.
Proof.
  rewrite (unconfirmed_request_is_swept Fixture.externals Fixture.db_active 1
             Fixture.alice (1, Fixture.alice) None Fixture.hour
             (30 * Fixture.hour)).
  - reflexivity.
  - reflexivity.
  - reflexivity.
  - left. reflexivity.
Defined.

(** X23. A confirmation restarts the 24 hours: after a request at [now]
    and a confirmation at [t1] with a token that verifies for the account,
    a sweep at time [t] deletes the account exactly when [t] is at least
    [t1 + 24h]. *)
Theorem confirmation_restarts_the_clock ext d uid u cu client now
    (token_data : gmap string string) tok t1 t :
  users d !! uid = Some u ->
  deletion_requested_at u = None ->
  authorized cu uid ->
  token_data !! "token" = Some tok ->
  tok <> "" ->
  Security.verify_account_deletion_token ext tok t1 = Return (Some uid) ->
  let d1 := db_after (Users.request_account_deletion ext uid client cu now) d in
  let d2 := db_after (Auth.confirm_account_deletion ext token_data t1) d1 in
  users (sweep t d2) !! uid
  = if decide (t1 + timedelta_hours 24 <= t) then None
    else Some (set_deletion_scheduled_at (Some (t1 + timedelta_hours 24))
                 (requested_and_scheduled now u)).
Proof.
  intros Hu Hr Ha Htd Hne Hv d1 d2.
  destruct (request_account_deletion_run ext d uid u cu client now Hu Hr Ha)
    as (_ & _ & Hd1).
  fold d1 in Hd1.
  assert (Hu1 : users d1 !! uid = Some (requested_and_scheduled now u))
    by (rewrite Hd1; apply lookup_insert_eq).
  pose proof (confirm_account_deletion_run ext d1 token_data tok uid _ t1
                Htd Hne Hv Hu1) as Hc.
  simpl in Hc. destruct Hc as [_ Hd2]. fold d2 in Hd2.
  rewrite sweep_lookup, Hd2, lookup_insert_eq.
  unfold DeletionScheduler.due.
  cbn [set_deletion_scheduled_at deletion_scheduled_at].
  destruct (Z.leb_spec (t1 + timedelta_hours 24) t), (decide _);
    try reflexivity; lia.
Qed.

Lemma confirmation_restarts_the_clock_witness :
  users (sweep (30 * Fixture.hour)
           (db_after (Auth.confirm_account_deletion Fixture.externals
                        Fixture.deletion_token (10 * Fixture.hour))
              (db_after (Users.request_account_deletion Fixture.externals 1 None
                           (1, Fixture.alice) Fixture.hour) Fixture.db_active))) !! 1
  = Some (set_deletion_scheduled_at (Some (10 * Fixture.hour + timedelta_hours 24))
            (requested_and_scheduled Fixture.hour Fixture.alice)).
Proof.
  rewrite (confirmation_restarts_the_clock Fixture.externals Fixture.db_active 1
             Fixture.alice (1, Fixture.alice) None Fixture.hour
             Fixture.deletion_token "account_deletion.1" (10 * Fixture.hour)
             (30 * Fixture.hour)).
  - reflexivity.
  - reflexivity.
  - reflexivity.
  - left. reflexivity.
  - reflexivity.
  - discriminate.
  - reflexivity.
Defined.

(** X24. The token mailed by a deletion request confirms that request:
    the request queues one confirmation mail to the account's email, and
    presenting the mailed token while the JWT library accepts it makes
    [confirm_account_deletion] succeed and schedule the deletion 24 hours
    after the confirmation. *)
Theorem mailed_token_confirms ext d uid u cu client now now' :
  codec_keeps ext "type" -> codec_keeps ext "sub" ->
  int_of_str ext (str_of_int ext uid) = Some uid ->
  str_of_int ext uid <> "" ->
  users d !! uid = Some u ->
  deletion_requested_at u = None ->
  authorized cu uid ->
  let tok := Security.create_account_deletion_token ext uid now in
  let d1 := db_after (Users.request_account_deletion ext uid client cu now) d in
  let confirm := Auth.confirm_account_deletion ext {[ "token" := tok ]} now' in
  tok <> "" ->
  jwt_decode ext tok (secret_key ext) [algorithm ext] now' <> None ->
  tasks_of (Users.request_account_deletion ext uid client cu now) d
  = [send_account_deletion_confirmation (email u) tok]
  /\ returned (result_of confirm d1) = true
  /\ users (db_after confirm d1) !! uid
     = Some (set_deletion_scheduled_at (Some (now' + timedelta_hours 24))
               (requested_and_scheduled now u)).
Proof.
  intros Ht Hs Hint Hstr Hu Hr Ha tok d1 confirm Hne Hdec.
  split; [apply (request_account_deletion_tasks ext d uid u cu client now Hu Hr Ha)|].
  destruct (request_account_deletion_run ext d uid u cu client now Hu Hr Ha)
    as (_ & _ & Hd1).
  fold d1 in Hd1.
  assert (Hu1 : users d1 !! uid = Some (requested_and_scheduled now u))
    by (rewrite Hd1; apply lookup_insert_eq).
  assert (Hv : Security.verify_account_deletion_token ext tok now'
               = Return (Some uid)).
  { unfold Security.verify_account_deletion_token.
    pose proof (decode_cases ext tok now') as Hd.
    destruct (jwt_decode ext tok _ _ now') as [q|]; [|contradiction].
    rewrite Hd. simpl.
    rewrite (issued_deletion_claims ext uid now now' q Ht Hs Hint Hstr Hd).
    reflexivity. }
  pose proof (confirm_account_deletion_run ext d1 {[ "token" := tok ]} tok uid _
                now' (lookup_singleton_eq _ _) Hne Hv Hu1) as Hc.
  simpl in Hc. destruct Hc as [Hres Hd2]. fold confirm in Hres, Hd2.
  split; [exact Hres|]. rewrite Hd2. apply lookup_insert_eq.
Qed.

Lemma mailed_token_confirms_witness :
  tasks_of (Users.request_account_deletion Fixture.externals 1 None
              (1, Fixture.alice) Fixture.hour) Fixture.db_active
  = [send_account_deletion_confirmation "alice@example.com" "account_deletion.1"].
Proof.
  apply (mailed_token_confirms Fixture.externals Fixture.db_active 1 Fixture.alice
           (1, Fixture.alice) None Fixture.hour (2 * Fixture.hour)
           fixture_keeps_type fixture_keeps_sub).
  - reflexivity.
  - discriminate.
  - reflexivity.
  - reflexivity.
  - left. reflexivity.
  - discriminate.
  - discriminate.
Defined.

(** ** More on the sweeper and the clean-up *)

(** X25. After a sweep at [now] no stored account is due any more, and
    sweeping again at that time or an earlier one deletes nothing. *)
Theorem sweep_leaves_nothing_due now t d :
  (forall i u sch, users (sweep now d) !! i = Some u ->
     deletion_scheduled_at u = Some sch -> now < sch)
  /\ (t <= now -> users (sweep t (sweep now d)) = users (sweep now d)).
Proof.
  split.
  - intros i u sch Hi Hs. rewrite sweep_lookup in Hi.
    destruct (users d !! i) as [v|]; [|discriminate].
    destruct (DeletionScheduler.due now v) eqn:Hd; [discriminate|].
    injection Hi as ->. unfold DeletionScheduler.due in Hd. rewrite Hs in Hd.
    apply Z.leb_gt in Hd. exact Hd.
  - intros Hle. apply map_eq. intros i. rewrite (sweep_lookup t), (sweep_lookup now).
    destruct (users d !! i) as [v|]; [|reflexivity].
    destruct (DeletionScheduler.due now v) eqn:Hd; [reflexivity|].
    unfold DeletionScheduler.due in *.
    destruct (deletion_scheduled_at v) as [sch|]; [|reflexivity].
    apply Z.leb_gt in Hd.
    destruct (Z.leb_spec sch t); [lia|reflexivity].
Qed.

(** The deletion loop on the [activities] table: the activities of every
    deleted key go, the others stay in order. *)
Lemma delete_loop_activities (l : list (Z * User)) (w : World) :
  committed w = working w ->
  exists w',
    for_each l (fun user =>
      try_except (db_delete_user (fst user) ;; db_commit) (fun _ => db_rollback)) w
    = (Return tt, w')
    /\ activities (committed w')
       = List.filter (fun a => negb (bool_decide (user_id a ∈ l.*1)))
           (activities (committed w)).
Proof.
  revert w. induction l as [|[j u] l IH]; intros w Hw.
  - exists w. split; [reflexivity|].
    induction (activities (committed w)) as [|a acts IHa]; [reflexivity|].
    cbn [List.filter]. change ([].*1) with (@nil Z).
    rewrite bool_decide_eq_false_2 by apply not_elem_of_nil.
    cbn [negb]. f_equal. exact IHa.
  - simpl.
    unfold mbind at 1, M_bind at 1, bind at 1.
    unfold try_except, db_delete_user, db_commit, modify_working,
      mbind, M_bind, bind. simpl.
    match goal with
    | |- context [for_each l ?b ?w0] => destruct (IH w0 eq_refl) as (w' & Hrun & Ha)
    end.
    exists w'. split; [exact Hrun|]. rewrite Ha. cbn [committed activities].
    change (list_fmap (Z * User)%type Z fst l) with (l.*1). rewrite <- Hw.
    induction (activities (committed w)) as [|a acts IHa]; [reflexivity|].
    simpl. destruct (Z.eqb_spec (user_id a) j) as [->|Hne]; simpl.
    + rewrite IHa. rewrite (bool_decide_eq_true_2 (j ∈ j :: l.*1));
        [reflexivity|apply list_elem_of_here].
    + destruct (bool_decide (user_id a ∈ l.*1)) eqn:Hin.
      * apply bool_decide_eq_true_1 in Hin.
        rewrite (bool_decide_eq_true_2 (user_id a ∈ j :: l.*1));
          [|apply list_elem_of_further, Hin]. simpl. exact IHa.
      * apply bool_decide_eq_false_1 in Hin.
        rewrite (bool_decide_eq_false_2 (user_id a ∈ j :: l.*1)).
        -- simpl. rewrite IHa. reflexivity.
        -- intros Hc. apply elem_of_cons in Hc as [?|?]; contradiction.
Qed.

(** X26. Deleting an account takes its activity log with it: a sweep
    removes the activities of exactly the accounts it deletes and keeps
    all others, in their order. *)
Theorem sweep_cascades_to_activities now d :
  activities (sweep now d)
  = List.filter (fun a => match users d !! user_id a with
                          | Some u => negb (DeletionScheduler.due now u)
                          | None => true
                          end) (activities d).
Proof.
  destruct (delete_loop_activities (query_all (DeletionScheduler.due now) d)
              (open_session d) eq_refl) as (w' & Hrun & Ha).
  unfold sweep, run_request, DeletionScheduler.process_pending_deletions.
  unfold try_except at 1. unfold mbind at 1, M_bind at 1, bind at 1.
  unfold read_working. change (working (open_session d)) with d.
  rewrite Hrun. cbn [fst snd]. rewrite Ha.
  change (committed (open_session d)) with d.
  induction (activities d) as [|a acts IHa]; [reflexivity|].
  simpl. rewrite IHa.
  assert (Heq : negb (bool_decide
                        (user_id a ∈ (query_all (DeletionScheduler.due now) d).*1))
                = match users d !! user_id a with
                  | Some u => negb (DeletionScheduler.due now u)
                  | None => true
                  end).
  { destruct (bool_decide _) eqn:Hin.
    - apply bool_decide_eq_true_1, query_all_keys in Hin as (u & -> & ->).
      reflexivity.
    - apply bool_decide_eq_false_1 in Hin.
      destruct (users d !! user_id a) as [u|] eqn:Hu; [|reflexivity].
      destruct (DeletionScheduler.due now u) eqn:Hd; [|reflexivity].
      exfalso. apply Hin, query_all_keys. eauto. }
  rewrite Heq. reflexivity.
Qed.

Lemma cleanup_activities now d : activities (cleanup now d) = activities d.
Proof.
  destruct (clear_loop (query_all (DeletionScheduler.expired_request now) d)
              (open_session d)) as (w' & Hrun & _ & Ha & _).
  unfold cleanup, run_request, DeletionScheduler.cleanup_expired_requests.
  unfold try_except at 1. unfold mbind at 1, M_bind at 1, bind at 1.
  unfold read_working. change (working (open_session d)) with d.
  unfold mbind at 1, M_bind at 1, bind at 1.
  rewrite Hrun. cbn [db_commit fst snd committed]. exact Ha.
Qed.

(** X27. The clean-up never deletes or adds an account and leaves the
    activity log alone; an account with a scheduled deletion is not
    written; in every row, [deletion_requested_at] keeps its value or
    becomes null and every other column of the model keeps its value
    ([updated_at], which is not a column of the model, is rewritten by the
    UPDATE of a row that is cleared); and running it a second time writes
    nothing more. *)
Theorem cleanup_only_clears_requests now d i :
  activities (cleanup now d) = activities d
  /\ (users (cleanup now d) !! i = None <-> users d !! i = None)
  /\ (forall u, users d !! i = Some u -> deletion_scheduled_at u <> None ->
        users (cleanup now d) !! i = Some u)
  /\ (forall u, users d !! i = Some u ->
        exists u',
          users (cleanup now d) !! i = Some u'
          /\ same_identity u u'
          /\ last_login u' = last_login u
          /\ deletion_scheduled_at u' = deletion_scheduled_at u
          /\ (deletion_requested_at u' = deletion_requested_at u
              \/ deletion_requested_at u' = None))
  /\ users (cleanup now (cleanup now d)) = users (cleanup now d).
Proof.
  split; [apply cleanup_activities|].
  split; [|split; [|split]].
  - rewrite cleanup_lookup. destruct (users d !! i) as [u|].
    + destruct (DeletionScheduler.expired_request now u); split; discriminate.
    + split; reflexivity.
  - intros u Hu Hs. rewrite cleanup_lookup, Hu.
    unfold DeletionScheduler.expired_request.
    destruct (deletion_requested_at u), (deletion_scheduled_at u);
      try reflexivity; contradiction.
  - intros u Hu. rewrite cleanup_lookup, Hu.
    destruct (DeletionScheduler.expired_request now u); eexists;
      (split; [reflexivity|]); (split; [repeat split|]);
      (split; [reflexivity|]); (split; [reflexivity|]).
    + right. reflexivity.
    + left. reflexivity.
  - apply map_eq. intros j. rewrite !cleanup_lookup.
    destruct (users d !! j) as [u|]; [|reflexivity].
    destruct (DeletionScheduler.expired_request now u) eqn:He; [reflexivity|].
    rewrite He. reflexivity.
Qed.

(** X28. Along every run of the handlers from a starting store the two
    deletion fields of an account are null together or set together (a
    request schedules at once), so the clean-up of unconfirmed requests
    never finds a row: run at any time on a reachable store, it leaves the
    [users] table as it is. *)
Theorem cleanup_is_idle_on_reachable ext other s t :
  reachable ext other s ->
  (forall i u, users (store s) !! i = Some u ->
     (deletion_requested_at u = None <-> deletion_scheduled_at u = None))
  /\ users (cleanup t (store s)) = users (store s).
Proof.
  intros Hs. pose proof (reachable_paired ext other s Hs) as Hp.
  split; [exact Hp|].
  apply map_eq. intros i. rewrite cleanup_lookup.
  destruct (users (store s) !! i) as [u|] eqn:Hu; [|reflexivity].
  destruct (DeletionScheduler.expired_request t u) eqn:He; [|reflexivity].
  exfalso. unfold DeletionScheduler.expired_request in He.
  destruct (Hp i u Hu) as [_ H2].
  destruct (deletion_requested_at u); [|discriminate].
  destruct (deletion_scheduled_at u); [discriminate|].
  specialize (H2 eq_refl). discriminate.
Qed.

(** [root] logs in at hour 1, [alice] asks for deletion at hour 2, the
    clean-up runs at hour 9. *)
Lemma cleanup_is_idle_on_reachable_witness :
  users (cleanup (9 * Fixture.hour)
           (apply_operation Scenario.externals Scenario.matches_other
              (OpRequestDeletion 1 None (1, Fixture.alice)) (2 * Fixture.hour)
              (apply_operation Scenario.externals Scenario.matches_other
                 (OpLogin "root" "Maestro2024") Fixture.hour Scenario.db_two)))
  = {[ 1 := requested_and_scheduled (2 * Fixture.hour) Fixture.alice;
       2 := logged_in Fixture.hour Scenario.root ]}.
Proof.
  etransitivity.
  - exact (proj2 (cleanup_is_idle_on_reachable Scenario.externals
                    Scenario.matches_other
                    {| clock := 2 * Fixture.hour;
                       store := apply_operation Scenario.externals
                                  Scenario.matches_other
                                  (OpRequestDeletion 1 None (1, Fixture.alice))
                                  (2 * Fixture.hour)
                                  (apply_operation Scenario.externals
                                     Scenario.matches_other
                                     (OpLogin "root" "Maestro2024") Fixture.hour
                                     Scenario.db_two) |}
                    (9 * Fixture.hour)
                    (reachable_step Scenario.externals Scenario.matches_other
                       {| clock := Fixture.hour;
                          store := apply_operation Scenario.externals
                                     Scenario.matches_other
                                     (OpLogin "root" "Maestro2024") Fixture.hour
                                     Scenario.db_two |}
                       (OpRequestDeletion 1 None (1, Fixture.alice))
                       (2 * Fixture.hour)
                       (reachable_step Scenario.externals Scenario.matches_other
                          {| clock := 0; store := Scenario.db_two |}
                          (OpLogin "root" "Maestro2024") Fixture.hour
                          (reachable_init Scenario.externals Scenario.matches_other
                             0 Scenario.db_two db_two_initial)
                          ltac:(vm_compute; discriminate))
                       ltac:(vm_compute; discriminate)))).
  - vm_compute. reflexivity.
Defined.

Lemma delete_loop_world (l : list (Z * User)) (w : World) :
  committed w = working w ->
  exists w',
    for_each l (fun user =>
      try_except (db_delete_user (fst user) ;; db_commit) (fun _ => db_rollback)) w
    = (Return tt, w')
    /\ committed w' = working w'
    /\ background_tasks w' = background_tasks w.
Proof.
  revert w. induction l as [|[j u] l IH]; intros w Hw.
  - exists w. repeat split. exact Hw.
  - simpl.
    unfold mbind at 1, M_bind at 1, bind at 1.
    unfold try_except, db_delete_user, db_commit, modify_working,
      mbind, M_bind, bind. simpl.
    match goal with
    | |- context [for_each l ?b ?w0] => destruct (IH w0 eq_refl) as (w' & Hrun & Hc & Ht)
    end.
    exists w'. split; [exact Hrun|]. split; [exact Hc|exact Ht].
Qed.

Lemma process_pending_deletions_world now d :
  DeletionScheduler.process_pending_deletions now (open_session d)
  = (Return tt, open_session (sweep now d)).
Proof.
  destruct (delete_loop_world (query_all (DeletionScheduler.due now) d)
              (open_session d) eq_refl) as (w' & Hrun & Hc & Ht).
  assert (Hp : DeletionScheduler.process_pending_deletions now (open_session d)
               = (Return tt, w')).
  { unfold DeletionScheduler.process_pending_deletions. unfold try_except at 1.
    unfold mbind at 1, M_bind at 1, bind at 1. unfold read_working.
    change (working (open_session d)) with d. rewrite Hrun. reflexivity. }
  unfold sweep, run_request. rewrite Hp. cbn [fst snd].
  destruct w' as [c wk tasks]. simpl in Hc, Ht. subst. reflexivity.
Qed.

(** X29. One scheduler pass is the sweep followed by the clean-up; it
    never raises; and on the [users] table the order of the two jobs makes
    no difference. *)
Theorem scheduler_pass_is_sweep_then_cleanup now d :
  result_of (DeletionScheduler.run_deletion_scheduler now) d = Return tt
  /\ db_after (DeletionScheduler.run_deletion_scheduler now) d
     = cleanup now (sweep now d)
  /\ users (cleanup now (sweep now d)) = users (sweep now (cleanup now d)).
Proof.
  assert (Hrun : DeletionScheduler.run_deletion_scheduler now (open_session d)
                 = DeletionScheduler.cleanup_expired_requests now
                     (open_session (sweep now d))).
  { unfold DeletionScheduler.run_deletion_scheduler.
    unfold mbind at 1, M_bind at 1, bind at 1.
    rewrite process_pending_deletions_world. reflexivity. }
  split; [|split].
  - unfold result_of, run_request. rewrite Hrun.
    destruct (clear_loop (query_all (DeletionScheduler.expired_request now)
                            (sweep now d)) (open_session (sweep now d)))
      as (w' & Hc & _).
    unfold DeletionScheduler.cleanup_expired_requests.
    unfold try_except at 1. unfold mbind at 1, M_bind at 1, bind at 1.
    unfold read_working. change (working (open_session (sweep now d)))
      with (sweep now d).
    unfold mbind at 1, M_bind at 1, bind at 1.
    rewrite Hc. reflexivity.
  - unfold db_after, run_request. rewrite Hrun. reflexivity.
  - apply map_eq. intros i.
    rewrite cleanup_lookup, !sweep_lookup, cleanup_lookup.
    destruct (users d !! i) as [u|]; [|reflexivity].
    unfold DeletionScheduler.due, DeletionScheduler.expired_request.
    destruct u as [? ? ? ? ? ? ? ? ? ? [r|] [sch|]]; simpl; try reflexivity.
    all: repeat (match goal with
                 | |- context [?a <=? ?b] => destruct (a <=? b)
                 end; simpl).
    all: reflexivity.
Qed.

(** ** More on the password-reset request *)

(** X30. A password-reset request never changes an account.  It queues at
    most one mail, and when it queues one, the mail goes to the stored
    email of an active account with the requested address and carries a
    reset token issued for that email. *)
Theorem request_password_reset_effects ext client mail now d :
  let reset := PasswordReset.request_password_reset ext client mail now in
  users (db_after reset d) = users d
  /\ (tasks_of reset d = []
      \/ exists i u tok,
           users d !! i = Some u
           /\ email u = mail
           /\ is_active u = true
           /\ Security.create_password_reset_token ext (email u) now = Return tok
           /\ tasks_of reset d = [send_reset_email (email u) tok]).
Proof.
  intros reset. unfold reset, tasks_of, db_after, run_request,
    PasswordReset.request_password_reset, try_except, read_working, lift, raise,
    add_task, db_commit, db_add_activity, modify_working,
    mbind, M_bind, bind, mret, M_ret, ret. simpl.
  destruct (query_first _ d) as [[i u]|] eqn:Hq; [|split; [reflexivity|left; reflexivity]].
  apply query_first_Some in Hq as [Hu Hm]. apply String.eqb_eq in Hm.
  destruct (is_active u) eqn:Ha; [|split; [reflexivity|left; reflexivity]].
  destruct (Security.create_password_reset_token ext (email u) now) as [tok|e] eqn:Ht;
    [|split; [reflexivity|left; reflexivity]].
  destruct (Activity_init ext i _ _ _) as [[[? ?] ?]|]; simpl.
  - split; [reflexivity|]. right. exists i, u, tok. repeat split; assumption.
  - split; [reflexivity|left; reflexivity].
Qed.
